(** * rss-alert-monitor: the filtering, extraction, grouping and ledger code

    A shallow embedding of [process_data.py], [main.py] and
    [send_to_slack.py].  Python values are a small universe of JSON-like
    data, exceptions are explicit results, the language model, the chat
    client and the HTML stripper are oracles passed as arguments, and the
    SQLite table [sent_entries] is a list of rows.

    A character is a code point below 256 (ASCII and the Latin-1
    supplement) and a text a sequence of them.  On these the character
    classes [\s] and [\d], [str.isdigit], the case mappings and [repr] are
    Python's; a text with a code point from 256 on is outside the model.
    Two capitals leave the range, those of U+00B5 and U+00FF: [capitalize]
    keeps these two letters as they are. *)

From Stdlib Require Import Bool List ZArith QArith Lia Ascii String.
Import ListNotations.
Local Open Scope list_scope.
Local Open Scope string_scope.

Set Implicit Arguments.

(** ** Exceptions and results *)

Inductive exn : Type :=
| AttributeError
| TypeError
| KeyError
| ValueError
| RecursionError
| OtherException.

Inductive res (A : Type) : Type :=
| Ok (a : A)
| Raise (e : exn).

Arguments Ok {A} a.
Arguments Raise {A} e.

Definition bind {A B : Type} (m : res A) (k : A -> res B) : res B :=
  match m with
  | Ok a => k a
  | Raise e => Raise e
  end.

Notation "x <- m ;; k" := (bind m (fun x => k))
  (at level 61, m at next level, right associativity).

Definition is_ok {A : Type} (m : res A) : bool :=
  match m with Ok _ => true | Raise _ => false end.

(** ** Python [str] operations *)

Module Str.

Definition code (c : ascii) : nat := nat_of_ascii c.

Definition between (lo hi : nat) (c : ascii) : bool :=
  (lo <=? code c)%nat && (code c <=? hi)%nat.

Definition is_code (n : nat) (c : ascii) : bool := Nat.eqb (code c) n.

(** [\d] and [str.isdecimal]: below 256 the decimal digits are 0-9. *)
Definition is_digit : ascii -> bool := between 48 57.

(** The letters [str.lower] changes: A-Z and U+00C0-U+00DE without the
    multiplication sign U+00D7. *)
Definition is_upper (c : ascii) : bool :=
  between 65 90 c || (between 192 222 c && negb (is_code 215 c)).

(** The letters with a capital below 256: a-z and U+00E0-U+00FE without
    the division sign U+00F7. *)
Definition is_lower (c : ascii) : bool :=
  between 97 122 c || (between 224 254 c && negb (is_code 247 c)).

(** [\s] and [str.isspace]: tab, line feed, vertical tab, form feed,
    carriage return, the four separators 0x1c-0x1f, the space, the next
    line control U+0085 and the no-break space U+00A0. *)
Definition is_space (c : ascii) : bool :=
  between 9 13 c || between 28 32 c || is_code 133 c || is_code 160 c.

Definition lower_char (c : ascii) : ascii :=
  if is_upper c then ascii_of_nat (code c + 32) else c.

Definition upper_char (c : ascii) : ascii :=
  if is_lower c then ascii_of_nat (code c - 32) else c.

Fixpoint lower (s : string) : string :=
  match s with
  | EmptyString => EmptyString
  | String c s' => String (lower_char c) (lower s')
  end.

(** [str.capitalize]: first character in title case, the rest lower case.
    The title case of the sharp s U+00DF is the two letters Ss. *)
Definition capitalize (s : string) : string :=
  match s with
  | EmptyString => EmptyString
  | String c s' =>
      if is_code 223 c then String "S" (String "s" (lower s'))
      else String (upper_char c) (lower s')
  end.

Definition startswith (p s : string) : bool := prefix p s.

(** [sub in s] *)
Fixpoint contains (sub s : string) : bool :=
  prefix sub s ||
  match s with
  | EmptyString => false
  | String _ s' => contains sub s'
  end.

(** [s.replace(a, b)] for a one-character [a]. *)
Fixpoint replace (a : ascii) (b : string) (s : string) : string :=
  match s with
  | EmptyString => EmptyString
  | String c s' =>
      if Ascii.eqb c a then b ++ replace a b s' else String c (replace a b s')
  end.

Fixpoint all_digits (s : string) : bool :=
  match s with
  | EmptyString => true
  | String c s' => is_digit c && all_digits s'
  end.

(** [str.isdecimal], and the texts of digits [int] accepts: at least one
    character and all of them decimal digits. *)
Definition isdecimal (s : string) : bool :=
  match s with
  | EmptyString => false
  | _ => all_digits s
  end.

(** A digit for [str.isdigit]: a decimal digit or one of the superscripts
    U+00B2, U+00B3 and U+00B9. *)
Definition is_digit_like (c : ascii) : bool :=
  is_digit c || is_code 178 c || is_code 179 c || is_code 185 c.

Fixpoint all_digit_like (s : string) : bool :=
  match s with
  | EmptyString => true
  | String c s' => is_digit_like c && all_digit_like s'
  end.

(** [str.isdigit]: at least one character and all of them digits. *)
Definition isdigit (s : string) : bool :=
  match s with
  | EmptyString => false
  | _ => all_digit_like s
  end.

(** [s[:n]] *)
Definition take (n : nat) (s : string) : string := substring 0 n s.

Definition digit_val (c : ascii) : Z := Z.of_nat (code c - 48).

(** [int(s)] for a string of decimal digits, most significant first. *)
Fixpoint int_acc (acc : Z) (s : string) : Z :=
  match s with
  | EmptyString => acc
  | String c s' => int_acc (10 * acc + digit_val c) s'
  end.

Definition int_of (s : string) : Z := int_acc 0 s.

Definition digit_char (z : Z) : ascii := ascii_of_nat (48 + Z.to_nat z).

Fixpoint digits_fuel (fuel : nat) (z : Z) (acc : string) : string :=
  match fuel with
  | O => acc
  | S f =>
      let acc' := String (digit_char (z mod 10)) acc in
      if (z <? 10)%Z then acc' else digits_fuel f (z / 10) acc'
  end.

(** [str(z)] for an integer. *)
Definition of_Z (z : Z) : string :=
  if (z <? 0)%Z
  then String "-" (digits_fuel (S (Z.to_nat (Z.log2 (- z)))) (- z) "")
  else digits_fuel (S (Z.to_nat (Z.log2 z))) z "".

(** Left padding with zeros to a width, as [%04d]. *)
Fixpoint zeros (n : nat) : string :=
  match n with
  | O => ""
  | S n' => String "0" (zeros n')
  end.

Definition zfill (width : nat) (s : string) : string :=
  zeros (width - String.length s) ++ s.

End Str.

(** ** A backtracking matcher for the regular expressions of the code

    Python's [re] tries the alternatives of a pattern from left to right
    and a greedy repetition from the longest run to the shortest; the
    first way that succeeds is the match.  [run] lists the ways a pattern
    can match at a position in that order, so that its head is the match
    Python reports. *)

Module Re.

Inductive regex : Type :=
| Eps
| Bol                               (* ^ *)
| Cls (p : ascii -> bool)           (* one character of a class *)
| Seq (r1 r2 : regex)
| Alt (r1 r2 : regex)
| Star (p : ascii -> bool)          (* c*, greedy, over a class *)
| Grp (name : string) (r : regex).  (* a capturing group *)

(** A matcher state: characters consumed since the start of the subject,
    what is left of it, and the groups closed so far. *)
Record mstate : Type := MState {
  pos : nat;
  rest : string;
  caps : list (string * string)
}.

Fixpoint star_run (p : ascii -> bool) (n : nat) (s : string)
         (cs : list (string * string)) : list mstate :=
  match s with
  | String c s' =>
      if p c then (star_run p (S n) s' cs ++ [MState n s cs])%list
      else [MState n s cs]
  | EmptyString => [MState n s cs]
  end.

Fixpoint run (r : regex) (st : mstate) : list mstate :=
  match r with
  | Eps => [st]
  | Bol => if Nat.eqb (pos st) 0 then [st] else []
  | Cls p =>
      match rest st with
      | String c s' => if p c then [MState (S (pos st)) s' (caps st)] else []
      | EmptyString => []
      end
  | Seq r1 r2 => flat_map (run r2) (run r1 st)
  | Alt r1 r2 => (run r1 st ++ run r2 st)%list
  | Star p => star_run p (pos st) (rest st) (caps st)
  | Grp name r' =>
      map (fun st' =>
             MState (pos st') (rest st')
                    (caps st'
                       ++ [(name, Str.take (pos st' - pos st) (rest st))])%list)
          (run r' st)
  end.

(** Pattern building blocks. *)
Definition chr (c : ascii) : regex := Cls (Ascii.eqb c).
Definition chr_i (c : ascii) : regex :=
  Cls (fun x => Ascii.eqb (Str.lower_char x) (Str.lower_char c)).
(** [\d]: a decimal digit, which below 256 is one of 0-9. *)
Definition digit : regex := Cls Str.is_digit.
Definition opt (r : regex) : regex := Alt r Eps.
Definition plus (p : ascii -> bool) : regex := Seq (Cls p) (Star p).

Fixpoint lit (s : string) : regex :=
  match s with
  | EmptyString => Eps
  | String c s' => Seq (chr c) (lit s')
  end.

(** A literal under [re.IGNORECASE]. *)
Fixpoint lit_i (s : string) : regex :=
  match s with
  | EmptyString => Eps
  | String c s' => Seq (chr_i c) (lit_i s')
  end.

Fixpoint alts (rs : list regex) : regex :=
  match rs with
  | [] => Cls (fun _ => false)
  | [r] => r
  | r :: rs' => Alt r (alts rs')
  end.

Fixpoint seqs (rs : list regex) : regex :=
  match rs with
  | [] => Eps
  | r :: rs' => Seq r (seqs rs')
  end.

(** [re.match]: the first way to match at the start of the subject. *)
Definition match_ (r : regex) (s : string) : option mstate :=
  hd_error (run r (MState 0 s [])).

(** [re.search]: the first start position, from the left, with a match. *)
Fixpoint search_from (r : regex) (n : nat) (s : string) : option mstate :=
  match run r (MState n s []) with
  | st :: _ => Some st
  | [] =>
      match s with
      | EmptyString => None
      | String _ s' => search_from r (S n) s'
      end
  end.

Definition search (r : regex) (s : string) : option mstate :=
  search_from r 0 s.

(** [m.group(name)], the empty string when the group took no part. *)
Fixpoint assoc (name : string) (cs : list (string * string)) : string :=
  match cs with
  | [] => ""
  | (n, g) :: cs' => if String.eqb n name then g else assoc name cs'
  end.

Definition group (name : string) (st : mstate) : string :=
  assoc name (caps st).

End Re.

(** ** Python values

    What [json.loads] returns and what a feed entry holds: [None],
    booleans, integers, floats, strings, lists and dictionaries with string
    keys.  A float carries its exact value, which decides truth and
    equality, and the text [repr] prints for it. *)

Inductive pyval : Type :=
| PNone
| PBool (b : bool)
| PInt (z : Z)
| PFloat (v : Q) (text : string)
| PStr (s : string)
| PList (l : list pyval)
| PDict (d : list (string * pyval)).

Module Py.

(** [bool(v)] *)
Definition truthy (v : pyval) : bool :=
  match v with
  | PNone => false
  | PBool b => b
  | PInt z => negb (z =? 0)%Z
  | PFloat q _ => negb (Qeq_bool q 0)
  | PStr s => negb (String.eqb s "")
  | PList l => match l with [] => false | _ => true end
  | PDict d => match d with [] => false | _ => true end
  end.

Definition hex_digit (n : nat) : ascii :=
  if (n <? 10)%nat then ascii_of_nat (48 + n) else ascii_of_nat (87 + n).

Definition dquote : ascii := ascii_of_nat 34.

(** One character inside the quotes of [repr(s)]. *)
Definition repr_char (quote : ascii) (c : ascii) : string :=
  if Ascii.eqb c "\" then "\\"
  else if Ascii.eqb c quote then String "\" (String quote "")
  else if Ascii.eqb c "009" then "\t"
  else if Ascii.eqb c "010" then "\n"
  else if Ascii.eqb c "013" then "\r"
  else if (Str.code c <? 32)%nat || Str.between 127 160 c
          || Str.is_code 173 c
  then String "\" (String "x" (String (hex_digit (Str.code c / 16))
                                (String (hex_digit (Str.code c mod 16)) "")))
  else String c "".

Fixpoint repr_chars (quote : ascii) (s : string) : string :=
  match s with
  | EmptyString => ""
  | String c s' => repr_char quote c ++ repr_chars quote s'
  end.

(** [repr(s)] of a string: single quotes, unless the text has a single
    quote and no double quote. *)
Definition repr_str (s : string) : string :=
  let quote : ascii :=
    if Str.contains "'" s && negb (Str.contains (String dquote "") s)
    then dquote else "'"%char in
  String quote (repr_chars quote s ++ String quote "").

Fixpoint repr (v : pyval) : string :=
  match v with
  | PNone => "None"
  | PBool true => "True"
  | PBool false => "False"
  | PInt z => Str.of_Z z
  | PFloat _ t => t
  | PStr s => repr_str s
  | PList l =>
      "[" ++ (fix items (l : list pyval) : string :=
                match l with
                | [] => ""
                | x :: l' =>
                    match l' with
                    | [] => repr x
                    | _ => repr x ++ ", " ++ items l'
                    end
                end) l ++ "]"
  | PDict d =>
      "{" ++ (fix items (d : list (string * pyval)) : string :=
                match d with
                | [] => ""
                | (k, x) :: d' =>
                    match d' with
                    | [] => repr_str k ++ ": " ++ repr x
                    | _ => repr_str k ++ ": " ++ repr x ++ ", " ++ items d'
                    end
                end) d ++ "}"
  end.

(** [str(v)], which an f-string applies to each field. *)
Definition str (v : pyval) : string :=
  match v with
  | PStr s => s
  | _ => repr v
  end.

(** [d.get(k)] on the items of a dictionary. *)
Fixpoint lookup (k : string) (d : list (string * pyval)) : option pyval :=
  match d with
  | [] => None
  | (k', v) :: d' => if String.eqb k k' then Some v else lookup k d'
  end.

(** [d.get(k, default)] *)
Definition get (k : string) (default : pyval) (d : list (string * pyval))
  : pyval :=
  match lookup k d with
  | Some v => v
  | None => default
  end.

(** [v.get(k, default)] on any value: only a dictionary has [get]. *)
Definition get_attr (v : pyval) (k : string) (default : pyval) : res pyval :=
  match v with
  | PDict d => Ok (get k default d)
  | _ => Raise AttributeError
  end.

(** [v.lower()]: only a string has [lower]. *)
Definition lower (v : pyval) : res string :=
  match v with
  | PStr s => Ok (Str.lower s)
  | _ => Raise AttributeError
  end.

(** [d[k] = v]: replaces the value in place or appends a new item. *)
Fixpoint set (k : string) (v : pyval) (d : list (string * pyval))
  : list (string * pyval) :=
  match d with
  | [] => [(k, v)]
  | (k', v') :: d' =>
      if String.eqb k k' then (k, v) :: d' else (k', v') :: set k v d'
  end.

(** The number a value compares as: [True == 1 == 1.0]. *)
Definition num_of (v : pyval) : option Q :=
  match v with
  | PBool b => Some (if b then 1 else 0)%Q
  | PInt z => Some (inject_Z z)
  | PFloat q _ => Some q
  | _ => None
  end.

(** [a == b] for two hashable values, as a dictionary compares its keys. *)
Definition key_eqb (a b : pyval) : bool :=
  match a, b with
  | PStr s, PStr t => String.eqb s t
  | PNone, PNone => true
  | _, _ =>
      match num_of a, num_of b with
      | Some x, Some y => Qeq_bool x y
      | _, _ => false
      end
  end.

Definition hashable (v : pyval) : bool :=
  match v with
  | PList _ | PDict _ => false
  | _ => true
  end.

End Py.

(** A dictionary keyed by arbitrary hashable values, in insertion order:
    the [details_map] of the extractor. *)
Module KMap.

Definition t : Type := list (pyval * pyval).

Fixpoint find (k : pyval) (m : t) : option pyval :=
  match m with
  | [] => None
  | (k', v) :: m' => if Py.key_eqb k k' then Some v else find k m'
  end.

Definition mem (k : pyval) (m : t) : bool :=
  match find k m with Some _ => true | None => false end.

Fixpoint set (k : pyval) (v : pyval) (m : t) : t :=
  match m with
  | [] => [(k, v)]
  | (k', v') :: m' =>
      if Py.key_eqb k k' then (k', v) :: m' else (k', v') :: set k v m'
  end.

Definition keys (m : t) : list pyval := map fst m.

(** [m.update(m2)] *)
Definition update (m m2 : t) : t :=
  fold_left (fun acc kv => set (fst kv) (snd kv) acc) m2 m.

End KMap.

(** ** [datetime.strptime] and [strftime]

    The standard library turns a format into a regular expression, one
    named group per directive, compiles it with [re.IGNORECASE], matches it
    at the start of the text and refuses text left over; the groups are
    then converted and the [datetime] constructor checks the values.  The
    names are those of the C locale and the host's time zone is UTC. *)

Module Time.

Record datetime : Type := DateTime {
  year : Z; month : Z; day : Z;
  hour : Z; minute : Z; second : Z
}.

Definition a_weekday : list string :=
  ["mon"; "tue"; "wed"; "thu"; "fri"; "sat"; "sun"].

Definition a_month : list string :=
  ["jan"; "feb"; "mar"; "apr"; "may"; "jun";
   "jul"; "aug"; "sep"; "oct"; "nov"; "dec"].

Definition f_month : list string :=
  ["january"; "february"; "march"; "april"; "may"; "june"; "july";
   "august"; "september"; "october"; "november"; "december"].

Definition timezone : list string := ["utc"; "gmt"].

(** [sorted(names, key=len, reverse=True)], which keeps the order of names
    of one length. *)
Fixpoint insert_by_len (s : string) (l : list string) : list string :=
  match l with
  | [] => [s]
  | x :: l' =>
      if (String.length x <=? String.length s)%nat then s :: l
      else x :: insert_by_len s l'
  end.

Definition sort_by_len (l : list string) : list string :=
  fold_right insert_by_len [] l.

(** [__seqToRE]: one group that matches any of the names. *)
Definition seqToRE (names : list string) (directive : string) : Re.regex :=
  Re.Grp directive (Re.alts (map Re.lit_i (sort_by_len names))).

Definition range (lo hi : ascii) : Re.regex :=
  Re.Cls (Str.between (Str.code lo) (Str.code hi)).

Definition d : Re.regex := Re.digit.

(** The regular expression of a directive; [None] for a bad directive. *)
Definition directive_re (c : ascii) : option Re.regex :=
  if Ascii.eqb c "d" then
    Some (Re.Grp "d" (Re.alts [Re.Seq (Re.chr "3") (range "0" "1");
                               Re.Seq (range "1" "2") d;
                               Re.Seq (Re.chr "0") (range "1" "9");
                               range "1" "9";
                               Re.Seq (Re.chr " ") (range "1" "9")]))
  else if Ascii.eqb c "H" then
    Some (Re.Grp "H" (Re.alts [Re.Seq (Re.chr "2") (range "0" "3");
                               Re.Seq (range "0" "1") d;
                               d]))
  else if Ascii.eqb c "m" then
    Some (Re.Grp "m" (Re.alts [Re.Seq (Re.chr "1") (range "0" "2");
                               Re.Seq (Re.chr "0") (range "1" "9");
                               range "1" "9"]))
  else if Ascii.eqb c "M" then
    Some (Re.Grp "M" (Re.alts [Re.Seq (range "0" "5") d; d]))
  else if Ascii.eqb c "S" then
    Some (Re.Grp "S" (Re.alts [Re.Seq (Re.chr "6") (range "0" "1");
                               Re.Seq (range "0" "5") d;
                               d]))
  else if Ascii.eqb c "Y" then
    Some (Re.Grp "Y" (Re.seqs [d; d; d; d]))
  else if Ascii.eqb c "z" then
    (* [+-]\d\d:?[0-5]\d(:?[0-5]\d(\.\d{1,6})?)?|(?-i:Z) *)
    Some (Re.Grp "z"
            (Re.Alt
               (Re.seqs
                  [Re.Alt (Re.chr "+") (Re.chr "-"); d; d;
                   Re.opt (Re.chr ":"); range "0" "5"; d;
                   Re.opt
                     (Re.seqs
                        [Re.opt (Re.chr ":"); range "0" "5"; d;
                         Re.opt
                           (Re.seqs
                              [Re.chr "."; d; Re.opt d; Re.opt d; Re.opt d;
                               Re.opt d; Re.opt d])])])
               (Re.chr "Z")))
  else if Ascii.eqb c "a" then Some (seqToRE a_weekday "a")
  else if Ascii.eqb c "b" then Some (seqToRE a_month "b")
  else if Ascii.eqb c "B" then Some (seqToRE f_month "B")
  else if Ascii.eqb c "Z" then Some (seqToRE timezone "Z")
  else if Ascii.eqb c "%" then Some (Re.chr "%")
  else None.

(** [TimeRE.pattern]: a run of white space in the format stands for
    [\s+], a directive for its expression, any other character for itself. *)
Fixpoint pattern_from (after_space : bool) (fmt : string) : option Re.regex :=
  match fmt with
  | EmptyString => Some Re.Eps
  | String c fmt' =>
      if Str.is_space c then
        match pattern_from true fmt' with
        | Some r =>
            Some (if after_space then r else Re.Seq (Re.plus Str.is_space) r)
        | None => None
        end
      else if Ascii.eqb c "%" then
        match fmt' with
        | EmptyString => None
        | String c' fmt'' =>
            match directive_re c', pattern_from false fmt'' with
            | Some r1, Some r2 => Some (Re.Seq r1 r2)
            | _, _ => None
            end
        end
      else
        match pattern_from false fmt' with
        | Some r => Some (Re.Seq (Re.chr_i c) r)
        | None => None
        end
  end.

Definition pattern (fmt : string) : option Re.regex := pattern_from false fmt.

Definition is_leap (y : Z) : bool :=
  ((y mod 4 =? 0) && (negb (y mod 100 =? 0) || (y mod 400 =? 0)))%Z.

Definition days_in_month (y m : Z) : Z :=
  if (m =? 2)%Z then (if is_leap y then 29 else 28)
  else if ((m =? 4) || (m =? 6) || (m =? 9) || (m =? 11))%Z then 30
  else 31.

(** [names.index(s)], counted from one as [f_month] and [a_month] are. *)
Fixpoint index_from (n : Z) (s : string) (names : list string) : Z :=
  match names with
  | [] => 0
  | x :: names' =>
      if String.eqb x s then n else index_from (n + 1) s names'
  end.

(** [z[i:j]] *)
Definition slice (i j : nat) (s : string) : string := substring i (j - i) s.

Definition char_at (i : nat) (s : string) : option ascii := String.get i s.

Definition is_char (c : ascii) (o : option ascii) : bool :=
  match o with
  | Some x => Ascii.eqb x c
  | None => false
  end.

Definition from (i : nat) (s : string) : string :=
  substring i (String.length s - i) s.

(** The conversion of the [%z] group: the colons are taken out, the hours,
    minutes and seconds read with [int], and the offset handed to
    [timezone], which wants less than a day.  [false] is a [ValueError]. *)
Definition utc_offset_ok (z : string) : bool :=
  if String.eqb z "Z" then true
  else
    let stripped : option string :=
      if is_char ":" (char_at 3 z) then
        let z1 := slice 0 3 z ++ from 4 z in
        if (5 <? String.length z1)%nat then
          if is_char ":" (char_at 5 z1)
          then Some (slice 0 5 z1 ++ from 6 z1)
          else None
        else Some z1
      else Some z in
    match stripped with
    | None => false
    | Some z2 =>
        let secs := slice 5 7 z2 in
        (String.eqb secs "" || Str.isdecimal secs)
        && (Str.int_of (slice 1 3 z2) <? 24)%Z
    end.

(** [int(s)], which skips the blank a day may start with. *)
Definition int (s : string) : Z :=
  match s with
  | String " " s' => Str.int_of s'
  | _ => Str.int_of s
  end.

Definition has_group (name : string) (m : Re.mstate) : bool :=
  existsb (fun c => String.eqb (fst c) name) (Re.caps m).

(** [datetime.strptime(text, fmt)] *)
Definition strptime (text : pyval) (fmt : string) : res datetime :=
  match text with
  | PStr s =>
      match pattern fmt with
      | None => Raise ValueError
      | Some re =>
          match Re.match_ re s with
          | None => Raise ValueError
          | Some m =>
              if negb (String.eqb (Re.rest m) "") then Raise ValueError
              else
                let y := if has_group "Y" m then int (Re.group "Y" m)
                         else 1900%Z in
                let mo :=
                  if has_group "m" m then int (Re.group "m" m)
                  else if has_group "B" m
                  then index_from 1 (Str.lower (Re.group "B" m)) f_month
                  else if has_group "b" m
                  then index_from 1 (Str.lower (Re.group "b" m)) a_month
                  else 1%Z in
                let dy := if has_group "d" m then int (Re.group "d" m)
                          else 1%Z in
                let h := int (Re.group "H" m) in
                let mi := int (Re.group "M" m) in
                let sec := int (Re.group "S" m) in
                if has_group "z" m && negb (utc_offset_ok (Re.group "z" m))
                then Raise ValueError
                else if ((1 <=? y) && (1 <=? dy)
                         && (dy <=? days_in_month y mo) && (sec <=? 59))%Z
                then Ok (DateTime y mo dy h mi sec)
                else Raise ValueError
          end
      end
  | _ => Raise TypeError
  end.

Definition two (z : Z) : string := Str.zfill 2 (Str.of_Z z).

(** [dt.strftime('%Y-%m-%d')]: month and day on two digits, and the year
    as the C library of Linux prints it, without zeros before a year
    under 1000. *)
Definition strftime_ymd (dt : datetime) : string :=
  Str.of_Z (year dt) ++ "-" ++ two (month dt) ++ "-" ++ two (day dt).

End Time.

(** ** [float(s)] and the magnitude thresholds

    [float] rounds a decimal text to the nearest double, ties to even, and
    the literals [5.8] and [6.0] are doubles too.  A double in [4, 8) is
    [m / 2^50] for an integer [m]; the value [v] rounds to a double below
    [m / 2^50] exactly when it lies under the midpoint of [m - 1] and [m],
    or on it when [m - 1] is the even neighbour. *)

Module Float.

Fixpoint count (c : ascii) (s : string) : nat :=
  match s with
  | EmptyString => 0
  | String x s' => (if Ascii.eqb x c then 1 else 0) + count c s'
  end.

Fixpoint before (c : ascii) (s : string) : string :=
  match s with
  | EmptyString => ""
  | String x s' => if Ascii.eqb x c then "" else String x (before c s')
  end.

Fixpoint after (c : ascii) (s : string) : string :=
  match s with
  | EmptyString => ""
  | String x s' => if Ascii.eqb x c then s' else after c s'
  end.

Fixpoint pow10 (n : nat) : positive :=
  match n with
  | O => 1%positive
  | S n' => (10 * pow10 n')%positive
  end.

(** The exact value of [float(s)]'s argument, for a text of digits and
    dots with at least one digit; [None] is the [ValueError] of a text with
    two dots or more, or with a digit that is no decimal digit. *)
Definition decimal (s : string) : option Q :=
  if (count "." s <=? 1)%nat && Str.isdecimal (Str.replace "." "" s) then
    let frac := after "." s in
    Some (Qmake (Str.int_of (before "." s ++ frac))
                (pow10 (String.length frac)))
  else None.

(** [float(s) < m / 2^50] for a text of value [v]. *)
Definition lt_double (v : Q) (m : Z) : bool :=
  let mid := Qmake (2 * m - 1) (2 ^ 51) in
  if Z.even (m - 1) then Qle_bool v mid else negb (Qle_bool mid v).

(** The double [5.8] is [6530219459687219 / 2^50]. *)
Definition m5_8 : Z := 6530219459687219.
(** The double [6.0] is [6 * 2^50 / 2^50]. *)
Definition m6_0 : Z := 6755399441055744.

Definition lt_5_8 (v : Q) : bool := lt_double v m5_8.
Definition lt_6_0 (v : Q) : bool := lt_double v m6_0.

End Float.

(** ** process_data.py *)

(** Python's limit on nested calls, which ends a recursion that does not
    end by itself with a [RecursionError]. *)
Definition recursion_limit : nat := 1000.

Definition date_formats : list string :=
  ["%a, %d %b %Y %H:%M:%S %Z";
   "%Y-%m-%dT%H:%M:%SZ";
   "%Y-%m-%dT%H:%M:%S%z";
   "%Y-%m-%d %H:%M:%S UTC";
   "%Y-%m-%d %H:%M:%S";
   "%Y-%m-%d";
   "%d %b %Y";
   "%B %d, %Y";
   "%m/%d/%Y";
   "%d/%m/%Y"].

(** [(\d{4}[-/]\d{1,2}[-/]\d{1,2})] *)
Definition embedded_date_re : Re.regex :=
  let sep := Re.Alt (Re.chr "-") (Re.chr "/") in
  Re.Grp "1"
    (Re.seqs [Re.digit; Re.digit; Re.digit; Re.digit; sep;
              Re.digit; Re.opt Re.digit; sep;
              Re.digit; Re.opt Re.digit]).

(** The loop over the formats: the first one that parses decides; a
    [ValueError] or [TypeError] moves on to the next. *)
Fixpoint try_formats (date_str : pyval) (fmts : list string)
  : res (option string) :=
  match fmts with
  | [] => Ok None
  | fmt :: fmts' =>
      match Time.strptime date_str fmt with
      | Ok dt => Ok (Some (Time.strftime_ymd dt))
      | Raise ValueError | Raise TypeError => try_formats date_str fmts'
      | Raise e => Raise e
      end
  end.

Fixpoint normalize_date_rec (depth : nat) (date_str : pyval) : res string :=
  match depth with
  | O => Raise RecursionError
  | S depth' =>
      if negb (Py.truthy date_str) then Ok "Unknown Date"
      else
        found <- try_formats date_str date_formats;;
        match found with
        | Some iso => Ok iso
        | None =>
            match date_str with
            | PStr s =>
                match Re.search embedded_date_re s with
                | Some m =>
                    let extracted_date := Str.replace "/" "-" (Re.group "1" m) in
                    match normalize_date_rec depth' (PStr extracted_date) with
                    | Raise ValueError | Raise TypeError => Ok "Unknown Date"
                    | r => r
                    end
                | None => Ok "Unknown Date"
                end
            | _ => Raise TypeError
            end
        end
  end.

Definition normalize_date (date_str : pyval) : res string :=
  normalize_date_rec recursion_limit date_str.

(** The magnitude pattern, under [re.IGNORECASE]: the start of the text or
    a white space [(?:^|\s)], the token [(?:m|magnitude)], white space
    [\s*], and the group 1 of [\d+\.?\d*]. *)
Definition magnitude_re : Re.regex :=
  Re.seqs [Re.Alt Re.Bol (Re.Cls Str.is_space);
           Re.Alt (Re.lit_i "m") (Re.lit_i "magnitude");
           Re.Star Str.is_space;
           Re.Grp "1" (Re.seqs [Re.plus Str.is_digit;
                                Re.opt (Re.chr ".");
                                Re.Star Str.is_digit])].

(** [alertlevel\s*>\s*green] under [re.IGNORECASE] *)
Definition alertlevel_re : Re.regex :=
  Re.seqs [Re.lit_i "alertlevel"; Re.Star Str.is_space; Re.chr ">";
           Re.Star Str.is_space; Re.lit_i "green"].

(** [md\s+(\d+)] *)
Definition md_re : Re.regex :=
  Re.seqs [Re.lit "md"; Re.plus Str.is_space; Re.Grp "1" (Re.plus Str.is_digit)].

(** [entry.get(k, "").lower() if isinstance(entry, dict) else ""] *)
Definition field_lower (entry : pyval) (k : string) : res string :=
  match entry with
  | PDict d => Py.lower (Py.get k (PStr "") d)
  | _ => Ok ""
  end.

(** [entry_details and isinstance(entry_details, dict)] *)
Definition details_dict (entry_details : pyval)
  : option (list (string * pyval)) :=
  match entry_details with
  | PDict d => if Py.truthy entry_details then Some d else None
  | _ => None
  end.

(** The magnitude check on the extracted details, shared by the GDACS and
    the USGS rules up to the threshold: the type must be an earthquake and
    the severity a text of digits and dots that [float] reads. *)
Definition low_magnitude (below : Q -> bool) (d : list (string * pyval))
  : res bool :=
  disaster_type <- Py.lower (Py.get "disaster_type" (PStr "") d);;
  if String.eqb disaster_type "earthquake" then
    match Py.get "severity" (PStr "") d with
    | PStr magnitude =>
        if Str.isdigit (Str.replace "." "" magnitude) then
          match Float.decimal magnitude with
          | Some v => Ok (below v)
          | None => Ok false
          end
        else Ok false
    | _ => Ok false
    end
  else Ok false.

(** The magnitude a text announces: [float(magnitude_match.group(1))]. *)
Definition magnitude_in (text : string) : option Q :=
  match Re.search magnitude_re text with
  | Some m => Float.decimal (Re.group "1" m)
  | None => None
  end.

Definition has_match (r : Re.regex) (text : string) : bool :=
  match Re.search r text with Some _ => true | None => false end.

Definition gdacs_rules (entry entry_details : pyval) (title summary : string)
  : res bool :=
  let items := match entry with PDict d => d | _ => [] end in
  (* 1. the title starts with the level *)
  if Str.startswith "green " title then Ok true
  (* 2. the keyword in title or summary *)
  else if Str.contains "green alert" title
          || Str.contains "green alert" summary then Ok true
  (* 3. a key that names the alert level, with the value green *)
  else if existsb
            (fun kv =>
               Str.contains "alertlevel" (Str.lower (fst kv))
               && match snd kv with
                  | PStr v => String.eqb (Str.lower v) "green"
                  | _ => false
                  end)
            items then Ok true
  else
    (* 4. the printed entry *)
    let raw_xml := Py.str entry in
    if Str.contains "alertlevel" (Str.lower raw_xml)
       && Str.contains "green" (Str.lower raw_xml)
       && has_match alertlevel_re raw_xml then Ok true
    else
      (* 5. the extracted alert level *)
      green <- match details_dict entry_details with
               | Some d =>
                   alert_level <- Py.lower (Py.get "alert_level" (PStr "") d);;
                   Ok (String.eqb alert_level "green")
               | None => Ok false
               end;;
      if green : bool then Ok true
      (* 6. the title pattern *)
      else if Str.contains "green earthquake" title then Ok true
      else
        (* 7. the icon *)
        icon <- match Py.lookup "icon" items with
                | Some icon_url =>
                    u <- Py.lower icon_url;;
                    Ok (Str.contains "green" u && Str.contains "eq" u)
                | None => Ok false
                end;;
        if icon : bool then Ok true
        else
          (* 8. the magnitude of an earthquake *)
          match details_dict entry_details with
          | Some d => low_magnitude Float.lt_6_0 d
          | None => Ok false
          end.

Definition usgs_rules (entry_details : pyval) (title summary : string)
  : res bool :=
  let from_title := Re.search magnitude_re title in
  let low_title :=
    match from_title with
    | Some m =>
        match Float.decimal (Re.group "1" m) with
        | Some v => Float.lt_5_8 v
        | None => false
        end
    | None => false
    end in
  if low_title then Ok true
  else
    let low_summary :=
      match from_title with
      | Some _ => false
      | None =>
          match Re.search magnitude_re summary with
          | Some m =>
              match Float.decimal (Re.group "1" m) with
              | Some v => Float.lt_5_8 v
              | None => false
              end
          | None => false
          end
      end in
    if low_summary then Ok true
    else
      match details_dict entry_details with
      | Some d => low_magnitude Float.lt_5_8 d
      | None => Ok false
      end.

(** [should_filter_entry(entry, entry_details=None)]: [Ok true] drops the
    entry, [Ok false] keeps it. *)
Definition should_filter_entry (entry entry_details : pyval) : res bool :=
  match entry with
  | PNone => Ok true
  | _ =>
      source_type <- field_lower entry "source_type";;
      title <- field_lower entry "title";;
      summary <- field_lower entry "summary";;
      link <- field_lower entry "link";;
      if String.eqb source_type "noaa_spc"
         && (Str.contains "/md/" link || Str.startswith "spc md" title)
      then Ok true
      else if String.eqb source_type "noaa_spc"
              && (Str.contains "/outlook/" link
                  || Str.contains "outlook" (Str.lower title))
      then Ok true
      else if String.eqb source_type "gdacs"
      then gdacs_rules entry entry_details title summary
      else if String.eqb source_type "usgs"
      then usgs_rules entry_details title summary
      else Ok false
  end.

(** *** The detail extractor *)

(** The dictionary [prepare_entry_for_extraction] returns: always these
    six keys, whatever the values. *)
Record prepared : Type := Prepared {
  p_id : pyval;
  p_title : pyval;
  p_summary : pyval;
  p_source : pyval;
  p_source_type : pyval;
  p_published : pyval
}.

(** What one call of the language model comes to, once [json.loads] has
    read the content. *)
Inductive completion : Type :=
| ApiFailure              (* the call raises: API, connection, rate limit, other *)
| Malformed               (* the content is no JSON: JSONDecodeError *)
| Parsed (v : pyval).     (* json.loads(content) *)

(** The outside world of [process_data]: the HTML stripper ([None] when it
    raises) and the language model, which answers a batch at an attempt. *)
Record oracle : Type := Oracle {
  get_text : string -> option string;
  complete : list prepared -> nat -> completion
}.

(** [summary[:1000] if summary else ""] *)
Definition clip_summary (summary : pyval) : res pyval :=
  if Py.truthy summary then
    match summary with
    | PStr s => Ok (PStr (Str.take 1000 s))
    | PList l => Ok (PList (firstn 1000 l))
    | _ => Raise TypeError
    end
  else Ok (PStr "").

Definition prepare_entry_for_extraction (w : oracle) (entry : pyval)
  : res prepared :=
  title <- Py.get_attr entry "title" (PStr "");;
  raw_summary <- Py.get_attr entry "summary" (PStr "");;
  let summary :=
    match raw_summary with
    | PStr s =>
        if Str.startswith "<" s || Str.contains "<" s then
          match get_text w s with
          | Some text => PStr text
          | None => raw_summary
          end
        else raw_summary
    | _ => raw_summary
    end in
  source <- Py.get_attr entry "source" (PStr "");;
  source_type <- Py.get_attr entry "source_type" (PStr "");;
  published <- Py.get_attr entry "published" (PStr "");;
  id <- Py.get_attr entry "link" (PStr "");;
  clipped <- clip_summary summary;;
  Ok (Prepared id title clipped source source_type published).

(** [len(v)] *)
Definition len (v : pyval) : res nat :=
  match v with
  | PStr s => Ok (String.length s)
  | PList l => Ok (List.length l)
  | PDict d => Ok (List.length d)
  | _ => Raise TypeError
  end.

(** [summary[:100] + "..." if len(summary) > 100 else summary] *)
Definition short_description (summary : pyval) : res pyval :=
  n <- len summary;;
  if (100 <? n)%nat then
    match summary with
    | PStr s => Ok (PStr (Str.take 100 s ++ "..."))
    | _ => Raise TypeError
    end
  else Ok summary.

(** The record synthesized for an entry the model gave nothing for. *)
Definition fallback_details (entry : prepared) : res pyval :=
  date <- normalize_date (p_published entry);;
  description <- short_description (p_summary entry);;
  Ok (PDict [("disaster_type", PStr "Unknown Type");
             ("location", PStr "Unknown Location");
             ("date", PStr date);
             ("severity", PNone);
             ("alert_level", PStr "");
             ("description", description)]).

(** [details_map[k] = v], a [TypeError] for a list or a dictionary as key. *)
Definition store (k v : pyval) (m : KMap.t) : res KMap.t :=
  if Py.hashable k then Ok (KMap.set k v m) else Raise TypeError.

(** [k not in details_map] *)
Definition missing (k : pyval) (m : KMap.t) : res bool :=
  if Py.hashable k then Ok (negb (KMap.mem k m)) else Raise TypeError.

(** The array of results, whatever shape the answer has. *)
Definition results_array (parsed_results : pyval) : pyval :=
  match parsed_results with
  | PDict d =>
      match Py.lookup "results" d with
      | Some r => r
      | None =>
          match Py.lookup "id" d with
          | Some _ => PList [parsed_results]
          | None => PList []
          end
      end
  | PList _ => parsed_results
  | _ => PList []
  end.

Fixpoint chars (s : string) : list pyval :=
  match s with
  | EmptyString => []
  | String c s' => PStr (String c "") :: chars s'
  end.

(** What [for result in v] goes through. *)
Definition iterate (v : pyval) : res (list pyval) :=
  match v with
  | PList l => Ok l
  | PDict d => Ok (map (fun kv => PStr (fst kv)) d)
  | PStr s => Ok (chars s)
  | _ => Raise TypeError
  end.

(** One result of the model: stored under its id when the id is truthy,
    its date normalized when it has one. *)
Definition store_result (result : pyval) (details_map : KMap.t)
  : res KMap.t :=
  entry_id <- Py.get_attr result "id" PNone;;
  if Py.truthy entry_id then
    match result with
    | PDict r =>
        r' <- (if Py.truthy (Py.get "date" PNone r)
               then date <- normalize_date (Py.get "date" PNone r);;
                    Ok (Py.set "date" (PStr date) r)
               else Ok r);;
        store entry_id
          (PDict [("disaster_type", Py.get "disaster_type" (PStr "Unknown Type") r');
                  ("location", Py.get "location" (PStr "Unknown Location") r');
                  ("date", Py.get "date" (PStr "Unknown Date") r');
                  ("severity", Py.get "severity" PNone r');
                  ("alert_level", Py.get "alert_level" (PStr "") r');
                  ("description", Py.get "description" (PStr "") r')])
          details_map
    | _ => Raise AttributeError
    end
  else Ok details_map.

Fixpoint store_results (results : list pyval) (details_map : KMap.t)
  : res KMap.t :=
  match results with
  | [] => Ok details_map
  | result :: results' =>
      m <- store_result result details_map;;
      store_results results' m
  end.

(** The fallback for each entry whose id is not a key yet. *)
Fixpoint fill_missing (entries : list prepared) (details_map : KMap.t)
  : res KMap.t :=
  match entries with
  | [] => Ok details_map
  | entry :: entries' =>
      absent <- missing (p_id entry) details_map;;
      m <- (if absent : bool
            then fb <- fallback_details entry;;
                 store (p_id entry) fb details_map
            else Ok details_map);;
      fill_missing entries' m
  end.

(** The body of the [try] once the answer is parsed. *)
Definition read_answer (entries : list prepared) (parsed_results : pyval)
  : res KMap.t :=
  results <- iterate (results_array parsed_results);;
  details_map <- store_results results [];;
  fill_missing entries details_map.

(** The fallback for every entry, after the last attempt. *)
Fixpoint all_fallbacks (entries : list prepared) (m : KMap.t) : res KMap.t :=
  match entries with
  | [] => Ok m
  | entry :: entries' =>
      fb <- fallback_details entry;;
      m' <- store (p_id entry) fb m;;
      all_fallbacks entries' m'
  end.

(** The attempts [attempt, attempt + 1, ...], [remaining] of them: an
    answer that is read without an exception is returned, anything else
    is logged and the next attempt made. *)
Fixpoint attempts (w : oracle) (entries : list prepared)
         (remaining attempt : nat) : option KMap.t :=
  match remaining with
  | O => None
  | S remaining' =>
      match complete w entries attempt with
      | Parsed v =>
          match read_answer entries v with
          | Ok m => Some m
          | Raise _ => attempts w entries remaining' (S attempt)
          end
      | _ => attempts w entries remaining' (S attempt)
      end
  end.

Definition extract_details_in_batch (w : oracle) (entries : list prepared)
           (max_retries : nat) : res KMap.t :=
  match entries with
  | [] => Ok []
  | _ =>
      match attempts w entries max_retries 1 with
      | Some details_map => Ok details_map
      | None => all_fallbacks entries []
      end
  end.

(** *** The grouper *)

(** [BATCH_SIZE], the number of entries of one call, and the default
    [max_retries] of the extractor. *)
Definition BATCH_SIZE : nat := 10.
Definition default_max_retries : nat := 2.

(** A [defaultdict(list)], in insertion order. *)
Definition groups : Type := list (string * list pyval).

(** [grouped[key].append(member)] *)
Fixpoint append_to (key : string) (member : pyval) (grouped : groups)
  : groups :=
  match grouped with
  | [] => [(key, [member])]
  | (k, members) :: grouped' =>
      if String.eqb k key then (k, (members ++ [member])%list) :: grouped'
      else (k, members) :: append_to key member grouped'
  end.

Fixpoint members_of (key : string) (grouped : groups) : list pyval :=
  match grouped with
  | [] => []
  | (k, members) :: grouped' =>
      if String.eqb k key then members else members_of key grouped'
  end.

(** [v == "text"] *)
Definition is_text (text : string) (v : pyval) : bool :=
  match v with
  | PStr s => String.eqb s text
  | _ => false
  end.

(** The key of an entry, from its details, its source type and, for the
    SPC, its title. *)
Definition group_key (disaster : list (string * pyval)) (details : pyval)
  : res string :=
  disaster_type <- Py.get_attr details "disaster_type" (PStr "Unknown Type");;
  location <- Py.get_attr details "location" (PStr "Unknown Location");;
  date <- Py.get_attr details "date" (PStr "Unknown Date");;
  severity <- Py.get_attr details "severity" PNone;;
  level <- Py.get_attr details "alert_level" PNone;;
  key <- (if is_text "gdacs" (Py.get "source_type" PNone disaster)
             && Py.truthy level
          then
            match level with
            | PStr l =>
                Ok (Py.str disaster_type ++ " (" ++ Str.capitalize l
                      ++ " Alert) in " ++ Py.str location
                      ++ " on " ++ Py.str date)
            | _ => Raise AttributeError
            end
          else if Py.truthy severity
          then Ok (Py.str disaster_type ++ " (" ++ Py.str severity ++ ") in "
                     ++ Py.str location ++ " on " ++ Py.str date)
          else Ok (Py.str disaster_type ++ " in " ++ Py.str location
                     ++ " on " ++ Py.str date));;
  if is_text "noaa_spc" (Py.get "source_type" PNone disaster) then
    title <- Py.lower (Py.get "title" (PStr "") disaster);;
    if Str.contains "spc md" title then
      match Re.search md_re title with
      | Some md_match =>
          Ok ("Severe Weather Discussion (MD " ++ Re.group "1" md_match ++ ")")
      | None => Ok key
      end
    else Ok key
  else Ok key.

(** [disaster[k]] *)
Definition item (k : string) (disaster : list (string * pyval)) : res pyval :=
  match Py.lookup k disaster with
  | Some v => Ok v
  | None => Raise KeyError
  end.

(** The member appended to a group. *)
Definition member_of (disaster : list (string * pyval)) (details : pyval)
  : res pyval :=
  title <- item "title" disaster;;
  link <- item "link" disaster;;
  published <- item "published" disaster;;
  source <- item "source" disaster;;
  Ok (PDict [("title", title);
             ("summary", Py.get "summary" (PStr "") disaster);
             ("link", link);
             ("published", published);
             ("source", source);
             ("details", details)]).

(** Key construction and the append that follows it. *)
Definition add_to_group (disaster : list (string * pyval)) (details : pyval)
           (grouped : groups) : res groups :=
  key <- group_key disaster details;;
  member <- member_of disaster details;;
  Ok (append_to key member grouped).

(** [all_details.get(entry_id)] *)
Definition details_for (entry_id : pyval) (all_details : KMap.t)
  : res (option pyval) :=
  if Py.hashable entry_id then Ok (KMap.find entry_id all_details)
  else Raise TypeError.

(** One turn of the loop that matches the details back to the entries. *)
Definition group_one (all_details : KMap.t) (disaster : pyval)
           (grouped : groups) : res groups :=
  match disaster with
  | PDict d =>
      found <- details_for (Py.get "link" (PStr "") d) all_details;;
      match found with
      | Some details =>
          if Py.truthy details then
            match should_filter_entry disaster details with
            | Ok true => Ok grouped
            | Ok false => add_to_group d details grouped
            | Raise _ => add_to_group d details grouped
            end
          else Ok grouped
      | None => Ok grouped
      end
  | _ => Ok grouped
  end.

Fixpoint group_all (all_details : KMap.t) (disasters : list pyval)
         (grouped : groups) : res groups :=
  match disasters with
  | [] => Ok grouped
  | disaster :: disasters' =>
      grouped' <- group_one all_details disaster grouped;;
      group_all all_details disasters' grouped'
  end.

(** [[d for d in disasters if not should_filter_entry(d)]] *)
Fixpoint initial_filter (disasters : list pyval) : res (list pyval) :=
  match disasters with
  | [] => Ok []
  | d :: disasters' =>
      drop <- should_filter_entry d PNone;;
      kept <- initial_filter disasters';;
      Ok (if drop : bool then kept else d :: kept)
  end.

Fixpoint prepare_all (w : oracle) (entries : list pyval)
  : res (list prepared) :=
  match entries with
  | [] => Ok []
  | entry :: entries' =>
      p <- prepare_entry_for_extraction w entry;;
      ps <- prepare_all w entries';;
      Ok (p :: ps)
  end.

(** The batches [prepared[i:i+size]] for [i = 0, size, 2 * size, ...];
    [turns] bounds their number. *)
Fixpoint extract_batches (w : oracle) (size turns : nat)
         (entries : list prepared) (all_details : KMap.t) : res KMap.t :=
  match turns with
  | O => Ok all_details
  | S turns' =>
      match entries with
      | [] => Ok all_details
      | _ =>
          batch_details <-
            extract_details_in_batch w (firstn size entries)
                                     default_max_retries;;
          extract_batches w size turns' (skipn size entries)
                          (KMap.update all_details batch_details)
      end
  end.

Definition group_disasters (w : oracle) (disasters : list pyval)
  : res groups :=
  initial_filtered <- initial_filter disasters;;
  match initial_filtered with
  | [] => Ok []
  | _ =>
      prepared_entries <- prepare_all w initial_filtered;;
      all_details <-
        extract_batches w BATCH_SIZE (List.length prepared_entries)
                        prepared_entries [];;
      group_all all_details initial_filtered []
  end.

(** ** send_to_slack.py *)

Module Slack.

(** What one [chat_postMessage] comes to. *)
Inductive post_result : Type :=
| Posted
| SlackApiError (error_code : string)
| Failed.                           (* any other exception *)

(** The chat client and its configuration: the nth post of the blocks
    with their fallback text, and the post of the simplified message. *)
Record client : Type := Client {
  SLACK_BOT_TOKEN : option string;
  CHANNEL_NAME : option string;
  post_blocks : list pyval -> string -> nat -> post_result;
  post_text : string -> post_result
}.

Definition configured (o : option string) : bool :=
  match o with
  | Some s => negb (String.eqb s "")
  | None => false
  end.

(** [text.split("\n")[0]] *)
Fixpoint first_line (text : string) : string :=
  match text with
  | EmptyString => ""
  | String c text' =>
      if Ascii.eqb c "010" then "" else String c (first_line text')
  end.

(** The fallback text: the first line of the first [mrkdwn] section, cut
    to 100 characters, when it is longer than the default. *)
Fixpoint fallback_text (blocks : list pyval) : res string :=
  match blocks with
  | [] => Ok "Disaster Alerts Summary"
  | block :: blocks' =>
      type <- Py.get_attr block "type" PNone;;
      match block with
      | PDict b =>
          if is_text "section" type then
            match Py.lookup "text" b with
            | Some inner =>
                inner_type <- Py.get_attr inner "type" PNone;;
                if is_text "mrkdwn" inner_type then
                  text <- Py.get_attr inner "text" (PStr "");;
                  match text with
                  | PStr t =>
                      let line := first_line t in
                      if (String.length "Disaster Alerts Summary"
                            <? String.length line)%nat
                      then Ok (if (100 <? String.length line)%nat
                               then Str.take 100 line ++ "..."
                               else line)
                      else Ok "Disaster Alerts Summary"
                  | _ =>
                      if Py.truthy text then Raise AttributeError
                      else Ok "Disaster Alerts Summary"
                  end
                else fallback_text blocks'
            | None => fallback_text blocks'
            end
          else fallback_text blocks'
      | _ => Raise AttributeError
      end
  end.

Definition simplified_message : string :=
  "Disaster Alert System: New alerts detected, but there was an error formatting the message.".

(** The retry loop: [true] only from a post that succeeded. *)
Fixpoint send_attempts (c : client) (blocks : list pyval) (text : string)
         (remaining attempt : nat) : res bool :=
  match remaining with
  | O => Ok false
  | S remaining' =>
      match post_blocks c blocks text attempt with
      | Posted => Ok true
      | SlackApiError error_code =>
          if String.eqb error_code "invalid_blocks" then
            match post_text c simplified_message with
            | Posted => Ok false
            | SlackApiError _ => Ok false
            | Failed => Raise OtherException
            end
          else if String.eqb error_code "channel_not_found" then Ok false
          else if String.eqb error_code "not_in_channel" then Ok false
          else send_attempts c blocks text remaining' (S attempt)
      | Failed => send_attempts c blocks text remaining' (S attempt)
      end
  end.

Definition send_disaster_alert_block (c : client) (blocks : list pyval)
           (max_retries : nat) : res bool :=
  if negb (configured (SLACK_BOT_TOKEN c)) then Ok false
  else if negb (configured (CHANNEL_NAME c)) then Ok false
  else
    text <- fallback_text blocks;;
    send_attempts c blocks text max_retries 1.

End Slack.

(** ** main.py *)

Module Ledger.

(** A row of [sent_entries]: the link, which is the primary key, and the
    time of the insert in seconds. *)
Record row : Type := Row {
  link : string;
  timestamp : Z
}.

Definition table : Type := list row.

(** [datetime('now', '-30 day')] *)
Definition cutoff (now : Z) : Z := (now - 30 * 86400)%Z.

Definition has_link (l : string) (t : table) : bool :=
  existsb (fun r => String.eqb (link r) l) t.

(** [DELETE FROM sent_entries WHERE timestamp < datetime('now', '-30 day')];
    an error of the database is logged and the table is left as it was. *)
Definition cleanup_old_entries (up : bool) (now : Z) (t : table) : table :=
  if up then filter (fun r => negb (timestamp r <? cutoff now)%Z) t else t.

(** [SELECT link FROM sent_entries] as a set; the empty set on an error. *)
Definition load_sent_entries (up : bool) (t : table) : list string :=
  if up then map link t else [].

(** [INSERT OR IGNORE INTO sent_entries (link, timestamp)
     VALUES (?, CURRENT_TIMESTAMP)] *)
Definition insert_or_ignore (now : Z) (t : table) (l : string) : table :=
  if has_link l t then t else (t ++ [Row l now])%list.

Definition save_sent_entries (up : bool) (now : Z) (new_links : list string)
           (t : table) : table :=
  if up then fold_left (insert_or_ignore now) new_links t else t.

Definition rows_of (l : string) (t : table) : nat :=
  List.length (filter (fun r => String.eqb (link r) l) t).

(** The primary key: no link has two rows. *)
Definition keyed (t : table) : Prop := forall l, (rows_of l t <= 1)%nat.


End Ledger.

(** How the summary call can fail. *)
Inductive llm_error : Type :=
| RateLimitError
| APIConnectionError
| APIError (message : string)
| Unexpected.

(** The outside world of one cycle. *)
Record world : Type := World {
  fetched : list pyval;                       (* fetch_rss_feeds(RSS_FEEDS) *)
  model : oracle;
  summarize : groups -> nat -> string + llm_error; (* the stripped content *)
  format_alert_block : string -> list pyval;
  chat : Slack.client;
  database_up : bool;
  now : Z
}.

Definition alert (text : string) : list pyval :=
  [PDict [("type", PStr "section");
          ("text", PDict [("type", PStr "mrkdwn"); ("text", PStr text)])]].

Definition alert_text (e : llm_error) : string :=
  match e with
  | RateLimitError =>
      "*Alert:* OpenAI API request exceeded rate limit. Please check your quota."
  | APIConnectionError =>
      "*Alert:* Failed to connect to OpenAI API. Please check your network connection."
  | APIError message => "*Alert:* OpenAI API returned an error: " ++ message
  | Unexpected =>
      "*Alert:* An unexpected error occurred while processing disaster reports."
  end.

(** The attempts of the summary call: a failure is told to the channel,
    and the last one ends the cycle without a summary. *)
Fixpoint summary_attempts (w : world) (grouped : groups)
         (remaining attempt : nat) : res (option string) :=
  match remaining with
  | O => Ok None
  | S remaining' =>
      match summarize w grouped attempt with
      | inl summary => Ok (Some summary)
      | inr e =>
          _ <- Slack.send_disaster_alert_block (chat w)
                 (alert (alert_text e)) 3;;
          match remaining' with
          | O =>
              _ <- Slack.send_disaster_alert_block (chat w)
                     (alert "*Alert:* Failed to obtain summary from OpenAI after multiple attempts.") 3;;
              Ok None
          | _ => summary_attempts w grouped remaining' (S attempt)
          end
      end
  end.

Definition process_disasters (w : world) (disasters : list pyval)
           (max_retries : nat) : res (option string) :=
  grouped <- group_disasters (model w) disasters;;
  match grouped with
  | [] => Ok None
  | _ => summary_attempts w grouped max_retries 1
  end.

(** [d['link']]: a [KeyError] without the key, a [TypeError] on a value
    that is no dictionary. *)
Definition link_of (d : pyval) : res pyval :=
  match d with
  | PDict items =>
      match Py.lookup "link" items with
      | Some v => Ok v
      | None => Raise KeyError
      end
  | _ => Raise TypeError
  end.

(** [v in sent_entries], a set of the texts of the table: the value is
    hashed first, a [TypeError] for a list or a dictionary, and a value
    that is no text equals none of the members. *)
Definition is_sent (sent_entries : list string) (v : pyval) : res bool :=
  match v with
  | PStr l => Ok (existsb (String.eqb l) sent_entries)
  | _ => if Py.hashable v then Ok false else Raise TypeError
  end.

(** [[d['link'] for d in new_disasters]], as the texts the table takes.
    [main] comes here after [process_disasters] returned, and by then
    [should_filter_entry] has lower-cased the link of every one of these
    reports, so each link is a text ([links_of_after_filter]); the
    [TypeError] stands for a link the table of this model has no row
    for, and is never met in [main]. *)
Fixpoint links_of (ds : list pyval) : res (list string) :=
  match ds with
  | [] => Ok []
  | d :: ds' =>
      v <- link_of d;;
      match v with
      | PStr l =>
          ls <- links_of ds';;
          Ok (l :: ls)
      | _ => Raise TypeError
      end
  end.

(** [[d for d in disasters if d['link'] not in sent_entries]] *)
Fixpoint not_sent (sent_entries : list string) (ds : list pyval)
  : res (list pyval) :=
  match ds with
  | [] => Ok []
  | d :: ds' =>
      v <- link_of d;;
      sent <- is_sent sent_entries v;;
      rest <- not_sent sent_entries ds';;
      Ok (if sent : bool then rest else d :: rest)
  end.

(** One cycle: what the send returned, when a send was made, and the
    table the cycle leaves.  An exception leaves the table as the cleanup
    made it. *)
Definition main (w : world) (t : Ledger.table)
  : res (option bool * Ledger.table) :=
  let t1 := Ledger.cleanup_old_entries (database_up w) (now w) t in
  let sent_entries := Ledger.load_sent_entries (database_up w) t1 in
  new_disasters <- not_sent sent_entries (fetched w);;
  match new_disasters with
  | [] => Ok (None, t1)
  | _ =>
      summary <- process_disasters w new_disasters 3;;
      match summary with
      | Some text =>
          if negb (String.eqb text "") then
            let formatted_blocks := format_alert_block w text in
            sent <- Slack.send_disaster_alert_block (chat w) formatted_blocks 3;;
            new_links <- links_of new_disasters;;
            Ok (Some sent,
                Ledger.save_sent_entries (database_up w) (now w) new_links t1)
          else Ok (None, t1)
      | None => Ok (None, t1)
      end
  end.

(** ** Vocabulary of the statements and sample data *)

(** The magnitude the USGS rule reads: the first match in the title, and
    the first match in the summary only when the title has none. *)
Definition parsed_magnitude (title summary : string) : option Q :=
  match Re.search magnitude_re title with
  | Some m => Float.decimal (Re.group "1" m)
  | None =>
      match Re.search magnitude_re summary with
      | Some m => Float.decimal (Re.group "1" m)
      | None => None
      end
  end.

Definition is_dict (v : pyval) : bool :=
  match v with
  | PDict _ => true
  | _ => false
  end.

Definition report (source_type title summary link : string) : pyval :=
  PDict [("title", PStr title);
         ("summary", PStr summary);
         ("link", PStr link);
         ("published", PStr "2024-12-31T14:00:00Z");
         ("source", PStr "feed");
         ("source_type", PStr source_type)].

(** A GDACS report that only the title pattern of rule 6 catches. *)
Definition green_quake : pyval :=
  report "gdacs" "M 5.1 Green earthquake in Chile" "" "https://gdacs.example/1".

(** Details as the extractor stores them when the model answers [null]
    for the alert level. *)
Definition null_level_details : pyval :=
  PDict [("disaster_type", PStr "Earthquake");
         ("location", PStr "Chile");
         ("date", PStr "2024-12-31");
         ("severity", PStr "5.1");
         ("alert_level", PNone);
         ("description", PStr "")].

Definition strong_quake : pyval :=
  report "usgs" "M 6.5 - Somewhere" "" "https://usgs.example/1".

Definition weak_quake : pyval :=
  report "usgs" "M 3.0 - Elsewhere" "" "https://usgs.example/2".


Definition items_of (v : pyval) : list (string * pyval) :=
  match v with
  | PDict d => d
  | _ => []
  end.

(** Two SPC reports that pass the filter (the title does not start with
    "spc md" and the link has neither "/md/" nor "/outlook/") and differ
    in the title only. *)
Definition spc_update_1234 : pyval :=
  report "noaa_spc" "Update: SPC MD 1234" "" "https://spc.example/products/1".

Definition spc_update_5678 : pyval :=
  report "noaa_spc" "Update: SPC MD 5678" "" "https://spc.example/products/1".

(** An SPC report whose title has an MD number but not the words
    "spc md". *)
Definition bare_md : pyval :=
  report "noaa_spc" "MD 1234 concerning severe potential" ""
         "https://spc.example/products/2".

Definition storm_details : pyval :=
  PDict [("disaster_type", PStr "Severe Storm");
         ("location", PStr "Kansas");
         ("date", PStr "2024-12-31");
         ("severity", PNone);
         ("alert_level", PStr "");
         ("description", PStr "")].

(** Details as the extractor stores them when the model answers [null]
    for the disaster type. *)
Definition null_type_details : pyval :=
  PDict [("disaster_type", PNone);
         ("location", PStr "Somewhere");
         ("date", PStr "2024-12-31");
         ("severity", PStr "6.5");
         ("alert_level", PStr "");
         ("description", PStr "")].

(** A model that answers every batch with one record, for the strong
    quake, in which the disaster type is [null]. *)
Definition null_type_model : oracle :=
  Oracle (fun s => Some s)
         (fun _ _ =>
            Parsed (PDict [("results",
                            PList [PDict [("id", PStr "https://usgs.example/1");
                                          ("disaster_type", PNone);
                                          ("location", PStr "Somewhere");
                                          ("date", PStr "2024-12-31");
                                          ("severity", PStr "6.5");
                                          ("alert_level", PStr "");
                                          ("description", PStr "")]])])).


(** A cycle in which the model and the summary succeed and the channel
    does not exist. *)
Definition quake_model : oracle :=
  Oracle (fun s => Some s)
         (fun _ _ =>
            Parsed (PDict [("results",
                            PList [PDict [("id", PStr "https://usgs.example/1");
                                          ("disaster_type", PStr "Earthquake");
                                          ("location", PStr "Somewhere");
                                          ("date", PStr "2024-12-31");
                                          ("severity", PStr "6.5");
                                          ("alert_level", PStr "");
                                          ("description", PStr "")]])])).

Definition no_channel : Slack.client :=
  Slack.Client (Some "xoxb-token") (Some "#disaster-alerts")
               (fun _ _ _ => Slack.SlackApiError "channel_not_found")
               (fun _ => Slack.Posted).

Definition failed_send_cycle : world :=
  World [strong_quake] quake_model
        (fun _ _ => inl "### Earthquake (6.5) in Somewhere on 2024-12-31")
        alert no_channel true 1735653600.


Definition is_str (v : pyval) : bool :=
  match v with
  | PStr _ => true
  | _ => false
  end.

(** A prepared entry as the pipeline makes them from a feed report: the
    id and the summary are texts, and the published field is one that
    [normalize_date] returns from. *)
Definition well_prepared (e : prepared) : bool :=
  is_str (p_id e) && is_str (p_summary e)
  && is_ok (normalize_date (p_published e)).

(** The fallback record, for a normalized date and a summary. *)
Definition fallback_record (date summary : string) : pyval :=
  PDict [("disaster_type", PStr "Unknown Type");
         ("location", PStr "Unknown Location");
         ("date", PStr date);
         ("severity", PNone);
         ("alert_level", PStr "");
         ("description",
          PStr (if (100 <? String.length summary)%nat
                then Str.take 100 summary ++ "..."
                else summary))].

(** The entry [e] is given the fallback record in the map [m]; when
    several entries share the id, the record is that of one of them. *)
Definition has_fallback (entries : list prepared) (m : KMap.t) (e : prepared)
  : Prop :=
  exists (e' : prepared) (date summary : string),
    In e' entries /\ p_id e' = p_id e /\
    normalize_date (p_published e') = Ok date /\
    p_summary e' = PStr summary /\
    KMap.find (p_id e) m = Some (fallback_record date summary).

(** Whether a text is the id of one of the entries. *)
Definition id_among (s : string) (entries : list prepared) : bool :=
  existsb (fun e => Py.key_eqb (PStr s) (p_id e)) entries.

(** An attempt fails when the call or [json.loads] raises, or when the
    answer cannot be read. *)
Definition attempt_fails (w : oracle) (entries : list prepared) (attempt : nat)
  : Prop :=
  match complete w entries attempt with
  | Parsed v => is_ok (read_answer entries v) = false
  | _ => True
  end.

Definition prepared_quake : prepared :=
  Prepared (PStr "https://usgs.example/1") (PStr "M 6.5 - Somewhere")
           (PStr "") (PStr "feed") (PStr "usgs")
           (PStr "2024-12-31T14:00:00Z").

(** A model that answers with the record asked for and one more, for an
    alert that is not in the batch. *)
Definition talkative_model : oracle :=
  Oracle (fun s => Some s)
         (fun _ _ =>
            Parsed (PDict [("results",
                            PList [PDict [("id", PStr "https://usgs.example/1");
                                          ("disaster_type", PStr "Earthquake")];
                                   PDict [("id", PStr "https://usgs.example/9");
                                          ("disaster_type", PStr "Flood")]])])).

(** A model whose every call fails. *)
Definition silent_model : oracle :=
  Oracle (fun s => Some s) (fun _ _ => ApiFailure).

(** A prepared entry whose published field has the shape of a date and
    is none. *)
Definition prepared_bad_date : prepared :=
  Prepared (PStr "https://usgs.example/3") (PStr "M 6.0 - Nowhere")
           (PStr "") (PStr "feed") (PStr "usgs") (PStr "2023-13-45").


(** ** fetch_feeds.py *)

Module Fetch.

(** What the request for a feed and [feedparser.parse] come to: the
    request fails, or the document, as the pre-filter on the XML left it,
    is parsed into the title of the feed, when it has one, and its
    entries. *)
Inductive response : Type :=
| RequestFailed
| Feed (feed_title : option pyval) (entries : list pyval).

(** The source type of a feed, from its URL in lower case. *)
Definition source_type_of (feed_url : string) : option string :=
  let feed_source_url := Str.lower feed_url in
  if Str.contains "gdacs.org" feed_source_url then Some "gdacs"
  else if Str.contains "reliefweb.int" feed_source_url then Some "reliefweb"
  else if Str.contains "wildfire.gov" feed_source_url then Some "inciweb"
  else if Str.contains "spc.noaa.gov" feed_source_url then Some "noaa_spc"
  else if Str.contains "usgs.gov" feed_source_url then Some "usgs"
  else if Str.contains "nhc.noaa.gov" feed_source_url then Some "nhc"
  else None.

(** The title given to a feed that has none of its own. *)
Definition default_title (feed_url : string) : string :=
  let feed_source_url := Str.lower feed_url in
  if Str.contains "gdacs.org" feed_source_url then "GDACS RSS information"
  else if Str.contains "reliefweb.int" feed_source_url
  then "ReliefWeb - Disasters"
  else if Str.contains "wildfire.gov" feed_source_url then "InciWeb"
  else if Str.contains "spc.noaa.gov" feed_source_url
  then "SPC Forecast Products"
  else if Str.contains "usgs.gov" feed_source_url
  then "USGS Magnitude 4.5+ Earthquakes"
  else if Str.contains "nhc.noaa.gov" feed_source_url
  then "National Hurricane Center"
  else "Unknown Source".

Definition title_of (feed_url : string) (feed_title : option pyval) : pyval :=
  let own := match feed_title with
             | Some t => t
             | None => PStr "Unknown Source"
             end in
  if is_text "Unknown Source" own then PStr (default_title feed_url) else own.

Definition type_value (feed_source_type : option string) : pyval :=
  match feed_source_type with
  | Some t => PStr t
  | None => PNone
  end.

Definition is_type (t : string) (feed_source_type : option string) : bool :=
  match feed_source_type with
  | Some t' => String.eqb t' t
  | None => false
  end.

(** One entry of a feed: [None] when the last filter of the fetch drops
    it, the report otherwise. *)
Definition make_report (feed_source_type : option string)
           (feed_title : pyval) (entry : pyval) : res (option pyval) :=
  title <- Py.get_attr entry "title" (PStr "No Title");;
  description <- Py.get_attr entry "description" (PStr "No Summary");;
  summary <- Py.get_attr entry "summary" description;;
  link <- Py.get_attr entry "link" (PStr "No Link");;
  updated <- Py.get_attr entry "updated" (PStr "No Published Date");;
  published <- Py.get_attr entry "published" updated;;
  green <- (if is_type "gdacs" feed_source_type then
              title_lower <- Py.lower title;;
              Ok (Str.startswith "green " title_lower
                  || Str.contains "green alert" title_lower
                  || Str.contains "gdacs:alertlevel>green"
                                  (Str.lower (Py.str entry)))
            else Ok false);;
  if green : bool then Ok None
  else
    spc <- (if is_type "noaa_spc" feed_source_type then
              link_lower <- Py.lower link;;
              title_lower <- Py.lower title;;
              Ok (Str.contains "/md/" link_lower
                  || Str.startswith "spc md" title_lower
                  || Str.contains "/outlook/" link_lower
                  || Str.contains "outlook" title_lower)
            else Ok false);;
    if spc : bool then Ok None
    else Ok (Some (PDict [("title", title);
                          ("summary", summary);
                          ("link", link);
                          ("published", published);
                          ("source", feed_title);
                          ("source_type", type_value feed_source_type);
                          ("raw_entry", entry)])).

(** The entries of one feed, in order; an exception ends the feed and
    keeps the reports made before it. *)
Fixpoint reports_of (feed_source_type : option string) (feed_title : pyval)
         (entries : list pyval) : list pyval :=
  match entries with
  | [] => []
  | entry :: entries' =>
      match make_report feed_source_type feed_title entry with
      | Ok (Some r) =>
          r :: reports_of feed_source_type feed_title entries'
      | Ok None => reports_of feed_source_type feed_title entries'
      | Raise _ => []
      end
  end.

(** [fetch_rss_feeds(feeds)]: an empty URL is skipped, a feed whose
    request fails gives nothing. *)
Fixpoint fetch_rss_feeds (http : string -> response)
         (feeds : list (option string)) : list pyval :=
  match feeds with
  | [] => []
  | feed :: feeds' =>
      let rest := fetch_rss_feeds http feeds' in
      match feed with
      | None => rest
      | Some feed_url =>
          if String.eqb feed_url "" then rest
          else
            match http feed_url with
            | RequestFailed => rest
            | Feed feed_title entries =>
                (reports_of (source_type_of feed_url)
                            (title_of feed_url feed_title) entries
                   ++ rest)%list
            end
      end
  end.

End Fetch.

(** ** process_data.py, the rest *)

(** [s.replace(old, new)] for a text [old] that is not empty: the
    occurrences from the left that do not overlap.  [skip] counts the
    characters of an occurrence still to pass. *)
Fixpoint replace_from (old new : string) (skip : nat) (s : string) : string :=
  match s with
  | EmptyString => EmptyString
  | String c s' =>
      match skip with
      | S skip' => replace_from old new skip' s'
      | O =>
          if prefix old s
          then new ++ replace_from old new (String.length old - 1) s'
          else String c (replace_from old new 0 s')
      end
  end.

Definition replace_text (old new s : string) : string :=
  replace_from old new 0 s.

(** The URL of a report as the summary prompt writes it. *)
Definition prompt_url (report : pyval) : res string :=
  url <- Py.get_attr report "link" (PStr "#");;
  let url := if negb (Py.truthy url) || is_text "#" url
             then PStr "https://example.com/no-link-available" else url in
  match url with
  | PStr u => Ok (replace_text "|" "%7c" (replace_text "%7C" "%7c" u))
  | _ => Raise AttributeError
  end.

(** [<url|More Info>] *)
Definition formatted_link (report : pyval) : res string :=
  url <- prompt_url report;;
  Ok ("<" ++ url ++ "|More Info>").

(** [extract_details_with_llm]: a batch of one.  The default handed to
    [batch_results.get] is built before the lookup is made. *)
Definition extract_details_with_llm (w : oracle) (entry : pyval)
           (max_retries : nat) : res pyval :=
  prepared_entry <- prepare_entry_for_extraction w entry;;
  batch_results <- extract_details_in_batch w [prepared_entry] max_retries;;
  published <- Py.get_attr entry "published" (PStr "");;
  date <- normalize_date published;;
  description <- short_description (p_summary prepared_entry);;
  found <- details_for (p_id prepared_entry) batch_results;;
  match found with
  | Some details => Ok details
  | None =>
      Ok (PDict [("disaster_type", PStr "Unknown Type");
                 ("location", PStr "Unknown Location");
                 ("date", PStr date);
                 ("severity", PNone);
                 ("alert_level", PStr "");
                 ("description", description)])
  end.

(** The shape of an [ExtractedDetails] record. *)
Definition is_details (v : pyval) : Prop :=
  exists disaster_type location date severity alert_level description : pyval,
    v = PDict [("disaster_type", disaster_type);
               ("location", location);
               ("date", date);
               ("severity", severity);
               ("alert_level", alert_level);
               ("description", description)].

(** A post that the retry loop tries again after. *)
Definition retried (r : Slack.post_result) : bool :=
  match r with
  | Slack.Posted => false
  | Slack.SlackApiError error_code =>
      negb (String.eqb error_code "invalid_blocks"
            || String.eqb error_code "channel_not_found"
            || String.eqb error_code "not_in_channel")
  | Slack.Failed => true
  end.

Definition entry_with (title link : string) : pyval :=
  PDict [("title", PStr title); ("summary", PStr "text"); ("link", PStr link)].


(** A channel that takes every post. *)
Definition open_channel : Slack.client :=
  Slack.Client (Some "xoxb-token") (Some "#disaster-alerts")
               (fun _ _ _ => Slack.Posted) (fun _ => Slack.Posted).


(** Where a member of a group comes from: an entry of the list, kept by
    the filter without details and not dropped by it with the details,
    under the key of that entry. *)
Definition grouped_from (disasters : list pyval) (grouped : groups) : Prop :=
  forall (key : string) (members : list pyval) (member : pyval),
    In (key, members) grouped -> In member members ->
    exists (d : list (string * pyval)) (details : pyval),
      In (PDict d) disasters /\
      should_filter_entry (PDict d) PNone = Ok false /\
      should_filter_entry (PDict d) details <> Ok true /\
      group_key d details = Ok key /\
      member_of d details = Ok member.

(** ** [normalize_date] with the library calls as parameters

    The control flow of [normalize_date] on a text, for any type of texts
    and whatever the library does on them: [is_empty] stands for
    [not date_str], [parse] for
    [datetime.strptime(date_str, fmt).strftime('%Y-%m-%d')], and [scan]
    for the group of the [re.search] with its slashes replaced. *)

Section NormalizeWith.

Variable text : Type.
Variable is_empty : text -> bool.
Variable parse : text -> string -> res string.
Variable scan : text -> option text.

Fixpoint try_formats_with (date_str : text) (fmts : list string)
  : res (option string) :=
  match fmts with
  | [] => Ok None
  | fmt :: fmts' =>
      match parse date_str fmt with
      | Ok iso => Ok (Some iso)
      | Raise ValueError | Raise TypeError => try_formats_with date_str fmts'
      | Raise e => Raise e
      end
  end.

Fixpoint normalize_date_with (depth : nat) (date_str : text) : res string :=
  match depth with
  | O => Raise RecursionError
  | S depth' =>
      if is_empty date_str then Ok "Unknown Date"
      else
        found <- try_formats_with date_str date_formats;;
        match found with
        | Some iso => Ok iso
        | None =>
            match scan date_str with
            | Some extracted_date =>
                match normalize_date_with depth' extracted_date with
                | Raise ValueError | Raise TypeError => Ok "Unknown Date"
                | r => r
                end
            | None => Ok "Unknown Date"
            end
        end
  end.

End NormalizeWith.

(** The three parameters as this development models them. *)
Definition is_empty_text (s : string) : bool := negb (Py.truthy (PStr s)).

Definition parse_and_print (s fmt : string) : res string :=
  match Time.strptime (PStr s) fmt with
  | Ok dt => Ok (Time.strftime_ymd dt)
  | Raise e => Raise e
  end.

(** [date_match.group(1).replace('/', '-')] for the first match of the
    scan, [None] when the scan finds nothing. *)
Definition extracted_date (s : string) : option string :=
  match Re.search embedded_date_re s with
  | Some m => Some (Str.replace "/" "-" (Re.group "1" m))
  | None => None
  end.

(** [reads s t]: the text [normalize_date] hands to the formats on its
    way from [s] is [t]: [s] itself, or, when no format parses a text, the
    date scanned in it, and so on from there. *)
Inductive reads : string -> string -> Prop :=
| reads_here (s : string) : reads s s
| reads_inside (s e t : string) :
    try_formats (PStr s) date_formats = Ok None ->
    extracted_date s = Some e ->
    reads e t ->
    reads s t.

(** ** Further sample data *)

(** The no-break space U+00A0 and the next line control U+0085. *)
Definition nbsp : string := String (ascii_of_nat 160) "".
Definition nel : string := String (ascii_of_nat 133) "".

(** The magnitude pattern as the specification words it, the token being
    optional: the pattern of [magnitude_re] with [(?:m|magnitude)?] for
    the token. *)
Definition claimed_magnitude_re : Re.regex :=
  Re.seqs [Re.Alt Re.Bol (Re.Cls Str.is_space);
           Re.opt (Re.Alt (Re.lit_i "m") (Re.lit_i "magnitude"));
           Re.Star Str.is_space;
           Re.Grp "1" (Re.seqs [Re.plus Str.is_digit;
                                Re.opt (Re.chr ".");
                                Re.Star Str.is_digit])].

(** A USGS report whose title gives the magnitude without the token. *)
Definition quake_without_token : pyval :=
  report "usgs" "4.2 earthquake near Town" "" "https://usgs.example/4".

(** An SPC report whose title has a no-break space in its first MD
    number and a space in its second. *)
Definition spc_update_nbsp : pyval :=
  report "noaa_spc" ("Update: SPC MD" ++ nbsp ++ "12 and MD 34") ""
         "https://spc.example/products/3".

(** A GDACS report that no rule of the filter catches by itself. *)
Definition orange_quake : pyval :=
  report "gdacs" "Orange earthquake alert in Chile" ""
         "https://gdacs.example/2".

(** Details as the extractor stores them when the model answers the
    number 2 for the alert level. *)
Definition numeric_level_details : pyval :=
  PDict [("disaster_type", PStr "Earthquake");
         ("location", PStr "Chile");
         ("date", PStr "2024-12-31");
         ("severity", PStr "6.1");
         ("alert_level", PInt 2);
         ("description", PStr "")].

(** A model that answers every batch with one record, for the orange
    quake, in which the alert level is the number 2. *)
Definition numeric_level_model : oracle :=
  Oracle (fun s => Some s)
         (fun _ _ =>
            Parsed (PDict [("results",
                            PList [PDict [("id", PStr "https://gdacs.example/2");
                                          ("disaster_type", PStr "Earthquake");
                                          ("location", PStr "Chile");
                                          ("date", PStr "2024-12-31");
                                          ("severity", PStr "6.1");
                                          ("alert_level", PInt 2);
                                          ("description", PStr "")]])])).

(** The member the grouper appends for an entry: the five fields of the
    entry and the details. *)
Definition member_record (title summary link published source details : pyval)
  : pyval :=
  PDict [("title", title);
         ("summary", summary);
         ("link", link);
         ("published", published);
         ("source", source);
         ("details", details)].

(** A report whose link is a number, and a cycle that fetches it. *)
Definition numbered_link_report : pyval :=
  PDict [("title", PStr "M 6.5 - Somewhere");
         ("summary", PStr "");
         ("link", PInt 7);
         ("published", PStr "2024-12-31T14:00:00Z");
         ("source", PStr "feed");
         ("source_type", PStr "usgs")].

Definition numbered_link_cycle : world :=
  World [numbered_link_report] quake_model
        (fun _ _ => inl "### Earthquake (6.5) in Somewhere on 2024-12-31")
        alert no_channel true 1735653600.


(** ** Properties *)

(** *** Date normalization *)

Lemma strptime_raises (text : pyval) (fmt : string) (e : exn) :
  Time.strptime text fmt = Raise e -> e = ValueError \/ e = TypeError.
Proof.
  unfold Time.strptime.
  repeat match goal with
         | |- context [match ?x with _ => _ end] => destruct x
         end;
    intro H; inversion H; auto.
Qed.

Lemma try_formats_none (text : pyval) (fmts : list string) :
  forallb (fun fmt => negb (is_ok (Time.strptime text fmt))) fmts = true ->
  try_formats text fmts = Ok None.
Proof.
  induction fmts as [|fmt fmts IH]; simpl; intro H; [reflexivity|].
  apply andb_true_iff in H. destruct H as [H1 H2].
  destruct (Time.strptime text fmt) as [dt|e] eqn:E; simpl in H1.
  - discriminate.
  - destruct (strptime_raises _ _ E) as [-> | ->]; auto.
Qed.

(** When no format parses a text and the scan finds no date in it, the
    result is the sentinel, at whatever depth of the call stack. *)
Lemma normalize_date_rec_sentinel (depth : nat) (s : string) :
  forallb (fun fmt => negb (is_ok (Time.strptime (PStr s) fmt)))
          date_formats = true ->
  Re.search embedded_date_re s = None ->
  normalize_date_rec (S depth) (PStr s) = Ok "Unknown Date".
Proof.
  intros Hf Hs.
  cbn [normalize_date_rec].
  destruct (negb (Py.truthy (PStr s))); [reflexivity|].
  rewrite (try_formats_none _ _ Hf). cbn [bind].
  rewrite Hs. reflexivity.
Qed.

(** The model of [normalize_date] is the control flow of
    [normalize_date_with] at the modelled library calls. *)
Lemma try_formats_as_with (s : string) (fmts : list string) :
  try_formats (PStr s) fmts = try_formats_with parse_and_print s fmts.
Proof.
  induction fmts as [|fmt fmts IH]; cbn [try_formats try_formats_with];
    [reflexivity|].
  unfold parse_and_print at 1.
  destruct (Time.strptime (PStr s) fmt) as [dt|e]; [reflexivity|].
  destruct e; try reflexivity; exact IH.
Qed.

Lemma normalize_date_rec_as_with (depth : nat) (s : string) :
  normalize_date_rec depth (PStr s)
  = normalize_date_with is_empty_text parse_and_print extracted_date depth s.
Proof.
  revert s. induction depth as [|depth IH]; intro s; [reflexivity|].
  cbn [normalize_date_rec normalize_date_with].
  unfold is_empty_text at 1.
  destruct (negb (Py.truthy (PStr s))); [reflexivity|].
  rewrite try_formats_as_with.
  destruct (try_formats_with parse_and_print s date_formats) as [[iso|]|e];
    cbn [bind]; try reflexivity.
  unfold extracted_date at 1.
  destruct (Re.search embedded_date_re s) as [m|]; [|reflexivity].
  rewrite IH. reflexivity.
Qed.

(** Whatever the library does: when every format raises [ValueError] or
    [TypeError] on a text and the scan finds nothing in it, the result is
    the sentinel. *)
Lemma try_formats_with_none (text : Type)
      (parse : text -> string -> res string) (t : text)
      (fmts : list string) :
  (forall fmt, In fmt fmts ->
               parse t fmt = Raise ValueError
               \/ parse t fmt = Raise TypeError) ->
  try_formats_with parse t fmts = Ok None.
Proof.
  induction fmts as [|fmt fmts IH]; intro H; cbn [try_formats_with];
    [reflexivity|].
  destruct (H fmt (or_introl eq_refl)) as [E|E]; rewrite E;
    apply IH; intros f Hf; apply H; right; exact Hf.
Qed.

Lemma normalize_date_with_sentinel (text : Type) (is_empty : text -> bool)
      (parse : text -> string -> res string) (scan : text -> option text)
      (depth : nat) (t : text) :
  (forall fmt, In fmt date_formats ->
               parse t fmt = Raise ValueError
               \/ parse t fmt = Raise TypeError) ->
  scan t = None ->
  normalize_date_with is_empty parse scan (S depth) t = Ok "Unknown Date".
Proof.
  intros Hf Hs. cbn [normalize_date_with].
  destruct (is_empty t); [reflexivity|].
  rewrite (try_formats_with_none parse t date_formats Hf). cbn [bind].
  rewrite Hs. reflexivity.
Qed.

(** C8: [normalize_date] maps the three texts of the specification to
    "2024-12-31", "Unknown Date" and "2023-12-25", the last one through
    the scan for an embedded date, which finds "2023/12/25" after every
    format has failed; and a text that no format parses and in which the
    scan finds nothing is mapped to the sentinel "Unknown Date".  The
    last part holds on the modelled [strptime] and [re.search], and, the
    model being the control flow of [normalize_date_with] at these two,
    on any type of texts and whatever the two library calls do there. *)
Theorem normalize_date_examples_and_sentinel :
  normalize_date (PStr "2024-12-31T14:00:00Z") = Ok "2024-12-31" /\
  normalize_date (PStr "not a date") = Ok "Unknown Date" /\
  normalize_date (PStr "Updated: 2023/12/25 irrelevant text")
    = Ok "2023-12-25" /\
  (try_formats (PStr "Updated: 2023/12/25 irrelevant text") date_formats
     = Ok None /\
   option_map (Re.group "1")
     (Re.search embedded_date_re "Updated: 2023/12/25 irrelevant text")
     = Some "2023/12/25") /\
  (forall s : string,
    forallb (fun fmt => negb (is_ok (Time.strptime (PStr s) fmt)))
            date_formats = true ->
    Re.search embedded_date_re s = None ->
    normalize_date (PStr s) = Ok "Unknown Date") /\
  (forall (depth : nat) (s : string),
    normalize_date_rec depth (PStr s)
    = normalize_date_with is_empty_text parse_and_print extracted_date
                          depth s) /\
  (forall (text : Type) (is_empty : text -> bool)
          (parse : text -> string -> res string)
          (scan : text -> option text) (depth : nat) (t : text),
    (forall fmt, In fmt date_formats ->
                 parse t fmt = Raise ValueError
                 \/ parse t fmt = Raise TypeError) ->
    scan t = None ->
    normalize_date_with is_empty parse scan (S depth) t
    = Ok "Unknown Date").
Proof.
  split; [vm_compute; reflexivity|].
  split; [vm_compute; reflexivity|].
  split; [vm_compute; reflexivity|].
  split; [split; vm_compute; reflexivity|].
  split; [intros s Hf Hs; apply normalize_date_rec_sentinel; assumption|].
  split; [exact normalize_date_rec_as_with|].
  intros text is_empty parse scan depth t Hf Hs.
  apply normalize_date_with_sentinel; assumption.
Qed.

Lemma normalize_date_sentinel_witness :
  normalize_date (PStr "sometime last week") = Ok "Unknown Date" /\
  normalize_date_with is_empty_text parse_and_print extracted_date 1
                      "sometime last week"
  = Ok "Unknown Date".
Proof.
  split.
  - apply (proj1 (proj2 (proj2 (proj2 (proj2
             normalize_date_examples_and_sentinel)))));
      vm_compute; reflexivity.
  - apply (proj2 (proj2 (proj2 (proj2 (proj2 (proj2
             normalize_date_examples_and_sentinel))))) string).
    + intros fmt Hf.
      repeat (destruct Hf as [<- | Hf]; [left; vm_compute; reflexivity|]).
      destruct Hf.
    + vm_compute. reflexivity.
Defined.

(** A day, a month and a year held apart by no-break spaces are a date
    for the format [%d %b %Y], whose blanks stand for [\s+]. *)
Lemma normalize_date_no_break_space :
  normalize_date (PStr ("31" ++ nbsp ++ "Dec" ++ nbsp ++ "2024"))
  = Ok "2024-12-31" /\
  normalize_date (PStr ("Updated:" ++ nbsp ++ "2023/12/25"))
  = Ok "2023-12-25".
Proof. split; vm_compute; reflexivity. Qed.

(** *** The entry filter *)

(** The doubles of the two thresholds are the nearest ones to 5.8 and to
    6: within half a unit in the last place, [2^-51]. *)
Lemma thresholds_nearest :
  (Qmake 58 10 - Qmake 1 (2 ^ 51) <= Qmake Float.m5_8 (2 ^ 50))%Q /\
  (Qmake Float.m5_8 (2 ^ 50) <= Qmake 58 10 + Qmake 1 (2 ^ 51))%Q /\
  (Qmake Float.m6_0 (2 ^ 50) == 6)%Q /\
  (2 ^ 52 < Float.m5_8 < 2 ^ 53)%Z /\ (2 ^ 52 < Float.m6_0 < 2 ^ 53)%Z.
Proof.
  split; [vm_compute; discriminate|].
  split; [vm_compute; discriminate|].
  split; [vm_compute; reflexivity|].
  split; split; vm_compute; reflexivity.
Qed.

(** A text value of at most 5.799999999999999 is below the double 5.8,
    and one of at least 5.8 is not. *)
Lemma lt_5_8_decimal (v : Q) :
  ((v <= Qmake 5799999999999999 (10 ^ 15))%Q -> Float.lt_5_8 v = true) /\
  ((Qmake 58 10 <= v)%Q -> Float.lt_5_8 v = false).
Proof.
  unfold Float.lt_5_8, Float.lt_double.
  change (Z.even (Float.m5_8 - 1)) with true. cbv iota.
  split; intro H.
  - apply Qle_bool_iff. eapply Qle_trans; [exact H|].
    vm_compute. discriminate.
  - destruct (Qle_bool v _) eqn:E; [|reflexivity].
    apply Qle_bool_iff in E.
    assert (C : (Qmake 58 10 <= Qmake (2 * Float.m5_8 - 1) (2 ^ 51))%Q)
      by (eapply Qle_trans; eassumption).
    vm_compute in C. exfalso. apply C. reflexivity.
Qed.

(** C4, as the code has it: [None] is filtered, and any other value that
    is not a dictionary is kept, [should_filter_entry] returning false
    for it without an exception, whatever the details. *)
Theorem should_filter_entry_non_dict (entry entry_details : pyval) :
  is_dict entry = false ->
  should_filter_entry entry entry_details
  = Ok (match entry with PNone => true | _ => false end).
Proof.
  destruct entry; simpl; intro H; try reflexivity; discriminate.
Qed.

Lemma should_filter_entry_non_dict_witness :
  should_filter_entry PNone PNone = Ok true /\
  should_filter_entry (PStr "not an entry") PNone = Ok false /\
  should_filter_entry (PList []) null_level_details = Ok false.
Proof.
  split; [|split].
  - apply (should_filter_entry_non_dict PNone PNone). reflexivity.
  - apply (should_filter_entry_non_dict (PStr "not an entry") PNone).
    reflexivity.
  - apply (should_filter_entry_non_dict (PList []) null_level_details).
    reflexivity.
Defined.

(** C4 as stated fails: a text and a number are no dictionaries, and the
    filter returns false for them, and a dictionary whose source type is
    [None] makes it raise. *)
Lemma should_filter_entry_non_dict_kept :
  should_filter_entry (PStr "not an entry") PNone = Ok false /\
  should_filter_entry (PInt 7) PNone = Ok false /\
  should_filter_entry (PDict [("source_type", PNone)]) PNone
  = Raise AttributeError.
Proof. split; [|split]; vm_compute; reflexivity. Qed.

(** The filter on a dictionary whose four text fields are read without an
    exception and whose source type is "usgs" is the USGS rule chain. *)
Lemma should_filter_entry_usgs (d : list (string * pyval))
      (title summary link : string) (entry_details : pyval) :
  field_lower (PDict d) "source_type" = Ok "usgs" ->
  field_lower (PDict d) "title" = Ok title ->
  field_lower (PDict d) "summary" = Ok summary ->
  field_lower (PDict d) "link" = Ok link ->
  should_filter_entry (PDict d) entry_details
  = usgs_rules entry_details title summary.
Proof.
  intros Hs Ht Hu Hl. unfold should_filter_entry.
  rewrite Hs, Ht, Hu, Hl. reflexivity.
Qed.

(** C5, as the code has it: for a dictionary entry of source type
    "usgs" the magnitude read is that of the first match of the magnitude
    pattern, whose token "m" or "magnitude" is required, in the title, or
    in the summary when the title has no match.  When that magnitude is
    below 5.8 the entry is filtered, whatever the details; when it is not
    below 5.8 and no details are given the entry is kept; and when
    neither text has a match and no details are given the entry is kept
    as well. *)
Theorem usgs_magnitude_threshold (d : list (string * pyval))
        (title summary link : string) :
  field_lower (PDict d) "source_type" = Ok "usgs" ->
  field_lower (PDict d) "title" = Ok title ->
  field_lower (PDict d) "summary" = Ok summary ->
  field_lower (PDict d) "link" = Ok link ->
  (forall v : Q,
     parsed_magnitude title summary = Some v ->
     (Float.lt_5_8 v = true ->
      forall entry_details,
        should_filter_entry (PDict d) entry_details = Ok true) /\
     (Float.lt_5_8 v = false ->
      should_filter_entry (PDict d) PNone = Ok false)) /\
  (parsed_magnitude title summary = None ->
   should_filter_entry (PDict d) PNone = Ok false).
Proof.
  intros Hs Ht Hu Hl.
  split; [intros v Hm; split; intros Hv; [intros entry_details|]|intros Hm];
    unfold parsed_magnitude in Hm;
    rewrite (should_filter_entry_usgs _ _ Hs Ht Hu Hl);
    unfold usgs_rules;
    destruct (Re.search magnitude_re title) as [m|].
  - rewrite Hm, Hv. reflexivity.
  - destruct (Re.search magnitude_re summary) as [m|]; [|discriminate].
    rewrite Hm, Hv. reflexivity.
  - rewrite Hm, Hv. reflexivity.
  - destruct (Re.search magnitude_re summary) as [m|]; [|discriminate].
    rewrite Hm, Hv. reflexivity.
  - rewrite Hm. reflexivity.
  - destruct (Re.search magnitude_re summary) as [m|]; [|reflexivity].
    rewrite Hm. reflexivity.
Qed.

Lemma usgs_magnitude_threshold_witness :
  should_filter_entry weak_quake null_level_details = Ok true /\
  should_filter_entry strong_quake PNone = Ok false /\
  should_filter_entry
    (report "usgs" ("Aftershock" ++ nbsp ++ "M 3.0 after M 6.5 mainshock")
            "" "https://usgs.example/5") PNone = Ok true /\
  should_filter_entry quake_without_token PNone = Ok false.
Proof.
  split; [|split; [|split]].
  - refine (proj1 (proj1 (@usgs_magnitude_threshold _ "m 3.0 - elsewhere" ""
                            "https://usgs.example/2" _ _ _ _)
                         (Qmake 30 10) _)
                  _ null_level_details);
      reflexivity.
  - refine (proj2 (proj1 (@usgs_magnitude_threshold _ "m 6.5 - somewhere" ""
                            "https://usgs.example/1" _ _ _ _)
                         (Qmake 65 10) _) _);
      reflexivity.
  - refine (proj1 (proj1 (@usgs_magnitude_threshold _
                            ("aftershock" ++ nbsp
                               ++ "m 3.0 after m 6.5 mainshock") ""
                            "https://usgs.example/5" _ _ _ _)
                         (Qmake 30 10) _)
                  _ PNone);
      vm_compute; reflexivity.
  - refine (proj2 (@usgs_magnitude_threshold _ "4.2 earthquake near town" ""
                     "https://usgs.example/4" _ _ _ _) _);
      vm_compute; reflexivity.
Defined.

(** C5 as stated fails: the title "4.2 earthquake near Town" of a USGS
    report has a decimal number, which the pattern of the specification,
    with its optional token, reads as the magnitude 4.2, below 5.8; the
    pattern of the code wants the token, finds no magnitude, and the
    report is kept. *)
Lemma usgs_magnitude_needs_token :
  option_map (Re.group "1")
    (Re.search claimed_magnitude_re (Str.lower "4.2 earthquake near Town"))
  = Some "4.2" /\
  Float.decimal "4.2" = Some (Qmake 42 10) /\
  Float.lt_5_8 (Qmake 42 10) = true /\
  Re.search magnitude_re (Str.lower "4.2 earthquake near Town") = None /\
  should_filter_entry quake_without_token PNone = Ok false.
Proof.
  split; [vm_compute; reflexivity|].
  split; [vm_compute; reflexivity|].
  split; [vm_compute; reflexivity|].
  split; vm_compute; reflexivity.
Qed.

(** With the same arguments the filter gives the same result: it is a
    function of the entry and the details. *)
Lemma should_filter_entry_deterministic (e1 e2 d1 d2 : pyval) :
  e1 = e2 -> d1 = d2 -> should_filter_entry e1 d1 = should_filter_entry e2 d2.
Proof. intros -> ->. reflexivity. Qed.

(** A true answer without details is never turned into false by details:
    with them the filter answers true again, or raises. *)
Lemma should_filter_entry_never_reversed (entry entry_details : pyval) :
  should_filter_entry entry PNone = Ok true ->
  should_filter_entry entry entry_details <> Ok false.
Proof.
  unfold should_filter_entry.
  destruct entry; try (intros _; discriminate); try (cbn; discriminate).
  destruct (field_lower (PDict d) "source_type") as [source_type|];
    [|discriminate].
  destruct (field_lower (PDict d) "title") as [title|]; [|discriminate].
  destruct (field_lower (PDict d) "summary") as [summary|]; [|discriminate].
  destruct (field_lower (PDict d) "link") as [link|]; [|discriminate].
  cbn [bind].
  destruct (_ && _); [discriminate|].
  destruct (_ && _); [discriminate|].
  destruct (String.eqb source_type "gdacs").
  - unfold gdacs_rules. cbn [details_dict bind].
    destruct (Str.startswith _ _); [discriminate|].
    destruct (_ || _); [discriminate|].
    destruct (existsb _ _); [discriminate|].
    destruct (_ && _); [discriminate|].
    destruct (Str.contains "green earthquake" title).
    + intros _. destruct (details_dict entry_details); cbn [bind].
      * destruct (Py.lower _); cbn [bind]; [destruct (String.eqb _ _)|];
          discriminate.
      * discriminate.
    + destruct (Py.lookup "icon" d) as [icon_url|]; [|discriminate].
      destruct (Py.lower icon_url) as [u|]; [|discriminate].
      cbn [bind]. destruct (_ && _); [|discriminate].
      intros _. destruct (details_dict entry_details); cbn [bind].
      * destruct (Py.lower _); cbn [bind]; [destruct (String.eqb _ _)|];
          discriminate.
      * discriminate.
  - destruct (String.eqb source_type "usgs"); [|discriminate].
    unfold usgs_rules. cbn [details_dict].
    destruct (match Re.search magnitude_re title with
              | Some _ => _ | None => _ end); [discriminate|].
    destruct (match Re.search magnitude_re title with
              | Some _ => _ | None => _ end); discriminate.
Qed.

(** So the two calls agree whenever the second one returns. *)
Lemma should_filter_entry_monotone_when_it_returns
      (entry entry_details : pyval) :
  should_filter_entry entry PNone = Ok true ->
  is_ok (should_filter_entry entry entry_details) = true ->
  should_filter_entry entry entry_details = Ok true.
Proof.
  intros H R.
  pose proof (@should_filter_entry_never_reversed entry entry_details H) as N.
  destruct (should_filter_entry entry entry_details) as [[|]|];
    [reflexivity|contradiction|discriminate].
Qed.

(** C3 fails on the code at a GDACS entry that only the title pattern
    "green earthquake" catches: without details the filter answers true,
    and with details whose alert level is [None] it raises
    [AttributeError] before it reaches that pattern. *)
Theorem should_filter_entry_raises_after_true :
  should_filter_entry green_quake PNone = Ok true /\
  should_filter_entry green_quake null_level_details = Raise AttributeError.
Proof. split; reflexivity. Qed.

(** *** The grouping key *)

(** The same entry and details give the same key. *)
Lemma group_key_deterministic (d1 d2 : list (string * pyval))
      (details1 details2 : pyval) :
  d1 = d2 -> details1 = details2 ->
  group_key d1 details1 = group_key d2 details2.
Proof. intros -> ->. reflexivity. Qed.

(** C6, as the code has it: the key is a function of the details, of the
    source type and, when the source type is "noaa_spc", of the title; no
    other field of the entry has a part in it. *)
Theorem group_key_inputs (d1 d2 : list (string * pyval)) (details : pyval) :
  Py.get "source_type" PNone d1 = Py.get "source_type" PNone d2 ->
  (is_text "noaa_spc" (Py.get "source_type" PNone d1) = true ->
   Py.get "title" (PStr "") d1 = Py.get "title" (PStr "") d2) ->
  group_key d1 details = group_key d2 details.
Proof.
  intros Hs Ht. unfold group_key. rewrite <- Hs.
  destruct (is_text "noaa_spc" (Py.get "source_type" PNone d1)).
  - rewrite <- (Ht eq_refl). reflexivity.
  - reflexivity.
Qed.

Lemma group_key_inputs_witness :
  group_key (items_of spc_update_1234) storm_details
  = group_key (("extra", PInt 1) :: items_of spc_update_1234) storm_details.
Proof.
  apply (@group_key_inputs (items_of spc_update_1234)
           (("extra", PInt 1) :: items_of spc_update_1234) storm_details);
    reflexivity.
Defined.

(** C6 as stated fails: two SPC reports that the filter keeps, with the
    same source type and the same details, get different keys, because
    the title decides the number in the key. *)
Lemma group_key_reads_title :
  should_filter_entry spc_update_1234 storm_details = Ok false /\
  should_filter_entry spc_update_5678 storm_details = Ok false /\
  Py.get "source_type" PNone (items_of spc_update_1234)
  = Py.get "source_type" PNone (items_of spc_update_5678) /\
  group_key (items_of spc_update_1234) storm_details
  = Ok "Severe Weather Discussion (MD 1234)" /\
  group_key (items_of spc_update_5678) storm_details
  = Ok "Severe Weather Discussion (MD 5678)" /\
  group_key (items_of spc_update_1234) storm_details
  <> group_key (items_of spc_update_5678) storm_details.
Proof.
  repeat split; try reflexivity.
  vm_compute. discriminate.
Qed.

(** C7, as the code has it: for an entry of source type "noaa_spc" whose
    title, in lower case, contains "spc md" and has a match of
    [md\s+(\d+)], the key is "Severe Weather Discussion (MD n)" for the
    digits [n] of the first match, whatever the details hold.  The white
    space of [\s] is Python's: a no-break space after "md" counts. *)
Theorem spc_md_override (d details_items : list (string * pyval))
        (title : string) (md_match : Re.mstate) :
  is_text "noaa_spc" (Py.get "source_type" PNone d) = true ->
  Py.get "title" (PStr "") d = PStr title ->
  Str.contains "spc md" (Str.lower title) = true ->
  Re.search md_re (Str.lower title) = Some md_match ->
  group_key d (PDict details_items)
  = Ok ("Severe Weather Discussion (MD " ++ Re.group "1" md_match ++ ")").
Proof.
  intros Hs Ht Hc Hm. unfold group_key. cbn [Py.get_attr bind].
  rewrite Hs, Ht.
  assert (G : is_text "gdacs" (Py.get "source_type" PNone d) = false).
  { unfold is_text in *. destruct (Py.get "source_type" PNone d);
      try discriminate.
    apply String.eqb_eq in Hs. subst. reflexivity. }
  rewrite G. cbn [andb Py.lower bind].
  destruct (Py.truthy _); cbn [bind]; rewrite Hc, Hm; reflexivity.
Qed.

Lemma spc_md_override_witness :
  group_key (items_of spc_update_1234) storm_details
  = Ok "Severe Weather Discussion (MD 1234)" /\
  group_key (items_of spc_update_nbsp) storm_details
  = Ok "Severe Weather Discussion (MD 12)".
Proof.
  split.
  - refine (@spc_md_override (items_of spc_update_1234)
              (items_of storm_details) "Update: SPC MD 1234"
              (Re.MState 19 "" [("1", "1234")]) _ _ _ _);
      reflexivity.
  - refine (@spc_md_override (items_of spc_update_nbsp)
              (items_of storm_details)
              ("Update: SPC MD" ++ nbsp ++ "12 and MD 34")
              (Re.MState 17 " and md 34" [("1", "12")]) _ _ _ _);
      vm_compute; reflexivity.
Defined.

(** C7 as stated fails: the title "MD 1234 concerning severe potential"
    of an SPC report that the filter keeps has a match of the MD pattern,
    and the key is the default one, because the title has no "spc md". *)
Lemma bare_md_not_overridden :
  should_filter_entry bare_md storm_details = Ok false /\
  is_text "noaa_spc" (Py.get "source_type" PNone (items_of bare_md)) = true /\
  option_map (Re.group "1")
    (Re.search md_re (Str.lower "MD 1234 concerning severe potential"))
  = Some "1234" /\
  group_key (items_of bare_md) storm_details
  = Ok "Severe Storm in Kansas on 2024-12-31" /\
  group_key (items_of bare_md) storm_details
  <> Ok "Severe Weather Discussion (MD 1234)".
Proof.
  repeat split; try reflexivity.
  vm_compute. discriminate.
Qed.

(** *** The filter error path of the grouper *)

Lemma members_of_append_to (key : string) (member : pyval) (grouped : groups) :
  In member (members_of key (append_to key member grouped)).
Proof.
  induction grouped as [|[k members] grouped IH]; simpl.
  - rewrite String.eqb_refl. left. reflexivity.
  - destruct (String.eqb k key) eqn:E; simpl; rewrite E.
    + apply in_or_app. right. left. reflexivity.
    + exact IH.
Qed.

(** What a turn of the loop comes to when the second call of the filter
    raises, for an entry that holds its title as a text and its link,
    its published date and its source, and whose details are a
    dictionary.  The exception is caught and the entry is appended, as
    the member made of its own five fields and of the details, under the
    key of the details; unless the source type is "gdacs" and the alert
    level of the details is a truthy value that is no text, in which case
    the key construction raises [AttributeError], which nothing
    catches. *)
Lemma filter_error_outcome (all_details : KMap.t)
      (d details_items : list (string * pyval)) (grouped : groups) (e : exn)
      (title : string) (link published source : pyval) :
  details_for (Py.get "link" (PStr "") d) all_details
  = Ok (Some (PDict details_items)) ->
  Py.truthy (PDict details_items) = true ->
  should_filter_entry (PDict d) (PDict details_items) = Raise e ->
  Py.lookup "title" d = Some (PStr title) ->
  Py.lookup "link" d = Some link ->
  Py.lookup "published" d = Some published ->
  Py.lookup "source" d = Some source ->
  if is_text "gdacs" (Py.get "source_type" PNone d)
     && Py.truthy (Py.get "alert_level" PNone details_items)
     && negb (is_str (Py.get "alert_level" PNone details_items))
  then group_one all_details (PDict d) grouped = Raise AttributeError
  else exists key : string,
      group_key d (PDict details_items) = Ok key /\
      group_one all_details (PDict d) grouped
      = Ok (append_to key
              (member_record (PStr title) (Py.get "summary" (PStr "") d)
                             link published source (PDict details_items))
              grouped).
Proof.
  intros Hd Ht Hf Htitle Hlink Hpub Hsrc.
  assert (G : group_one all_details (PDict d) grouped
              = add_to_group d (PDict details_items) grouped).
  { unfold group_one. rewrite Hd. cbn [bind]. rewrite Ht, Hf. reflexivity. }
  assert (M : member_of d (PDict details_items)
              = Ok (member_record (PStr title) (Py.get "summary" (PStr "") d)
                                  link published source
                                  (PDict details_items))).
  { unfold member_of, item. rewrite Htitle, Hlink, Hpub, Hsrc. reflexivity. }
  assert (T : Py.get "title" (PStr "") d = PStr title).
  { unfold Py.get. rewrite Htitle. reflexivity. }
  rewrite G. unfold add_to_group, group_key. cbn [Py.get_attr bind].
  rewrite T. cbn [Py.lower bind].
  destruct (is_text "gdacs" (Py.get "source_type" PNone d)) eqn:Eg;
    cbn [andb].
  - assert (N : is_text "noaa_spc" (Py.get "source_type" PNone d) = false).
    { unfold is_text in *. destruct (Py.get "source_type" PNone d);
        try reflexivity.
      apply String.eqb_eq in Eg. subst. reflexivity. }
    rewrite N.
    destruct (Py.truthy (Py.get "alert_level" PNone details_items)) eqn:El;
      cbn [andb].
    + destruct (Py.get "alert_level" PNone details_items);
        cbn [is_str negb bind]; try reflexivity.
      rewrite M. eexists. split; reflexivity.
    + destruct (Py.truthy (Py.get "severity" PNone details_items));
        cbn [bind]; rewrite M; eexists; split; reflexivity.
  - destruct (Py.truthy (Py.get "severity" PNone details_items));
      cbn [bind];
      destruct (is_text "noaa_spc" (Py.get "source_type" PNone d));
      try destruct (Str.contains "spc md" (Str.lower title));
      try destruct (Re.search md_re (Str.lower title));
      cbn [bind]; rewrite M; eexists; split; reflexivity.
Qed.

(** C10 fails on the code at a GDACS report for which the model answers
    the number 2 as the alert level.  The report passes the first call of
    the filter; the second call, with the details, raises
    [AttributeError] at [alert_level.lower()] and the exception is
    caught; the key construction that follows calls [capitalize] on the
    same number and raises [AttributeError] again, which nothing
    catches: the entry is not appended and the grouping pass ends with
    the exception. *)
Theorem filter_error_crashes_grouping :
  should_filter_entry orange_quake PNone = Ok false /\
  extract_details_in_batch numeric_level_model
    [Prepared (PStr "https://gdacs.example/2")
              (PStr "Orange earthquake alert in Chile") (PStr "")
              (PStr "feed") (PStr "gdacs") (PStr "2024-12-31T14:00:00Z")]
    default_max_retries
  = Ok [(PStr "https://gdacs.example/2", numeric_level_details)] /\
  should_filter_entry orange_quake numeric_level_details
  = Raise AttributeError /\
  group_key (items_of orange_quake) numeric_level_details
  = Raise AttributeError /\
  group_one [(PStr "https://gdacs.example/2", numeric_level_details)]
            orange_quake []
  = Raise AttributeError /\
  group_disasters numeric_level_model [orange_quake] = Raise AttributeError.
Proof.
  split; [vm_compute; reflexivity|].
  split; [vm_compute; reflexivity|].
  split; [vm_compute; reflexivity|].
  split; [vm_compute; reflexivity|].
  split; vm_compute; reflexivity.
Qed.

(** The two outcomes of [filter_error_outcome] on sample data: a USGS
    quake whose details have no disaster type is appended, with its own
    fields, and the orange quake ends the pass. *)
Lemma filter_error_outcome_examples :
  group_one [(PStr "https://usgs.example/1", null_type_details)]
            strong_quake []
  = Ok [("None (6.5) in Somewhere on 2024-12-31",
         [member_record (PStr "M 6.5 - Somewhere") (PStr "")
                        (PStr "https://usgs.example/1")
                        (PStr "2024-12-31T14:00:00Z") (PStr "feed")
                        null_type_details])] /\
  group_one [(PStr "https://gdacs.example/2", numeric_level_details)]
            orange_quake []
  = Raise AttributeError.
Proof.
  split.
  - pose proof (@filter_error_outcome
                  [(PStr "https://usgs.example/1", null_type_details)]
                  (items_of strong_quake) (items_of null_type_details) []
                  AttributeError "M 6.5 - Somewhere"
                  (PStr "https://usgs.example/1")
                  (PStr "2024-12-31T14:00:00Z") (PStr "feed")
                  eq_refl eq_refl eq_refl eq_refl eq_refl eq_refl eq_refl)
      as H.
    cbv beta iota in H.
    change (is_text "gdacs"
              (Py.get "source_type" PNone (items_of strong_quake))
            && Py.truthy
                 (Py.get "alert_level" PNone (items_of null_type_details))
            && negb (is_str (Py.get "alert_level" PNone
                                    (items_of null_type_details))))
      with false in H.
    destruct H as (key & Hk & Hg).
    change (group_key (items_of strong_quake)
                      (PDict (items_of null_type_details)))
      with (@Ok string "None (6.5) in Somewhere on 2024-12-31") in Hk.
    inversion Hk; subst key. exact Hg.
  - exact (@filter_error_outcome
             [(PStr "https://gdacs.example/2", numeric_level_details)]
             (items_of orange_quake) (items_of numeric_level_details) []
             AttributeError "Orange earthquake alert in Chile"
             (PStr "https://gdacs.example/2")
             (PStr "2024-12-31T14:00:00Z") (PStr "feed")
             eq_refl eq_refl eq_refl eq_refl eq_refl eq_refl eq_refl).
Qed.

(** The same through the whole of [group_disasters]: the model answers
    [null] for the disaster type of a strong USGS quake, the second call of
    the filter raises, and the quake is grouped under the key built from
    the details as they are. *)
Lemma group_disasters_keeps_after_filter_error :
  group_disasters null_type_model [strong_quake; weak_quake]
  = Ok [("None (6.5) in Somewhere on 2024-12-31",
         [PDict [("title", PStr "M 6.5 - Somewhere");
                 ("summary", PStr "");
                 ("link", PStr "https://usgs.example/1");
                 ("published", PStr "2024-12-31T14:00:00Z");
                 ("source", PStr "feed");
                 ("details", null_type_details)]])].
Proof. vm_compute. reflexivity. Qed.

(** An entry that is no dictionary and not [None] passes the filter, and
    the grouper then fails on it when it prepares the batch. *)
Lemma group_disasters_non_dict_raises :
  group_disasters null_type_model [PStr "not an entry"]
  = Raise AttributeError.
Proof. vm_compute. reflexivity. Qed.

(** *** The ledger *)

Module LedgerFacts.
Import Ledger.

Lemma has_link_app (l : string) (t1 t2 : table) :
  has_link l (t1 ++ t2)%list = has_link l t1 || has_link l t2.
Proof. unfold has_link. apply existsb_app. Qed.

Lemma has_link_insert (now : Z) (t : table) (l l' : string) :
  has_link l (insert_or_ignore now t l') = has_link l t || String.eqb l' l.
Proof.
  unfold insert_or_ignore.
  destruct (has_link l' t) eqn:E.
  - destruct (String.eqb l' l) eqn:E'.
    + apply String.eqb_eq in E'. subst. rewrite E. reflexivity.
    + rewrite orb_false_r. reflexivity.
  - rewrite has_link_app. simpl. rewrite orb_false_r. reflexivity.
Qed.

Lemma has_link_In (l : string) (t : table) :
  has_link l t = true <-> In l (map link t).
Proof.
  unfold has_link. rewrite existsb_exists, in_map_iff. split.
  - intros [r [Hr He]]. apply String.eqb_eq in He. exists r. auto.
  - intros [r [He Hr]]. exists r. split; [exact Hr|].
    apply String.eqb_eq. exact He.
Qed.






Lemma rows_of_filter_le (l : string) (f : row -> bool) (t : table) :
  (rows_of l (filter f t) <= rows_of l t)%nat.
Proof.
  unfold rows_of. induction t as [|r t IH]; simpl; [lia|].
  destruct (f r); simpl; destruct (String.eqb (link r) l); simpl; lia.
Qed.

Lemma keyed_cleanup (up : bool) (now : Z) (t : table) :
  keyed t -> keyed (cleanup_old_entries up now t).
Proof.
  intros K l. unfold cleanup_old_entries. destruct up; [|apply K].
  eapply Nat.le_trans; [apply rows_of_filter_le|apply K].
Qed.



End LedgerFacts.



(** *** One cycle of [main] *)

Lemma has_link_save (now : Z) (links : list string) (l : string)
      (t : Ledger.table) :
  Ledger.has_link l (Ledger.save_sent_entries true now links t)
  = Ledger.has_link l t || existsb (String.eqb l) links.
Proof.
  unfold Ledger.save_sent_entries. revert t.
  induction links as [|l' links IH]; simpl; intros t.
  - rewrite orb_false_r. reflexivity.
  - rewrite IH, LedgerFacts.has_link_insert.
    rewrite (String.eqb_sym l l'), orb_assoc. reflexivity.
Qed.

Lemma links_of_not_sent (sent_entries : list string) (ds new : list pyval)
      (new_links : list string) (d : pyval) (l : string) :
  not_sent sent_entries ds = Ok new ->
  links_of new = Ok new_links ->
  In d ds -> link_of d = Ok (PStr l) ->
  existsb (String.eqb l) sent_entries = true
  \/ existsb (String.eqb l) new_links = true.
Proof.
  revert new new_links.
  induction ds as [|d' ds IH]; simpl; intros new new_links Hn Hl Hin Hd;
    [contradiction|].
  destruct (link_of d') as [v'|] eqn:E; [|discriminate]. cbn [bind] in Hn.
  destruct (is_sent sent_entries v') as [sent|] eqn:S; [|discriminate].
  cbn [bind] in Hn.
  destruct (not_sent sent_entries ds) as [rest|] eqn:R; [|discriminate].
  cbn [bind] in Hn. inversion Hn; subst new; clear Hn.
  destruct sent.
  - destruct Hin as [<- | Hin].
    + rewrite E in Hd. inversion Hd; subst. left.
      cbn [is_sent] in S. inversion S. reflexivity.
    + eapply IH; eauto.
  - simpl in Hl. rewrite E in Hl. cbn [bind] in Hl.
    destruct v' as [| | | |l'| |]; try discriminate.
    destruct (links_of rest) as [ls|] eqn:Ls; [|discriminate].
    cbn [bind] in Hl. inversion Hl; subst new_links; clear Hl.
    destruct Hin as [<- | Hin].
    + rewrite E in Hd. inversion Hd; subst. right. simpl.
      rewrite String.eqb_refl. reflexivity.
    + destruct (IH rest ls eq_refl Ls Hin Hd) as [A|A]; [left|right].
      * exact A.
      * simpl. rewrite A. apply orb_true_r.
Qed.

(** Whatever the send returned, a cycle that made a send and went on
    leaves every link of the fetched reports in the ledger. *)
Lemma main_records_links (w : world) (t t' : Ledger.table) (sent : bool) :
  database_up w = true ->
  main w t = Ok (Some sent, t') ->
  forall (d : pyval) (l : string),
    In d (fetched w) -> link_of d = Ok (PStr l) ->
    Ledger.has_link l t' = true.
Proof.
  intros Up M d l Hin Hd. unfold main in M. rewrite Up in M.
  set (t1 := Ledger.cleanup_old_entries true (now w) t) in *.
  destruct (not_sent (Ledger.load_sent_entries true t1) (fetched w))
    as [new|] eqn:N; [|discriminate].
  cbn [bind] in M.
  destruct new as [|d0 new]; [discriminate|].
  destruct (process_disasters w (d0 :: new) 3) as [[text|]|];
    try discriminate.
  cbn [bind] in M.
  destruct (negb (String.eqb text "")); [|discriminate].
  destruct (Slack.send_disaster_alert_block _ _ _) as [b|]; [|discriminate].
  cbn [bind] in M.
  destruct (links_of (d0 :: new)) as [new_links|] eqn:Ls; [|discriminate].
  cbn [bind] in M. inversion M; subst. clear M.
  change (fold_left (Ledger.insert_or_ignore (now w)) new_links t1)
    with (Ledger.save_sent_entries true (now w) new_links t1).
  rewrite has_link_save.
  destruct (@links_of_not_sent _ _ _ _ _ _ N Ls Hin Hd) as [A|A].
  - apply orb_true_iff. left.
    apply LedgerFacts.has_link_In.
    change (map Ledger.link t1) with (Ledger.load_sent_entries true t1).
    apply existsb_exists in A. destruct A as [x [Hx Hl]].
    apply String.eqb_eq in Hl. subst. exact Hx.
  - rewrite A. apply orb_true_r.
Qed.

(** C2 fails on the code: in a cycle whose send returns false, because
    the channel is not found, the link of the report is saved to the
    ledger all the same. *)
Theorem main_saves_after_failed_send :
  Slack.send_disaster_alert_block (chat failed_send_cycle)
    (format_alert_block failed_send_cycle
       "### Earthquake (6.5) in Somewhere on 2024-12-31") 3
  = Ok false /\
  main failed_send_cycle []
  = Ok (Some false, [Ledger.Row "https://usgs.example/1" 1735653600]).
Proof. split; vm_compute; reflexivity. Qed.

(** *** The detail extractor *)

Module KMapFacts.

Lemma key_eqb_str_l (s : string) (k : pyval) :
  Py.key_eqb (PStr s) k = true <-> k = PStr s.
Proof.
  destruct k; simpl; split; intro H; try discriminate.
  - apply String.eqb_eq in H. subst. reflexivity.
  - inversion H. apply String.eqb_refl.
Qed.

Lemma key_eqb_str_r (s : string) (k : pyval) :
  Py.key_eqb k (PStr s) = true <-> k = PStr s.
Proof.
  destruct k; simpl; split; intro H; try discriminate.
  - apply String.eqb_eq in H. subst. reflexivity.
  - inversion H. apply String.eqb_refl.
Qed.

Lemma key_eqb_refl (k : pyval) : Py.hashable k = true -> Py.key_eqb k k = true.
Proof.
  destruct k as [|b|z|q t|s|l|d]; simpl; intro H; try discriminate;
    try reflexivity.
  - destruct b; reflexivity.
  - apply Qeq_bool_iff. reflexivity.
  - apply Qeq_bool_iff. reflexivity.
  - apply String.eqb_refl.
Qed.

Lemma find_set_same (s : string) (v : pyval) (m : KMap.t) :
  KMap.find (PStr s) (KMap.set (PStr s) v m) = Some v.
Proof.
  induction m as [|[k' v'] m IH]; cbn [KMap.find KMap.set].
  - rewrite (proj2 (key_eqb_str_l s (PStr s)) eq_refl). reflexivity.
  - destruct (Py.key_eqb (PStr s) k') eqn:E; cbn [KMap.find]; rewrite E; auto.
Qed.

Lemma find_set_other (s : string) (k v : pyval) (m : KMap.t) :
  k <> PStr s ->
  KMap.find (PStr s) (KMap.set k v m) = KMap.find (PStr s) m.
Proof.
  intro N. induction m as [|[k' v'] m IH]; cbn [KMap.find KMap.set].
  - destruct (Py.key_eqb (PStr s) k) eqn:E; [|reflexivity].
    apply key_eqb_str_l in E. contradiction.
  - destruct (Py.key_eqb k k') eqn:E; cbn [KMap.find].
    + destruct (Py.key_eqb (PStr s) k') eqn:E'; [|reflexivity].
      apply key_eqb_str_l in E'. subst k'.
      apply key_eqb_str_r in E. contradiction.
    + rewrite IH. reflexivity.
Qed.

Lemma mem_set (s : string) (k v : pyval) (m : KMap.t) :
  KMap.mem (PStr s) (KMap.set k v m)
  = KMap.mem (PStr s) m || Py.key_eqb (PStr s) k.
Proof.
  unfold KMap.mem.
  destruct (Py.key_eqb (PStr s) k) eqn:E.
  - apply key_eqb_str_l in E. subst k. rewrite find_set_same.
    rewrite orb_true_r. reflexivity.
  - rewrite find_set_other, orb_false_r; [reflexivity|].
    intro C. subst k.
    rewrite (proj2 (key_eqb_str_l s (PStr s)) eq_refl) in E. discriminate.
Qed.

Lemma mem_In (s : string) (m : KMap.t) :
  KMap.mem (PStr s) m = true <-> In (PStr s) (KMap.keys m).
Proof.
  unfold KMap.mem, KMap.keys.
  induction m as [|[k v] m IH]; cbn [KMap.find map fst In].
  - split; [discriminate|contradiction].
  - destruct (Py.key_eqb (PStr s) k) eqn:E.
    + apply key_eqb_str_l in E. subst. split; auto.
    + rewrite IH. split; [auto|].
      intros [C|C]; [|exact C].
      subst k.
      rewrite (proj2 (key_eqb_str_l s (PStr s)) eq_refl) in E. discriminate.
Qed.

(** The keys after a store: the same ones, or one more at the end. *)
Lemma keys_set (k v : pyval) (m : KMap.t) :
  KMap.keys (KMap.set k v m) = KMap.keys m
  \/ (KMap.keys (KMap.set k v m) = (KMap.keys m ++ [k])%list
      /\ forall k', In k' (KMap.keys m) -> Py.key_eqb k k' = false).
Proof.
  unfold KMap.keys. induction m as [|[k0 v0] m IH];
    cbn [KMap.set map fst app].
  - right. split; [reflexivity|]. intros k' [].
  - destruct (Py.key_eqb k k0) eqn:E; cbn [map fst app].
    + left. reflexivity.
    + destruct IH as [IH | [IH1 IH2]].
      * left. rewrite IH. reflexivity.
      * right. split; [rewrite IH1; reflexivity|].
        intros k' [<- | H]; auto.
Qed.

Lemma NoDup_keys_set (k v : pyval) (m : KMap.t) :
  Py.hashable k = true ->
  NoDup (KMap.keys m) -> NoDup (KMap.keys (KMap.set k v m)).
Proof.
  intros Hh N. destruct (keys_set k v m) as [E | [E F]]; rewrite E.
  - exact N.
  - apply NoDup_app; [exact N|repeat constructor; intros []|].
    intros x Hx [<- | []].
    specialize (F _ Hx). rewrite key_eqb_refl in F by exact Hh. discriminate.
Qed.

Lemma keys_set_incl (k v : pyval) (m : KMap.t) (x : pyval) :
  In x (KMap.keys (KMap.set k v m)) -> In x (KMap.keys m) \/ x = k.
Proof.
  destruct (keys_set k v m) as [E | [E _]]; rewrite E; [auto|].
  intro H. apply in_app_or in H. destruct H as [H | [H | []]]; auto.
Qed.

End KMapFacts.

Lemma well_prepared_inv (e : prepared) :
  well_prepared e = true ->
  exists (id date summary : string),
    p_id e = PStr id /\ p_summary e = PStr summary /\
    normalize_date (p_published e) = Ok date /\
    fallback_details e = Ok (fallback_record date summary).
Proof.
  unfold well_prepared. intro H.
  apply andb_true_iff in H. destruct H as [H H3].
  apply andb_true_iff in H. destruct H as [H1 H2].
  destruct (p_id e) as [| | | |id| |] eqn:Eid; try discriminate.
  destruct (p_summary e) as [| | | |summary| |] eqn:Es; try discriminate.
  destruct (normalize_date (p_published e)) as [date|] eqn:Ed;
    [|discriminate].
  exists id, date, summary. repeat split.
  unfold fallback_details. rewrite Ed, Es. cbn [bind short_description len].
  unfold fallback_record. destruct (100 <? String.length summary)%nat;
    reflexivity.
Qed.

Lemma has_fallback_cons (e0 : prepared) (entries : list prepared)
      (m : KMap.t) (e : prepared) :
  has_fallback entries m e -> has_fallback (e0 :: entries) m e.
Proof.
  intros (e' & date & summary & Hin & H). exists e', date, summary.
  split; [right; exact Hin|exact H].
Qed.

Lemma id_among_In (s : string) (entries : list prepared) :
  id_among s entries = true <-> In (PStr s) (map p_id entries).
Proof.
  unfold id_among. rewrite existsb_exists, in_map_iff. split.
  - intros [e [He Hk]]. apply KMapFacts.key_eqb_str_l in Hk. exists e. auto.
  - intros [e [Hk He]]. exists e. split; [exact He|].
    apply KMapFacts.key_eqb_str_l. exact Hk.
Qed.

(** The fallbacks for the ids that are missing: the call returns, every
    id of the batch is a key afterwards, the records already there stay,
    and an entry whose id was missing has the fallback record. *)
Lemma fill_missing_spec (entries : list prepared) :
  forallb well_prepared entries = true ->
  forall m : KMap.t,
    NoDup (KMap.keys m) ->
    exists m' : KMap.t,
      fill_missing entries m = Ok m' /\
      NoDup (KMap.keys m') /\
      (forall s, KMap.mem (PStr s) m'
                 = KMap.mem (PStr s) m || id_among s entries) /\
      (forall s, KMap.mem (PStr s) m = true ->
                 KMap.find (PStr s) m' = KMap.find (PStr s) m) /\
      (forall e, In e entries -> KMap.mem (p_id e) m = false ->
                 has_fallback entries m' e) /\
      (forall k, In k (KMap.keys m') ->
                 In k (KMap.keys m) \/ In k (map p_id entries)).
Proof.
  induction entries as [|e0 entries IH]; intros W m N.
  - exists m. cbn [fill_missing id_among existsb].
    repeat split; auto.
    + intros s. rewrite orb_false_r. reflexivity.
    + intros e [].
  - cbn [forallb] in W. apply andb_true_iff in W. destruct W as [W0 W].
    destruct (well_prepared_inv _ W0) as (id0 & date & summary & Hid & Hs & Hd & Hf).
    cbn [fill_missing]. unfold missing, store. rewrite Hid.
    cbn [Py.hashable bind]. rewrite Hf.
    destruct (KMap.mem (PStr id0) m) eqn:M; cbn [negb bind].
    + destruct (IH W m N) as (m' & R & N' & Hmem & Hkeep & Hfb & Hkeys).
      exists m'. split; [exact R|]. split; [exact N'|].
      split; [|split; [|split]].
      * intros s. rewrite Hmem. cbn [id_among existsb]. rewrite Hid.
        fold (id_among s entries).
        destruct (Py.key_eqb (PStr s) (PStr id0)) eqn:E; [|reflexivity].
        apply KMapFacts.key_eqb_str_l in E. inversion E; subst.
        rewrite M. reflexivity.
      * exact Hkeep.
      * intros e [<- | Hin] Hm.
        -- rewrite Hid, M in Hm. discriminate.
        -- apply has_fallback_cons. apply Hfb; assumption.
      * intros k Hk. destruct (Hkeys k Hk); [left|right; right]; assumption.
    + set (m1 := KMap.set (PStr id0) (fallback_record date summary) m).
      assert (N1 : NoDup (KMap.keys m1))
        by (apply KMapFacts.NoDup_keys_set; [reflexivity|exact N]).
      destruct (IH W m1 N1) as (m' & R & N' & Hmem & Hkeep & Hfb & Hkeys).
      exists m'. split; [exact R|]. split; [exact N'|].
      assert (M1 : forall s, KMap.mem (PStr s) m1
                             = KMap.mem (PStr s) m
                               || Py.key_eqb (PStr s) (PStr id0))
        by (intro s; apply KMapFacts.mem_set).
      split; [|split; [|split]].
      * intros s. rewrite Hmem, M1. cbn [id_among existsb]. rewrite Hid.
        fold (id_among s entries). rewrite orb_assoc. reflexivity.
      * intros s Hm. rewrite Hkeep by (rewrite M1, Hm; reflexivity).
        apply KMapFacts.find_set_other. intro C. inversion C; subst.
        rewrite M in Hm. discriminate.
      * intros e Hin Hm.
        destruct (well_prepared_inv e) as (id & _ & _ & Hide & _).
        { destruct Hin as [<- | Hin]; [exact W0|].
          rewrite forallb_forall in W. apply W. exact Hin. }
        destruct (String.eqb id id0) eqn:E.
        -- apply String.eqb_eq in E. subst id.
           exists e0, date, summary.
           split; [left; reflexivity|]. split; [congruence|].
           split; [exact Hd|]. split; [exact Hs|].
           rewrite Hide, Hkeep.
           ++ apply KMapFacts.find_set_same.
           ++ rewrite M1, (proj2 (KMapFacts.key_eqb_str_l id0 (PStr id0)) eq_refl).
              apply orb_true_r.
        -- destruct Hin as [<- | Hin].
           ++ rewrite Hid in Hide. inversion Hide; subst.
              rewrite String.eqb_refl in E. discriminate.
           ++ apply has_fallback_cons. apply Hfb; [exact Hin|].
              rewrite Hide in *. rewrite M1, Hm. cbn [orb].
              destruct (Py.key_eqb (PStr id) (PStr id0)) eqn:K; [|reflexivity].
              apply KMapFacts.key_eqb_str_l in K. inversion K; subst.
              rewrite String.eqb_refl in E. discriminate.
      * intros k Hk. destruct (Hkeys k Hk) as [H|H].
        -- apply KMapFacts.keys_set_incl in H. destruct H as [H | ->].
           ++ left. exact H.
           ++ right. left. exact Hid.
        -- right. right. exact H.
Qed.

Lemma store_NoDup (k v : pyval) (m m' : KMap.t) :
  store k v m = Ok m' -> NoDup (KMap.keys m) -> NoDup (KMap.keys m').
Proof.
  unfold store. destruct (Py.hashable k) eqn:H; [|discriminate].
  intros E N. inversion E; subst. apply KMapFacts.NoDup_keys_set; assumption.
Qed.

Lemma store_result_NoDup (result : pyval) (m m' : KMap.t) :
  store_result result m = Ok m' ->
  NoDup (KMap.keys m) -> NoDup (KMap.keys m').
Proof.
  unfold store_result.
  destruct (Py.get_attr result "id" PNone) as [entry_id|]; [|discriminate].
  cbn [bind]. destruct (Py.truthy entry_id).
  - destruct result; try discriminate.
    destruct (if Py.truthy (Py.get "date" PNone d) then _ else _) as [r'|];
      [|discriminate].
    cbn [bind]. apply store_NoDup.
  - intros E N. inversion E; subst. exact N.
Qed.

Lemma store_results_NoDup (results : list pyval) :
  forall m m' : KMap.t,
    store_results results m = Ok m' ->
    NoDup (KMap.keys m) -> NoDup (KMap.keys m').
Proof.
  induction results as [|result results IH]; cbn [store_results];
    intros m m' E N.
  - inversion E; subst. exact N.
  - destruct (store_result result m) as [m1|] eqn:E1; [|discriminate].
    cbn [bind] in E. eapply IH; [exact E|].
    eapply store_result_NoDup; eassumption.
Qed.

(** The fallbacks for every entry: the call returns, the keys are the
    ids of the batch, and each entry has the fallback record. *)
Lemma all_fallbacks_spec (entries : list prepared) :
  forallb well_prepared entries = true ->
  forall m : KMap.t,
    NoDup (KMap.keys m) ->
    exists m' : KMap.t,
      all_fallbacks entries m = Ok m' /\
      NoDup (KMap.keys m') /\
      (forall s, KMap.mem (PStr s) m'
                 = KMap.mem (PStr s) m || id_among s entries) /\
      (forall s, id_among s entries = false ->
                 KMap.find (PStr s) m' = KMap.find (PStr s) m) /\
      (forall e, In e entries -> has_fallback entries m' e) /\
      (forall k, In k (KMap.keys m') ->
                 In k (KMap.keys m) \/ In k (map p_id entries)).
Proof.
  induction entries as [|e0 entries IH]; intros W m N.
  - exists m. cbn [all_fallbacks id_among existsb].
    repeat split; auto.
    + intros s. rewrite orb_false_r. reflexivity.
    + intros e [].
  - cbn [forallb] in W. apply andb_true_iff in W. destruct W as [W0 W].
    destruct (well_prepared_inv _ W0)
      as (id0 & date & summary & Hid & Hs & Hd & Hf).
    cbn [all_fallbacks]. unfold store. rewrite Hf, Hid.
    cbn [Py.hashable bind].
    set (m1 := KMap.set (PStr id0) (fallback_record date summary) m).
    assert (N1 : NoDup (KMap.keys m1))
      by (apply KMapFacts.NoDup_keys_set; [reflexivity|exact N]).
    destruct (IH W m1 N1) as (m' & R & N' & Hmem & Hkeep & Hfb & Hkeys).
    exists m'. split; [exact R|]. split; [exact N'|].
    assert (M1 : forall s, KMap.mem (PStr s) m1
                           = KMap.mem (PStr s) m
                             || Py.key_eqb (PStr s) (PStr id0))
      by (intro s; apply KMapFacts.mem_set).
    split; [|split; [|split]].
    + intros s. rewrite Hmem, M1. cbn [id_among existsb]. rewrite Hid.
      fold (id_among s entries). rewrite orb_assoc. reflexivity.
    + intros s Hs0. cbn [id_among existsb] in Hs0. rewrite Hid in Hs0.
      fold (id_among s entries) in Hs0.
      apply orb_false_iff in Hs0. destruct Hs0 as [Hs1 Hs2].
      rewrite (Hkeep s Hs2). apply KMapFacts.find_set_other.
      intro C. inversion C as [C']. rewrite C' in Hs1.
      rewrite (proj2 (KMapFacts.key_eqb_str_l s (PStr s)) eq_refl) in Hs1.
      discriminate.
    + intros e Hin.
      destruct (well_prepared_inv e) as (id & _ & _ & Hide & _).
      { destruct Hin as [<- | Hin]; [exact W0|].
        rewrite forallb_forall in W. apply W. exact Hin. }
      destruct (id_among id entries) eqn:A.
      * unfold id_among in A. apply existsb_exists in A.
        destruct A as [e1 [Hin1 Hk]].
        apply KMapFacts.key_eqb_str_l in Hk.
        destruct (Hfb e1 Hin1) as (e' & d' & s' & Hin' & Hid' & Hd' & Hs' & Hfind).
        exists e', d', s'. split; [right; exact Hin'|].
        split; [congruence|]. split; [exact Hd'|]. split; [exact Hs'|].
        rewrite Hide, <- Hk. exact Hfind.
      * destruct Hin as [<- | Hin].
        -- exists e0, date, summary. split; [left; reflexivity|].
           split; [reflexivity|]. split; [exact Hd|]. split; [exact Hs|].
           rewrite Hid in Hide. inversion Hide; subst id.
           rewrite Hid, (Hkeep _ A). apply KMapFacts.find_set_same.
        -- exfalso. apply Bool.not_true_iff_false in A. apply A.
           apply id_among_In. rewrite <- Hide. apply in_map. exact Hin.
    + intros k Hk. destruct (Hkeys k Hk) as [H|H].
      * apply KMapFacts.keys_set_incl in H. destruct H as [H | ->].
        -- left. exact H.
        -- right. left. exact Hid.
      * right. right. exact H.
Qed.

(** Reading an answer that can be read: what the model gave is kept, and
    the ids it did not give get the fallback. *)
Lemma read_answer_spec (entries : list prepared) (v : pyval) (m : KMap.t) :
  forallb well_prepared entries = true ->
  read_answer entries v = Ok m ->
  exists (results : list pyval) (given : KMap.t),
    iterate (results_array v) = Ok results /\
    store_results results [] = Ok given /\
    NoDup (KMap.keys m) /\
    (forall e, In e entries -> KMap.mem (p_id e) m = true) /\
    (forall s, KMap.mem (PStr s) given = true ->
               KMap.find (PStr s) m = KMap.find (PStr s) given) /\
    (forall e, In e entries -> KMap.mem (p_id e) given = false ->
               has_fallback entries m e) /\
    (forall k, In k (KMap.keys m) ->
               In k (KMap.keys given) \/ In k (map p_id entries)).
Proof.
  intros W R. unfold read_answer in R.
  destruct (iterate (results_array v)) as [results|]; [|discriminate].
  cbn [bind] in R.
  destruct (store_results results []) as [given|] eqn:G; [|discriminate].
  cbn [bind] in R.
  assert (N : NoDup (KMap.keys given)).
  { eapply store_results_NoDup; [exact G|]. constructor. }
  destruct (fill_missing_spec entries W given N)
    as (m' & R' & N' & Hmem & Hkeep & Hfb & Hkeys).
  rewrite R' in R. inversion R; subst m'. clear R.
  exists results, given. split; [reflexivity|]. split; [exact G|].
  split; [exact N'|]. split; [|split; [|split]]; auto.
  intros e Hin.
  destruct (well_prepared_inv e) as (id & _ & _ & Hide & _).
  { rewrite forallb_forall in W. apply W. exact Hin. }
  rewrite Hide, Hmem.
  replace (id_among id entries) with true; [apply orb_true_r|].
  symmetry. apply id_among_In. rewrite <- Hide. apply in_map. exact Hin.
Qed.

Lemma attempts_some (w : oracle) (entries : list prepared) (m : KMap.t) :
  forall remaining attempt : nat,
    attempts w entries remaining attempt = Some m ->
    exists (k : nat) (v : pyval),
      (attempt <= k < attempt + remaining)%nat /\
      complete w entries k = Parsed v /\
      read_answer entries v = Ok m.
Proof.
  induction remaining as [|remaining IH]; intros attempt H;
    cbn [attempts] in H; [discriminate|].
  assert (Next : attempts w entries remaining (S attempt) = Some m ->
                 exists (k : nat) (v : pyval),
                   (attempt <= k < attempt + S remaining)%nat /\
                   complete w entries k = Parsed v /\
                   read_answer entries v = Ok m).
  { intro H'. destruct (IH _ H') as (k & v & Hk & Hc & Hr).
    exists k, v. split; [lia|]. split; assumption. }
  destruct (complete w entries attempt) as [| |v] eqn:C; auto.
  destruct (read_answer entries v) as [m0|] eqn:R; auto.
  inversion H; subst m0. exists attempt, v.
  split; [lia|]. split; assumption.
Qed.

Lemma attempts_none (w : oracle) (entries : list prepared) :
  forall remaining attempt : nat,
    attempts w entries remaining attempt = None <->
    (forall k : nat, (attempt <= k < attempt + remaining)%nat ->
                     attempt_fails w entries k).
Proof.
  induction remaining as [|remaining IH]; intros attempt; cbn [attempts].
  - split; [intros _ k Hk; lia|reflexivity].
  - unfold attempt_fails at 1.
    split.
    + intros H k Hk.
      destruct (Nat.eq_dec k attempt) as [-> | Hne].
      * unfold attempt_fails.
        destruct (complete w entries attempt) as [| |v]; auto.
        destruct (read_answer entries v); [discriminate|reflexivity].
      * apply (proj1 (IH (S attempt))); [|lia].
        destruct (complete w entries attempt) as [| |v]; auto.
        destruct (read_answer entries v); [discriminate|exact H].
    + intros H.
      assert (H0 := H attempt ltac:(lia)). unfold attempt_fails in H0.
      assert (Hn : attempts w entries remaining (S attempt) = None).
      { apply IH. intros k Hk. apply H. lia. }
      destruct (complete w entries attempt) as [| |v]; auto.
      destruct (read_answer entries v); [discriminate|exact Hn].
Qed.

Lemma keys_length (m : KMap.t) : List.length (KMap.keys m) = List.length m.
Proof. unfold KMap.keys. apply length_map. Qed.

(** The number of keys, for a batch with distinct ids, all of them keys
    of a map without a double key. *)
Lemma keys_count (entries : list prepared) (m : KMap.t) :
  forallb well_prepared entries = true ->
  NoDup (KMap.keys m) ->
  (forall e, In e entries -> KMap.mem (p_id e) m = true) ->
  NoDup (map p_id entries) ->
  (List.length entries <= List.length m)%nat /\
  ((forall k, In k (KMap.keys m) -> In k (map p_id entries)) ->
   List.length m = List.length entries).
Proof.
  intros W N Hmem D.
  assert (I : incl (map p_id entries) (KMap.keys m)).
  { intros k Hk. apply in_map_iff in Hk. destruct Hk as [e [<- Hin]].
    destruct (well_prepared_inv e) as (id & _ & _ & Hid & _).
    { rewrite forallb_forall in W. apply W. exact Hin. }
    rewrite Hid. apply KMapFacts.mem_In. rewrite <- Hid. apply Hmem.
    exact Hin. }
  assert (L := NoDup_incl_length D I).
  rewrite length_map, keys_length in L.
  split; [exact L|].
  intros F.
  assert (L' := NoDup_incl_length N F).
  rewrite length_map, keys_length in L'. lia.
Qed.

(** C1, as the code has it: for a batch that is not empty, of prepared
    entries whose id and summary are texts and whose published field
    [normalize_date] returns from, [extract_details_in_batch] returns a
    map, it does not raise, in which every id of the batch is a key.  When
    an answer of the model is accepted, the ids it has no record for get
    the fallback record ("Unknown Type", "Unknown Location", the
    normalized published date, no severity, an empty alert level, the
    summary cut to 100 characters) and the records it gave are kept.
    When every attempt fails, every entry gets the fallback record and the
    keys are the ids of the batch.  For a batch of K distinct ids the map
    has at least K keys, and exactly K when the model gave no id from
    outside the batch. *)
Theorem extract_details_in_batch_covers (w : oracle)
        (entries : list prepared) (max_retries : nat) :
  entries <> [] ->
  forallb well_prepared entries = true ->
  exists m : KMap.t,
    extract_details_in_batch w entries max_retries = Ok m /\
    (forall e, In e entries -> KMap.mem (p_id e) m = true) /\
    ((forall attempt, (1 <= attempt <= max_retries)%nat ->
                      attempt_fails w entries attempt)
     \/ exists (attempt : nat) (v : pyval) (results : list pyval)
               (given : KMap.t),
         (1 <= attempt <= max_retries)%nat /\
         complete w entries attempt = Parsed v /\
         iterate (results_array v) = Ok results /\
         store_results results [] = Ok given /\
         (forall e, In e entries -> KMap.mem (p_id e) given = false ->
                    has_fallback entries m e) /\
         (forall s, KMap.mem (PStr s) given = true ->
                    KMap.find (PStr s) m = KMap.find (PStr s) given)) /\
    ((forall attempt, (1 <= attempt <= max_retries)%nat ->
                      attempt_fails w entries attempt) ->
     (forall e, In e entries -> has_fallback entries m e) /\
     (forall k, In k (KMap.keys m) -> In k (map p_id entries))) /\
    (NoDup (map p_id entries) ->
     (List.length entries <= List.length m)%nat /\
     ((forall k, In k (KMap.keys m) -> In k (map p_id entries)) ->
      List.length m = List.length entries)).
Proof.
  intros Hne W. unfold extract_details_in_batch.
  destruct entries as [|e0 entries0] eqn:Ee; [contradiction|].
  rewrite <- Ee in *. clear Hne.
  destruct (attempts w entries max_retries 1) as [m|] eqn:A.
  - destruct (attempts_some _ _ _ _ A) as (k & v & Hk & Hc & Hr).
    destruct (read_answer_spec _ _ W Hr)
      as (results & given & Hi & Hg & N & Hmem & Hkeep & Hfb & Hkeys).
    exists m. split; [reflexivity|]. split; [exact Hmem|].
    split; [|split].
    + right. exists k, v, results, given.
      split; [lia|]. repeat (split; [assumption|]). exact Hkeep.
    + intros F. exfalso.
      assert (Fk := F k ltac:(lia)). unfold attempt_fails in Fk.
      rewrite Hc, Hr in Fk. discriminate.
    + intros D. apply keys_count; assumption.
  - destruct (all_fallbacks_spec entries W [] (NoDup_nil pyval))
      as (m & R & N & Hmem & _ & Hfb & Hkeys).
    assert (F : forall attempt, (1 <= attempt <= max_retries)%nat ->
                                attempt_fails w entries attempt).
    { intros k Hk. apply (proj1 (attempts_none w entries max_retries 1) A).
      lia. }
    assert (Hall : forall e, In e entries -> KMap.mem (p_id e) m = true).
    { intros e Hin.
      destruct (well_prepared_inv e) as (id & _ & _ & Hid & _).
      { rewrite forallb_forall in W. apply W. exact Hin. }
      rewrite Hid, Hmem.
      replace (id_among id entries) with true; [apply orb_true_r|].
      symmetry. apply id_among_In. rewrite <- Hid. apply in_map. exact Hin. }
    assert (Hk : forall k, In k (KMap.keys m) -> In k (map p_id entries)).
    { intros k Hk. destruct (Hkeys k Hk) as [[]|H]. exact H. }
    exists m. split; [exact R|]. split; [exact Hall|].
    split; [left; exact F|]. split.
    + intros _. split; assumption.
    + intros D. apply keys_count; assumption.
Qed.

Lemma extract_details_in_batch_covers_witness :
  exists m : KMap.t,
    extract_details_in_batch talkative_model [prepared_quake] 2 = Ok m /\
    KMap.mem (p_id prepared_quake) m = true.
Proof.
  destruct (@extract_details_in_batch_covers talkative_model [prepared_quake] 2)
    as (m & R & Hmem & _).
  - discriminate.
  - vm_compute. reflexivity.
  - exists m. split; [exact R|]. apply Hmem. left. reflexivity.
Defined.

(** C1 as stated fails: the model answers a batch of one entry with the
    record asked for and a record for another id, and the map has two
    keys. *)
Lemma extract_details_in_batch_extra_key :
  NoDup (map p_id [prepared_quake]) /\
  List.length [prepared_quake] = 1%nat /\
  exists m : KMap.t,
    extract_details_in_batch talkative_model [prepared_quake] 2 = Ok m /\
    KMap.keys m = [PStr "https://usgs.example/1";
                   PStr "https://usgs.example/9"] /\
    List.length m = 2%nat.
Proof.
  split; [repeat constructor; intros []|].
  split; [reflexivity|].
  eexists. split; [vm_compute; reflexivity|].
  split; reflexivity.
Qed.

(** The published text "2023-13-45" has the shape of a date and is none:
    [normalize_date] extracts it from itself without end, and the
    [RecursionError] leaves the extractor through the fallback after the
    last attempt. *)
Lemma extract_details_in_batch_bad_date :
  normalize_date (PStr "2023-13-45") = Raise RecursionError /\
  extract_details_in_batch silent_model [prepared_bad_date] 2
  = Raise RecursionError.
Proof. split; vm_compute; reflexivity. Qed.

(** ** Further properties of the code *)

(** *** Texts *)

Lemma lower_char_idem (c : ascii) :
  Str.lower_char (Str.lower_char c) = Str.lower_char c.
Proof. destruct c as [[] [] [] [] [] [] [] []]; reflexivity. Qed.

Lemma lower_idem (s : string) : Str.lower (Str.lower s) = Str.lower s.
Proof.
  induction s as [|c s IH]; simpl; [reflexivity|].
  rewrite lower_char_idem, IH. reflexivity.
Qed.

Lemma length_app (a b : string) :
  String.length (a ++ b) = (String.length a + String.length b)%nat.
Proof. induction a as [|c a IH]; simpl; [reflexivity|]. rewrite IH. reflexivity. Qed.

Lemma length_substring (i n : nat) (s : string) :
  (String.length (substring i n s) <= n)%nat.
Proof.
  revert i n. induction s as [|c s IH]; intros i n.
  - destruct i, n; simpl; lia.
  - destruct i as [|i]; destruct n as [|n]; simpl; try lia.
    + specialize (IH 0%nat n). lia.
    + apply IH.
    + apply IH.
Qed.

Lemma length_take (n : nat) (s : string) :
  (String.length (Str.take n s) <= n)%nat.
Proof. apply length_substring. Qed.

(** *** The send to the channel *)

Lemma send_attempts_true (c : Slack.client) (blocks : list pyval)
      (text : string) :
  forall remaining attempt : nat,
    Slack.send_attempts c blocks text remaining attempt = Ok true <->
    exists k : nat,
      (attempt <= k < attempt + remaining)%nat /\
      Slack.post_blocks c blocks text k = Slack.Posted /\
      forall j, (attempt <= j < k)%nat ->
                retried (Slack.post_blocks c blocks text j) = true.
Proof.
  induction remaining as [|remaining IH]; intros attempt;
    cbn [Slack.send_attempts].
  - split; [discriminate|]. intros (k & Hk & _). lia.
  - destruct (Slack.post_blocks c blocks text attempt) as [|code|] eqn:P.
    + split; [|reflexivity]. intros _. exists attempt.
      split; [lia|]. split; [exact P|]. intros j Hj. lia.
    + assert (Stop : retried (Slack.SlackApiError code) = false ->
                     forall r : res bool,
                       r <> Ok true ->
                       (r = Ok true <->
                        exists k : nat,
                          (attempt <= k < attempt + S remaining)%nat /\
                          Slack.post_blocks c blocks text k = Slack.Posted /\
                          forall j, (attempt <= j < k)%nat ->
                                    retried (Slack.post_blocks c blocks text j)
                                    = true)).
      { intros R r Hr. split; [intro; contradiction|].
        intros (k & Hk & Pk & Hj). exfalso.
        destruct (Nat.eq_dec k attempt) as [-> | Hne].
        - rewrite P in Pk. discriminate.
        - specialize (Hj attempt ltac:(lia)). rewrite P, R in Hj.
          discriminate. }
      unfold retried in Stop.
      destruct (String.eqb code "invalid_blocks") eqn:E1.
      { apply Stop; [reflexivity|].
        destruct (Slack.post_text c Slack.simplified_message); discriminate. }
      destruct (String.eqb code "channel_not_found") eqn:E2.
      { apply Stop; [reflexivity|discriminate]. }
      destruct (String.eqb code "not_in_channel") eqn:E3.
      { apply Stop; [reflexivity|discriminate]. }
      clear Stop. rewrite IH. split.
      * intros (k & Hk & Pk & Hj). exists k. split; [lia|].
        split; [exact Pk|]. intros j Hj'.
        destruct (Nat.eq_dec j attempt) as [-> | Hne].
        -- rewrite P. unfold retried. rewrite E1, E2, E3. reflexivity.
        -- apply Hj. lia.
      * intros (k & Hk & Pk & Hj).
        assert (k <> attempt) by (intros ->; rewrite P in Pk; discriminate).
        exists k. split; [lia|]. split; [exact Pk|].
        intros j Hj'. apply Hj. lia.
    + rewrite IH. split.
      * intros (k & Hk & Pk & Hj). exists k. split; [lia|].
        split; [exact Pk|]. intros j Hj'.
        destruct (Nat.eq_dec j attempt) as [-> | Hne].
        -- rewrite P. reflexivity.
        -- apply Hj. lia.
      * intros (k & Hk & Pk & Hj).
        assert (k <> attempt) by (intros ->; rewrite P in Pk; discriminate).
        exists k. split; [lia|]. split; [exact Pk|].
        intros j Hj'. apply Hj. lia.
Qed.

(** X1: [send_disaster_alert_block] returns true exactly when the token
    and the channel are configured, the fallback text can be built, and
    one of the first [max_retries] posts succeeds after posts that all
    failed in a way the loop tries again after: not "invalid_blocks", not
    "channel_not_found", not "not_in_channel". *)
Theorem send_returns_true_iff (c : Slack.client) (blocks : list pyval)
        (max_retries : nat) :
  Slack.send_disaster_alert_block c blocks max_retries = Ok true <->
  Slack.configured (Slack.SLACK_BOT_TOKEN c) = true /\
  Slack.configured (Slack.CHANNEL_NAME c) = true /\
  exists (text : string) (k : nat),
    Slack.fallback_text blocks = Ok text /\
    (1 <= k <= max_retries)%nat /\
    Slack.post_blocks c blocks text k = Slack.Posted /\
    forall j, (1 <= j < k)%nat ->
              retried (Slack.post_blocks c blocks text j) = true.
Proof.
  unfold Slack.send_disaster_alert_block.
  destruct (Slack.configured (Slack.SLACK_BOT_TOKEN c)); cbn [negb].
  2: { split; [discriminate|]. intros [H _]. discriminate. }
  destruct (Slack.configured (Slack.CHANNEL_NAME c)); cbn [negb].
  2: { split; [discriminate|]. intros [_ [H _]]. discriminate. }
  destruct (Slack.fallback_text blocks) as [text|e]; cbn [bind].
  - rewrite send_attempts_true. split.
    + intros (k & Hk & Pk & Hj). split; [reflexivity|]. split; [reflexivity|].
      exists text, k. split; [reflexivity|]. split; [lia|]. split; assumption.
    + intros (_ & _ & text' & k & Ht & Hk & Pk & Hj).
      inversion Ht; subst text'. exists k. split; [lia|]. split; assumption.
  - split; [discriminate|].
    intros (_ & _ & text' & k & Ht & _). discriminate.
Qed.

Lemma send_returns_true_iff_witness :
  Slack.send_disaster_alert_block open_channel (alert "Flood in Kerala") 3
  = Ok true.
Proof.
  apply (proj2 (@send_returns_true_iff open_channel
                  (alert "Flood in Kerala") 3)).
  split; [reflexivity|]. split; [reflexivity|].
  exists "Disaster Alerts Summary", 1%nat.
  split; [reflexivity|]. split; [lia|]. split; [reflexivity|].
  intros j Hj. lia.
Defined.

(** X2: the fallback text of a send is at most 103 characters long. *)
Theorem fallback_text_short (blocks : list pyval) (text : string) :
  Slack.fallback_text blocks = Ok text ->
  (String.length text <= 103)%nat.
Proof.
  induction blocks as [|block blocks IH]; cbn [Slack.fallback_text].
  - intro H. inversion H. simpl. lia.
  - destruct (Py.get_attr block "type" PNone) as [type|]; [|discriminate].
    cbn [bind]. destruct block; try discriminate.
    destruct (is_text "section" type); [|exact IH].
    destruct (Py.lookup "text" d) as [inner|]; [|exact IH].
    destruct (Py.get_attr inner "type" PNone) as [inner_type|];
      [|discriminate].
    cbn [bind]. destruct (is_text "mrkdwn" inner_type); [|exact IH].
    destruct (Py.get_attr inner "text" (PStr "")) as [t|]; [|discriminate].
    cbn [bind].
    assert (D : String.length "Disaster Alerts Summary" = 23%nat)
      by reflexivity.
    destruct t as [| | | |t| |];
      try (destruct (Py.truthy _); intro H; inversion H; simpl; lia).
    destruct (_ <? String.length (Slack.first_line t))%nat;
      [|intro H; inversion H; simpl; lia].
    destruct (100 <? String.length (Slack.first_line t))%nat eqn:L;
      intro H; inversion H.
    + rewrite length_app. pose proof (length_take 100 (Slack.first_line t)).
      simpl. lia.
    + apply Nat.ltb_ge in L. lia.
Qed.

Lemma fallback_text_short_witness :
  (String.length "Earthquake in Chile, magnitude 6.5" <= 103)%nat.
Proof.
  apply (@fallback_text_short
           (alert "Earthquake in Chile, magnitude 6.5")).
  reflexivity.
Defined.

(** *** Date normalization, on any value *)

Lemma try_formats_result (text : pyval) (fmts : list string) :
  try_formats text fmts = Ok None
  \/ exists (fmt : string) (dt : Time.datetime),
       In fmt fmts /\ Time.strptime text fmt = Ok dt /\
       try_formats text fmts = Ok (Some (Time.strftime_ymd dt)).
Proof.
  induction fmts as [|fmt fmts IH]; cbn [try_formats]; [left; reflexivity|].
  destruct (Time.strptime text fmt) as [dt|e] eqn:E.
  - right. exists fmt, dt. split; [left; reflexivity|]. split; auto.
  - assert (N : try_formats text fmts = Ok None
                \/ exists (fmt0 : string) (dt : Time.datetime),
                     In fmt0 (fmt :: fmts) /\
                     Time.strptime text fmt0 = Ok dt /\
                     try_formats text fmts
                     = Ok (Some (Time.strftime_ymd dt))).
    { destruct IH as [IH | (f & dt & Hin & Hs & Ht)]; [left; exact IH|].
      right. exists f, dt. split; [right; exact Hin|]. split; assumption. }
    destruct (strptime_raises _ _ E) as [-> | ->]; exact N.
Qed.

(** A date that [strptime] returns is one of the calendar: the year is
    at least 1 and the day lies within the month of that year. *)
Lemma strptime_calendar (text : pyval) (fmt : string) (dt : Time.datetime) :
  Time.strptime text fmt = Ok dt ->
  (1 <= Time.year dt /\
   1 <= Time.day dt <= Time.days_in_month (Time.year dt) (Time.month dt))%Z.
Proof.
  unfold Time.strptime.
  destruct text; try discriminate.
  destruct (Time.pattern fmt); [|discriminate].
  destruct (Re.match_ r s) as [m|]; [|discriminate].
  destruct (negb (String.eqb (Re.rest m) "")); [discriminate|].
  cbv zeta.
  destruct (_ && negb _); [discriminate|].
  match goal with
  | |- (if ?c then _ else _) = _ -> _ => destruct c eqn:C; [|discriminate]
  end.
  intro H. injection H as <-. cbn [Time.year Time.day Time.month].
  apply andb_true_iff in C. destruct C as [C C4].
  apply andb_true_iff in C. destruct C as [C C3].
  apply andb_true_iff in C. destruct C as [C1 C2].
  apply Z.leb_le in C1, C2, C3.
  split; [exact C1|split; [exact C2|exact C3]].
Qed.

(** X3: on a text [s], [normalize_date] raises nothing but
    [RecursionError], and what it returns is the sentinel "Unknown Date"
    or a date read from [s]: there is a text [t] that [normalize_date]
    comes to on its way from [s], which is [s] itself or the date the
    scan finds in a text no format parses, and the result is the date
    that the first format to parse [t] reads in it, a date of the
    calendar, printed as year-month-day. *)
Theorem normalize_date_on_text (s : string) :
  normalize_date (PStr s) = Raise RecursionError
  \/ normalize_date (PStr s) = Ok "Unknown Date"
  \/ exists (t fmt : string) (dt : Time.datetime),
       reads s t /\
       In fmt date_formats /\
       Time.strptime (PStr t) fmt = Ok dt /\
       try_formats (PStr t) date_formats = Ok (Some (Time.strftime_ymd dt)) /\
       (1 <= Time.year dt /\
        1 <= Time.day dt
          <= Time.days_in_month (Time.year dt) (Time.month dt))%Z /\
       normalize_date (PStr s) = Ok (Time.strftime_ymd dt).
Proof.
  unfold normalize_date. generalize recursion_limit. intro depth.
  revert s. induction depth as [|depth IH]; intro s;
    cbn [normalize_date_rec]; [left; reflexivity|].
  destruct (negb (Py.truthy (PStr s))); [right; left; reflexivity|].
  destruct (try_formats_result (PStr s) date_formats)
    as [N | (fmt & dt & Hin & Hs & Ht)].
  - rewrite N. cbn [bind].
    destruct (Re.search embedded_date_re s) as [m|] eqn:Es;
      [|right; left; reflexivity].
    destruct (IH (Str.replace "/" "-" (Re.group "1" m)))
      as [R | [R | (t & fmt & dt & Hr & Hin & Hs & Hf & Hc & R)]];
      rewrite R.
    + left. reflexivity.
    + right. left. reflexivity.
    + right. right. exists t, fmt, dt.
      split.
      { apply (@reads_inside s (Str.replace "/" "-" (Re.group "1" m)) t);
          [exact N| |exact Hr].
        unfold extracted_date. rewrite Es. reflexivity. }
      repeat (split; [assumption|]). reflexivity.
  - rewrite Ht. cbn [bind]. right. right. exists s, fmt, dt.
    split; [apply reads_here|].
    split; [exact Hin|]. split; [exact Hs|]. split; [exact Ht|].
    split; [exact (strptime_calendar _ _ Hs)|reflexivity].
Qed.

(** X4: on a value that is no text, [normalize_date] returns the
    sentinel when the value is falsy ([None], zero, an empty list or
    dictionary) and raises [TypeError] otherwise, from the scan that the
    [try] does not cover. *)
Theorem normalize_date_not_text (v : pyval) :
  is_str v = false ->
  normalize_date v
  = if Py.truthy v then Raise TypeError else Ok "Unknown Date".
Proof.
  intro H. unfold normalize_date, recursion_limit.
  cbn [normalize_date_rec].
  destruct (Py.truthy v); cbn [negb]; [|reflexivity].
  assert (T : try_formats v date_formats = Ok None).
  { apply try_formats_none. destruct v; try discriminate; reflexivity. }
  rewrite T. cbn [bind]. destruct v; try discriminate; reflexivity.
Qed.

Lemma normalize_date_not_text_witness :
  normalize_date (PInt 20241231) = Raise TypeError.
Proof.
  apply (@normalize_date_not_text (PInt 20241231)). reflexivity.
Defined.

(** *** The entry filter, source by source *)

Lemma lower_raises (v : pyval) (e : exn) :
  Py.lower v = Raise e -> e = AttributeError.
Proof. destruct v; simpl; intro H; inversion H; reflexivity. Qed.

Lemma field_lower_raises (entry : pyval) (k : string) (e : exn) :
  field_lower entry k = Raise e -> e = AttributeError.
Proof.
  unfold field_lower. destruct entry; try discriminate. apply lower_raises.
Qed.

Lemma low_magnitude_raises (below : Q -> bool) (d : list (string * pyval))
      (e : exn) :
  low_magnitude below d = Raise e -> e = AttributeError.
Proof.
  unfold low_magnitude.
  destruct (Py.lower (Py.get "disaster_type" (PStr "") d)) as [t|e'] eqn:L;
    cbn [bind].
  - destruct (String.eqb t "earthquake"); [|discriminate].
    destruct (Py.get "severity" (PStr "") d); try discriminate.
    destruct (Str.isdigit _); [|discriminate].
    destruct (Float.decimal s); discriminate.
  - intro H. inversion H; subst. exact (lower_raises _ L).
Qed.

Lemma should_filter_entry_raise_kind (entry entry_details : pyval)
      (e : exn) :
  should_filter_entry entry entry_details = Raise e -> e = AttributeError.
Proof.
  unfold should_filter_entry.
  destruct entry; try (cbn; discriminate).
  destruct (field_lower (PDict d) "source_type") as [source_type|e1] eqn:F1;
    cbn [bind];
    [|intro H; inversion H; subst; exact (field_lower_raises _ _ F1)].
  destruct (field_lower (PDict d) "title") as [title|e2] eqn:F2; cbn [bind];
    [|intro H; inversion H; subst; exact (field_lower_raises _ _ F2)].
  destruct (field_lower (PDict d) "summary") as [summary|e3] eqn:F3;
    cbn [bind];
    [|intro H; inversion H; subst; exact (field_lower_raises _ _ F3)].
  destruct (field_lower (PDict d) "link") as [link|e4] eqn:F4; cbn [bind];
    [|intro H; inversion H; subst; exact (field_lower_raises _ _ F4)].
  destruct (_ && _); [discriminate|].
  destruct (_ && _); [discriminate|].
  destruct (String.eqb source_type "gdacs").
  - unfold gdacs_rules.
    destruct (Str.startswith _ _); [discriminate|].
    destruct (_ || _); [discriminate|].
    destruct (existsb _ _); [discriminate|].
    destruct (_ && _); [discriminate|].
    destruct (details_dict entry_details) as [dd|].
    + destruct (Py.lower (Py.get "alert_level" (PStr "") dd)) as [a|e5] eqn:L;
        cbn [bind];
        [|intro H; inversion H; subst; exact (lower_raises _ L)].
      destruct (String.eqb a "green"); [discriminate|].
      destruct (Str.contains "green earthquake" title); [discriminate|].
      destruct (Py.lookup "icon" d) as [icon_url|]; cbn [bind].
      * destruct (Py.lower icon_url) as [u|e6] eqn:L2; cbn [bind];
          [|intro H; inversion H; subst; exact (lower_raises _ L2)].
        destruct (_ && _); [discriminate|]. apply low_magnitude_raises.
      * apply low_magnitude_raises.
    + cbn [bind].
      destruct (Str.contains "green earthquake" title); [discriminate|].
      destruct (Py.lookup "icon" d) as [icon_url|]; cbn [bind];
        [|discriminate].
      destruct (Py.lower icon_url) as [u|e6] eqn:L2; cbn [bind];
        [|intro H; inversion H; subst; exact (lower_raises _ L2)].
      destruct (_ && _); discriminate.
  - destruct (String.eqb source_type "usgs"); [|discriminate].
    unfold usgs_rules.
    destruct (match Re.search magnitude_re title with
              | Some _ => _ | None => _ end); [discriminate|].
    destruct (match Re.search magnitude_re title with
              | Some _ => _ | None => _ end); [discriminate|].
    destruct (details_dict entry_details); [|discriminate].
    apply low_magnitude_raises.
Qed.

(** X5: [should_filter_entry] returns a boolean or raises
    [AttributeError], the exception of a field that should be a text and
    is not; it raises nothing else. *)
Theorem should_filter_entry_raises_only (entry entry_details : pyval) :
  (exists b : bool, should_filter_entry entry entry_details = Ok b)
  \/ should_filter_entry entry entry_details = Raise AttributeError.
Proof.
  destruct (should_filter_entry entry entry_details) as [b|e] eqn:E.
  - left. exists b. reflexivity.
  - right. rewrite (should_filter_entry_raise_kind _ _ E). reflexivity.
Qed.

(** X6: details that are not a dictionary with at least one key ([None],
    an empty dictionary, a text, a list) count for nothing: the filter
    answers as it does without details. *)
Theorem should_filter_entry_ignores_other_details
        (entry entry_details : pyval) :
  details_dict entry_details = None ->
  should_filter_entry entry entry_details = should_filter_entry entry PNone.
Proof.
  intro H. unfold should_filter_entry, gdacs_rules, usgs_rules.
  rewrite H. reflexivity.
Qed.

Lemma should_filter_entry_ignores_other_details_witness :
  should_filter_entry strong_quake (PDict [])
  = should_filter_entry strong_quake PNone.
Proof.
  apply (@should_filter_entry_ignores_other_details strong_quake (PDict [])).
  reflexivity.
Defined.

(** X7: a dictionary entry whose four text fields are texts, or absent,
    and whose source type, in lower case, is none of "noaa_spc", "gdacs"
    and "usgs" is never filtered, whatever the details. *)
Theorem other_sources_never_filtered (d : list (string * pyval))
        (source_type title summary link : string) (entry_details : pyval) :
  field_lower (PDict d) "source_type" = Ok source_type ->
  field_lower (PDict d) "title" = Ok title ->
  field_lower (PDict d) "summary" = Ok summary ->
  field_lower (PDict d) "link" = Ok link ->
  source_type <> "noaa_spc" -> source_type <> "gdacs" ->
  source_type <> "usgs" ->
  should_filter_entry (PDict d) entry_details = Ok false.
Proof.
  intros Hs Ht Hu Hl N1 N2 N3. unfold should_filter_entry.
  rewrite Hs, Ht, Hu, Hl. cbn [bind].
  apply String.eqb_neq in N1, N2, N3. rewrite N1, N2, N3. reflexivity.
Qed.

Lemma other_sources_never_filtered_witness :
  should_filter_entry
    (report "reliefweb" "Green alert: floods" "green alert" "https://r/md/1")
    null_level_details
  = Ok false.
Proof.
  apply (@other_sources_never_filtered _ "reliefweb" "green alert: floods"
           "green alert" "https://r/md/1" null_level_details);
    try reflexivity; discriminate.
Defined.

Lemma should_filter_entry_spc (d : list (string * pyval))
        (title summary link : string) (entry_details : pyval) :
  field_lower (PDict d) "source_type" = Ok "noaa_spc" ->
  field_lower (PDict d) "title" = Ok title ->
  field_lower (PDict d) "summary" = Ok summary ->
  field_lower (PDict d) "link" = Ok link ->
  should_filter_entry (PDict d) entry_details
  = Ok (Str.contains "/md/" link || Str.startswith "spc md" title
        || Str.contains "/outlook/" link || Str.contains "outlook" title).
Proof.
  intros Hs Ht Hu Hl. unfold should_filter_entry.
  rewrite Hs, Ht, Hu, Hl. cbn [bind].
  assert (L : Str.lower title = title).
  { unfold field_lower in Ht.
    destruct (Py.get "title" (PStr "") d); try discriminate.
    simpl in Ht. inversion Ht. apply lower_idem. }
  rewrite L.
  change (String.eqb "noaa_spc" "noaa_spc") with true.
  change (String.eqb "noaa_spc" "gdacs") with false.
  change (String.eqb "noaa_spc" "usgs") with false.
  cbn [andb].
  destruct (Str.contains "/md/" link || Str.startswith "spc md" title);
    [reflexivity|].
  cbn [orb].
  destruct (Str.contains "/outlook/" link || Str.contains "outlook" title);
    reflexivity.
Qed.

(** X8: for an SPC entry (source type "noaa_spc", text fields) the
    filter is decided by the link and the title alone: the entry is
    filtered exactly when the link contains "/md/" or "/outlook/", or
    the title starts with "spc md" or contains "outlook", all in lower
    case; the details have no part in it. *)
Theorem spc_filter_rule (d : list (string * pyval))
        (title summary link : string) (entry_details : pyval) :
  field_lower (PDict d) "source_type" = Ok "noaa_spc" ->
  field_lower (PDict d) "title" = Ok title ->
  field_lower (PDict d) "summary" = Ok summary ->
  field_lower (PDict d) "link" = Ok link ->
  should_filter_entry (PDict d) entry_details
  = Ok (Str.contains "/md/" link || Str.startswith "spc md" title
        || Str.contains "/outlook/" link || Str.contains "outlook" title).
Proof. apply should_filter_entry_spc. Qed.

Lemma spc_filter_rule_witness :
  should_filter_entry spc_update_1234 storm_details = Ok false.
Proof.
  apply (@spc_filter_rule (items_of spc_update_1234) "update: spc md 1234" ""
           "https://spc.example/products/1" storm_details);
    reflexivity.
Defined.

(** X9: a GDACS entry (text fields) whose title, in lower case, starts
    with "green " or has "green alert", or whose summary has
    "green alert", is filtered whatever the details are. *)
Theorem gdacs_green_filtered (d : list (string * pyval))
        (title summary link : string) (entry_details : pyval) :
  field_lower (PDict d) "source_type" = Ok "gdacs" ->
  field_lower (PDict d) "title" = Ok title ->
  field_lower (PDict d) "summary" = Ok summary ->
  field_lower (PDict d) "link" = Ok link ->
  Str.startswith "green " title || Str.contains "green alert" title
  || Str.contains "green alert" summary = true ->
  should_filter_entry (PDict d) entry_details = Ok true.
Proof.
  intros Hs Ht Hu Hl G. unfold should_filter_entry.
  rewrite Hs, Ht, Hu, Hl. cbn [bind].
  change (String.eqb "gdacs" "noaa_spc") with false.
  change (String.eqb "gdacs" "gdacs") with true.
  cbn [andb]. unfold gdacs_rules.
  destruct (Str.startswith "green " title); [reflexivity|].
  cbn [orb] in G. rewrite G. reflexivity.
Qed.

Lemma gdacs_green_filtered_witness :
  should_filter_entry
    (report "gdacs" "Green flood alert in Peru" "" "https://gdacs.example/2")
    null_level_details
  = Ok true.
Proof.
  apply (@gdacs_green_filtered _ "green flood alert in peru" ""
           "https://gdacs.example/2" null_level_details);
    reflexivity.
Defined.

(** *** The fetch and the filter *)

Lemma initial_filter_raises (disasters : list pyval) (r : pyval) (e : exn) :
  In r disasters ->
  should_filter_entry r PNone = Raise e ->
  initial_filter disasters = Raise AttributeError.
Proof.
  induction disasters as [|d disasters IH]; intros Hin Hr; [contradiction|].
  cbn [initial_filter].
  destruct (should_filter_entry d PNone) as [b|e'] eqn:E; cbn [bind].
  - destruct Hin as [-> | Hin]; [rewrite Hr in E; discriminate|].
    rewrite (IH Hin Hr). reflexivity.
  - rewrite (should_filter_entry_raise_kind _ _ E). reflexivity.
Qed.

Lemma reports_of_In (feed_source_type : option string) (feed_title : pyval)
      (entries : list pyval) (r : pyval) :
  In r (Fetch.reports_of feed_source_type feed_title entries) ->
  exists entry : pyval,
    In entry entries /\
    Fetch.make_report feed_source_type feed_title entry = Ok (Some r).
Proof.
  induction entries as [|entry entries IH]; cbn [Fetch.reports_of];
    [contradiction|].
  destruct (Fetch.make_report feed_source_type feed_title entry)
    as [[r0|]|] eqn:M.
  - intros [<- | Hin].
    + exists entry. split; [left; reflexivity|exact M].
    + destruct (IH Hin) as (e & He & Hm). exists e. split; [right|]; assumption.
  - intro Hin. destruct (IH Hin) as (e & He & Hm).
    exists e. split; [right|]; assumption.
  - contradiction.
Qed.

(** The report of an entry that the fetch keeps. *)
Lemma make_report_shape (feed_source_type : option string)
      (feed_title entry r : pyval) :
  Fetch.make_report feed_source_type feed_title entry = Ok (Some r) ->
  exists title summary link published : pyval,
    r = PDict [("title", title);
               ("summary", summary);
               ("link", link);
               ("published", published);
               ("source", feed_title);
               ("source_type", Fetch.type_value feed_source_type);
               ("raw_entry", entry)]
    /\ (Fetch.is_type "noaa_spc" feed_source_type = true ->
        exists t l : string,
          title = PStr t /\ link = PStr l /\
          Str.contains "/md/" (Str.lower l)
          || Str.startswith "spc md" (Str.lower t)
          || Str.contains "/outlook/" (Str.lower l)
          || Str.contains "outlook" (Str.lower t) = false).
Proof.
  unfold Fetch.make_report.
  destruct (Py.get_attr entry "title" (PStr "No Title")) as [title|];
    [|discriminate].
  destruct (Py.get_attr entry "description" (PStr "No Summary"))
    as [description|]; [|discriminate].
  cbn [bind].
  destruct (Py.get_attr entry "summary" description) as [summary|];
    [|discriminate].
  destruct (Py.get_attr entry "link" (PStr "No Link")) as [link|];
    [|discriminate].
  destruct (Py.get_attr entry "updated" (PStr "No Published Date"))
    as [updated|]; [|discriminate].
  cbn [bind].
  destruct (Py.get_attr entry "published" updated) as [published|];
    [|discriminate].
  cbn [bind].
  destruct (if Fetch.is_type "gdacs" feed_source_type then _ else _)
    as [[|]|]; cbn [bind]; try discriminate.
  destruct (Fetch.is_type "noaa_spc" feed_source_type).
  - destruct link as [| | | |l| |]; try discriminate.
    destruct title as [| | | |t| |]; try discriminate.
    cbn [Py.lower bind].
    destruct (_ || _) eqn:S; [discriminate|].
    intro H. inversion H. exists (PStr t), summary, (PStr l), published.
    split; [reflexivity|]. intros _. exists t, l. auto.
  - cbn [bind]. intro H. inversion H.
    exists title, summary, link, published. split; [reflexivity|].
    discriminate.
Qed.

(** X10: a feed whose URL names none of the six known sources gives its
    reports the source type [None]; the filter raises [AttributeError]
    on such a report, and one of them among the disasters makes
    [group_disasters] raise it, whatever the other entries and the model
    are. *)
Theorem unknown_feed_breaks_grouping (w : oracle) (feed_url : string)
        (feed_title : pyval) (entries disasters : list pyval) (r : pyval) :
  Fetch.source_type_of feed_url = None ->
  In r (Fetch.reports_of (Fetch.source_type_of feed_url) feed_title entries) ->
  (forall entry_details,
     should_filter_entry r entry_details = Raise AttributeError) /\
  (In r disasters -> group_disasters w disasters = Raise AttributeError).
Proof.
  intros U Hin. rewrite U in Hin.
  destruct (reports_of_In _ _ _ _ Hin) as (entry & _ & M).
  destruct (make_report_shape _ _ _ M)
    as (title & summary & link & published & -> & _).
  assert (F : forall entry_details,
             should_filter_entry
               (PDict [("title", title); ("summary", summary);
                       ("link", link); ("published", published);
                       ("source", feed_title);
                       ("source_type", Fetch.type_value None);
                       ("raw_entry", entry)]) entry_details
             = Raise AttributeError) by reflexivity.
  split; [exact F|].
  intros Hd. unfold group_disasters.
  rewrite (initial_filter_raises _ _ Hd (F PNone)). reflexivity.
Qed.

Lemma unknown_feed_breaks_grouping_witness :
  group_disasters quake_model
    (strong_quake
     :: Fetch.reports_of (Fetch.source_type_of "https://example.org/rss")
          (PStr "Example") [entry_with "Storm" "https://example.org/1"])
  = Raise AttributeError.
Proof.
  refine (proj2 (@unknown_feed_breaks_grouping quake_model
                   "https://example.org/rss" (PStr "Example")
                   [entry_with "Storm" "https://example.org/1"] _ _ _ _) _).
  - reflexivity.
  - left. reflexivity.
  - right. left. reflexivity.
Defined.

(** X11: the last filter of the fetch and the filter of the grouper
    agree on the SPC: a report that the fetch keeps from an SPC feed, with
    a text as summary, is kept by [should_filter_entry] too, with any
    details. *)
Theorem spc_report_passes_filter (feed_title entry r : pyval)
        (summary : string) (entry_details : pyval) :
  Fetch.make_report (Some "noaa_spc") feed_title entry = Ok (Some r) ->
  Py.get "summary" PNone (items_of r) = PStr summary ->
  should_filter_entry r entry_details = Ok false.
Proof.
  intros M Hs.
  destruct (make_report_shape _ _ _ M)
    as (title & summary' & link & published & -> & Hspc).
  destruct (Hspc eq_refl) as (t & l & -> & -> & C).
  cbn in Hs. subst summary'.
  rewrite (@should_filter_entry_spc _ (Str.lower t) (Str.lower summary)
             (Str.lower l) entry_details); try reflexivity.
  apply orb_false_iff in C. destruct C as [C C4].
  apply orb_false_iff in C. destruct C as [C C3].
  apply orb_false_iff in C. destruct C as [C1 C2].
  rewrite C1, C2, C3, C4. reflexivity.
Qed.

Lemma spc_report_passes_filter_witness :
  should_filter_entry
    (PDict [("title", PStr "Update: SPC MD 1234");
            ("summary", PStr "text");
            ("link", PStr "https://spc.example/products/1");
            ("published", PStr "No Published Date");
            ("source", PStr "SPC Forecast Products");
            ("source_type", PStr "noaa_spc");
            ("raw_entry",
             entry_with "Update: SPC MD 1234"
                        "https://spc.example/products/1")])
    storm_details
  = Ok false.
Proof.
  apply (@spc_report_passes_filter (PStr "SPC Forecast Products")
           (entry_with "Update: SPC MD 1234" "https://spc.example/products/1")
           _ "text" storm_details);
    reflexivity.
Defined.

Lemma fetch_In (http : string -> Fetch.response)
      (feeds : list (option string)) (r : pyval) :
  In r (Fetch.fetch_rss_feeds http feeds) ->
  exists (feed_url : string) (feed_title : option pyval)
         (entries : list pyval),
    In (Some feed_url) feeds /\
    http feed_url = Fetch.Feed feed_title entries /\
    In r (Fetch.reports_of (Fetch.source_type_of feed_url)
                           (Fetch.title_of feed_url feed_title) entries).
Proof.
  induction feeds as [|feed feeds IH]; cbn [Fetch.fetch_rss_feeds];
    [contradiction|].
  assert (Rest : In r (Fetch.fetch_rss_feeds http feeds) ->
                 exists (feed_url : string) (feed_title : option pyval)
                        (entries : list pyval),
                   In (Some feed_url) (feed :: feeds) /\
                   http feed_url = Fetch.Feed feed_title entries /\
                   In r (Fetch.reports_of (Fetch.source_type_of feed_url)
                           (Fetch.title_of feed_url feed_title) entries)).
  { intro H. destruct (IH H) as (u & t & es & Hu & Hh & Hr).
    exists u, t, es. split; [right; exact Hu|]. split; assumption. }
  destruct feed as [feed_url|]; [|exact Rest].
  destruct (String.eqb feed_url ""); [exact Rest|].
  destruct (http feed_url) as [|feed_title entries] eqn:H; [exact Rest|].
  intro Hin. apply in_app_or in Hin. destruct Hin as [Hin | Hin]; [|auto].
  exists feed_url, feed_title, entries.
  split; [left; reflexivity|]. split; assumption.
Qed.

(** X12: every report of [fetch_rss_feeds] is a dictionary with the keys
    title, summary, link, published, source, source_type and raw_entry,
    in this order, and its source type is [None] or one of "gdacs",
    "reliefweb", "inciweb", "noaa_spc", "usgs" and "nhc". *)
Theorem fetched_report_shape (http : string -> Fetch.response)
        (feeds : list (option string)) (r : pyval) :
  In r (Fetch.fetch_rss_feeds http feeds) ->
  exists title summary link published source source_type raw_entry : pyval,
    r = PDict [("title", title);
               ("summary", summary);
               ("link", link);
               ("published", published);
               ("source", source);
               ("source_type", source_type);
               ("raw_entry", raw_entry)]
    /\ In source_type
          [PNone; PStr "gdacs"; PStr "reliefweb"; PStr "inciweb";
           PStr "noaa_spc"; PStr "usgs"; PStr "nhc"].
Proof.
  intro Hin.
  destruct (fetch_In _ _ _ Hin) as (feed_url & feed_title & entries & _ & _ & Hr).
  destruct (reports_of_In _ _ _ _ Hr) as (entry & _ & M).
  destruct (make_report_shape _ _ _ M)
    as (title & summary & link & published & -> & _).
  exists title, summary, link, published,
    (Fetch.title_of feed_url feed_title),
    (Fetch.type_value (Fetch.source_type_of feed_url)), entry.
  split; [reflexivity|].
  unfold Fetch.source_type_of.
  repeat match goal with
         | |- context [if ?c then _ else _] => destruct c
         end;
    cbn; auto 10.
Qed.

Lemma fetched_report_shape_witness :
  exists r : pyval,
    In r (Fetch.fetch_rss_feeds
            (fun _ => Fetch.Feed None [entry_with "M 6.5 - Somewhere"
                                                  "https://usgs.example/1"])
            [None; Some "https://earthquake.usgs.gov/feed.atom"])
    /\ Py.get "source_type" PNone (items_of r) = PStr "usgs".
Proof.
  eexists. split; [left; reflexivity|].
  destruct (@fetched_report_shape
              (fun _ => Fetch.Feed None [entry_with "M 6.5 - Somewhere"
                                                    "https://usgs.example/1"])
              [None; Some "https://earthquake.usgs.gov/feed.atom"] _
              (or_introl eq_refl)) as (_ & _ & _ & _ & _ & _ & _ & _ & _).
  reflexivity.
Defined.

(** *** Preparing and extracting *)

Lemma prepare_inv (w : oracle) (entry : pyval) (p : prepared) :
  prepare_entry_for_extraction w entry = Ok p ->
  exists d : list (string * pyval),
    entry = PDict d /\
    p_id p = Py.get "link" (PStr "") d /\
    p_title p = Py.get "title" (PStr "") d /\
    p_source p = Py.get "source" (PStr "") d /\
    p_source_type p = Py.get "source_type" (PStr "") d /\
    p_published p = Py.get "published" (PStr "") d.
Proof.
  unfold prepare_entry_for_extraction.
  destruct entry; try discriminate.
  cbn [Py.get_attr bind].
  destruct (clip_summary _) as [clipped|]; [|discriminate].
  cbn [bind]. intro H. inversion H. exists d. repeat split.
Qed.

Lemma startswith_contains (p s : string) :
  Str.startswith p s = true -> Str.contains p s = true.
Proof.
  unfold Str.startswith. intro H. destruct s; cbn [Str.contains];
    rewrite H; reflexivity.
Qed.

(** X13: for a dictionary entry whose summary is a text, or absent,
    [prepare_entry_for_extraction] returns: the id is the link (the empty
    text without one), title, source, source type and published are
    handed over as they are, and the summary is a text of at most 1000
    characters, the first 1000 of the entry's own when it has no "<". *)
Theorem prepare_entry_clips_summary (w : oracle) (d : list (string * pyval))
        (summary : string) :
  Py.get "summary" (PStr "") d = PStr summary ->
  exists clipped : string,
    prepare_entry_for_extraction w (PDict d)
    = Ok (Prepared (Py.get "link" (PStr "") d)
                   (Py.get "title" (PStr "") d)
                   (PStr clipped)
                   (Py.get "source" (PStr "") d)
                   (Py.get "source_type" (PStr "") d)
                   (Py.get "published" (PStr "") d)) /\
    (String.length clipped <= 1000)%nat /\
    (Str.contains "<" summary = false -> clipped = Str.take 1000 summary).
Proof.
  intro Hs. unfold prepare_entry_for_extraction.
  cbn [Py.get_attr bind]. rewrite Hs.
  assert (Clip : forall s : string,
             exists clipped : string,
               clip_summary (PStr s) = Ok (PStr clipped) /\
               (String.length clipped <= 1000)%nat /\
               clipped = Str.take 1000 s).
  { intro s. unfold clip_summary. destruct (Py.truthy (PStr s)) eqn:T.
    - exists (Str.take 1000 s). split; [reflexivity|].
      split; [apply length_take|reflexivity].
    - exists "". split; [reflexivity|]. split; [simpl; lia|].
      destruct s; [reflexivity|discriminate]. }
  destruct (Str.startswith "<" summary || Str.contains "<" summary) eqn:H.
  - destruct (get_text w summary) as [text|].
    + destruct (Clip text) as (c & -> & L & _). cbn [bind].
      exists c. split; [reflexivity|]. split; [exact L|].
      intro N. rewrite N, orb_false_r in H.
      rewrite (startswith_contains _ _ H) in N. discriminate.
    + destruct (Clip summary) as (c & -> & L & E). cbn [bind].
      exists c. split; [reflexivity|]. split; [exact L|]. intros _. exact E.
  - destruct (Clip summary) as (c & -> & L & E). cbn [bind].
    exists c. split; [reflexivity|]. split; [exact L|]. intros _. exact E.
Qed.

Lemma prepare_entry_clips_summary_witness :
  exists clipped : string,
    prepare_entry_for_extraction quake_model strong_quake
    = Ok (Prepared (PStr "https://usgs.example/1") (PStr "M 6.5 - Somewhere")
                   (PStr clipped) (PStr "feed") (PStr "usgs")
                   (PStr "2024-12-31T14:00:00Z")).
Proof.
  destruct (@prepare_entry_clips_summary quake_model (items_of strong_quake) "")
    as (clipped & H & _).
  - reflexivity.
  - exists clipped. exact H.
Defined.

Lemma set_values (k v : pyval) (m : KMap.t) (k' v' : pyval) :
  In (k', v') (KMap.set k v m) -> In (k', v') m \/ v' = v.
Proof.
  induction m as [|[k0 v0] m IH]; cbn [KMap.set].
  - intros [H | []]. inversion H. right. reflexivity.
  - destruct (Py.key_eqb k k0).
    + intros [H | H]; [inversion H; right; reflexivity|left; right; exact H].
    + intros [H | H]; [left; left; exact H|].
      destruct (IH H); [left; right|right]; assumption.
Qed.

Lemma store_values (k v : pyval) (m m' : KMap.t) :
  store k v m = Ok m' ->
  is_details v ->
  (forall k' v', In (k', v') m -> is_details v') ->
  forall k' v', In (k', v') m' -> is_details v'.
Proof.
  unfold store. destruct (Py.hashable k); [|discriminate].
  intros H Hv Hm k' v' Hin. inversion H; subst m'.
  destruct (set_values _ _ _ _ _ Hin) as [Hin' | ->]; eauto.
Qed.

Lemma fallback_details_shape (entry : prepared) (fb : pyval) :
  fallback_details entry = Ok fb -> is_details fb.
Proof.
  unfold fallback_details.
  destruct (normalize_date (p_published entry)) as [date|]; [|discriminate].
  cbn [bind].
  destruct (short_description (p_summary entry)) as [description|];
    [|discriminate].
  cbn [bind]. intro H. inversion H. unfold is_details. eauto 10.
Qed.

Lemma store_result_values (result : pyval) (m m' : KMap.t) :
  store_result result m = Ok m' ->
  (forall k' v', In (k', v') m -> is_details v') ->
  forall k' v', In (k', v') m' -> is_details v'.
Proof.
  unfold store_result.
  destruct (Py.get_attr result "id" PNone) as [entry_id|]; [|discriminate].
  cbn [bind]. destruct (Py.truthy entry_id).
  - destruct result; try discriminate.
    destruct (if Py.truthy (Py.get "date" PNone d) then _ else _) as [r'|];
      [|discriminate].
    cbn [bind]. intros H Hm. eapply store_values; [exact H| |exact Hm].
    unfold is_details. eauto 10.
  - intros H Hm. inversion H; subst. exact Hm.
Qed.

Lemma store_results_values (results : list pyval) :
  forall m m' : KMap.t,
    store_results results m = Ok m' ->
    (forall k' v', In (k', v') m -> is_details v') ->
    forall k' v', In (k', v') m' -> is_details v'.
Proof.
  induction results as [|result results IH]; cbn [store_results];
    intros m m' H Hm.
  - inversion H; subst. exact Hm.
  - destruct (store_result result m) as [m1|] eqn:E; [|discriminate].
    cbn [bind] in H. eapply IH; [exact H|].
    eapply store_result_values; eassumption.
Qed.

Lemma fill_missing_values (entries : list prepared) :
  forall m m' : KMap.t,
    fill_missing entries m = Ok m' ->
    (forall k' v', In (k', v') m -> is_details v') ->
    forall k' v', In (k', v') m' -> is_details v'.
Proof.
  induction entries as [|entry entries IH]; cbn [fill_missing];
    intros m m' H Hm.
  - inversion H; subst. exact Hm.
  - destruct (missing (p_id entry) m) as [absent|]; [|discriminate].
    cbn [bind] in H. destruct absent.
    + destruct (fallback_details entry) as [fb|] eqn:F; [|discriminate].
      cbn [bind] in H.
      destruct (store (p_id entry) fb m) as [m1|] eqn:S; [|discriminate].
      cbn [bind] in H. eapply IH; [exact H|].
      eapply store_values; [exact S| |exact Hm].
      eapply fallback_details_shape; exact F.
    + cbn [bind] in H. eapply IH; eassumption.
Qed.

Lemma all_fallbacks_values (entries : list prepared) :
  forall m m' : KMap.t,
    all_fallbacks entries m = Ok m' ->
    (forall k' v', In (k', v') m -> is_details v') ->
    forall k' v', In (k', v') m' -> is_details v'.
Proof.
  induction entries as [|entry entries IH]; cbn [all_fallbacks];
    intros m m' H Hm.
  - inversion H; subst. exact Hm.
  - destruct (fallback_details entry) as [fb|] eqn:F; [|discriminate].
    cbn [bind] in H.
    destruct (store (p_id entry) fb m) as [m1|] eqn:S; [|discriminate].
    cbn [bind] in H. eapply IH; [exact H|].
    eapply store_values; [exact S| |exact Hm].
    eapply fallback_details_shape; exact F.
Qed.

(** X14: whatever the model answers and whatever the entries hold, every
    record of a map that [extract_details_in_batch] returns is a
    dictionary with the six keys disaster_type, location, date,
    severity, alert_level and description, in this order. *)
Theorem extracted_records_have_six_keys (w : oracle)
        (entries : list prepared) (max_retries : nat) (m : KMap.t) :
  extract_details_in_batch w entries max_retries = Ok m ->
  forall k v : pyval, In (k, v) m -> is_details v.
Proof.
  unfold extract_details_in_batch.
  assert (E : forall k v : pyval, In (k, v) (@nil (pyval * pyval)) ->
                                  is_details v) by (intros k v []).
  destruct entries as [|e0 entries0] eqn:Ee.
  - intro H. inversion H; subst. exact E.
  - rewrite <- Ee.
    destruct (attempts w entries max_retries 1) as [m0|] eqn:A.
    + intro H. inversion H; subst m0.
      destruct (attempts_some _ _ _ _ A) as (k & v & _ & _ & R).
      unfold read_answer in R.
      destruct (iterate (results_array v)) as [results|]; [|discriminate].
      cbn [bind] in R.
      destruct (store_results results []) as [given|] eqn:G; [|discriminate].
      cbn [bind] in R.
      eapply fill_missing_values; [exact R|].
      eapply store_results_values; [exact G|exact E].
    + intro H. eapply all_fallbacks_values; [exact H|exact E].
Qed.

Lemma extracted_records_have_six_keys_witness :
  is_details
    (PDict [("disaster_type", PStr "Flood");
            ("location", PStr "Unknown Location");
            ("date", PStr "Unknown Date");
            ("severity", PNone);
            ("alert_level", PStr "");
            ("description", PStr "")]).
Proof.
  apply (@extracted_records_have_six_keys talkative_model [prepared_quake] 2
           _ eq_refl (PStr "https://usgs.example/9")).
  right. left. reflexivity.
Defined.

(** X15: [extract_details_with_llm] builds the default of its lookup
    before it looks: for an entry it can prepare and whose published
    field [normalize_date] raises on, it raises the same exception,
    whatever the model answered. *)
Theorem extract_details_with_llm_raises (w : oracle) (entry : pyval)
        (p : prepared) (max_retries : nat) (e : exn) :
  prepare_entry_for_extraction w entry = Ok p ->
  normalize_date (p_published p) = Raise e ->
  extract_details_with_llm w entry max_retries = Raise e.
Proof.
  intros P N. unfold extract_details_with_llm. rewrite P. cbn [bind].
  destruct (prepare_inv _ _ P) as (d & -> & _ & _ & _ & _ & Hp).
  unfold extract_details_in_batch.
  destruct (attempts w [p] max_retries 1) as [m|]; cbn [bind].
  - cbn [Py.get_attr bind]. rewrite <- Hp, N. reflexivity.
  - cbn [all_fallbacks]. unfold fallback_details. rewrite N. reflexivity.
Qed.

Lemma extract_details_with_llm_raises_witness :
  extract_details_with_llm talkative_model
    (report "usgs" "M 6.0 - Nowhere" "" "https://usgs.example/1") 2
  = Ok (PDict [("disaster_type", PStr "Earthquake");
               ("location", PStr "Unknown Location");
               ("date", PStr "Unknown Date");
               ("severity", PNone);
               ("alert_level", PStr "");
               ("description", PStr "")])
  /\ extract_details_with_llm talkative_model
       (PDict [("link", PStr "https://usgs.example/1");
               ("published", PStr "2023-13-45")]) 2
     = Raise RecursionError.
Proof.
  split; [vm_compute; reflexivity|].
  apply (@extract_details_with_llm_raises talkative_model _
           (Prepared (PStr "https://usgs.example/1") (PStr "") (PStr "")
                     (PStr "") (PStr "") (PStr "2023-13-45")) 2
           RecursionError);
    vm_compute; reflexivity.
Defined.

(** *** What the grouper puts in a group *)

Lemma initial_filter_kept (disasters kept : list pyval) :
  initial_filter disasters = Ok kept ->
  forall d, In d kept ->
            In d disasters /\ should_filter_entry d PNone = Ok false.
Proof.
  revert kept. induction disasters as [|d0 disasters IH];
    cbn [initial_filter]; intros kept H d Hin.
  - inversion H; subst. contradiction.
  - destruct (should_filter_entry d0 PNone) as [drop|] eqn:E; [|discriminate].
    cbn [bind] in H.
    destruct (initial_filter disasters) as [kept0|]; [|discriminate].
    cbn [bind] in H. inversion H; subst kept. clear H.
    destruct drop.
    + destruct (IH kept0 eq_refl d Hin). split; [right|]; assumption.
    + destruct Hin as [<- | Hin]; [split; [left; reflexivity|exact E]|].
      destruct (IH kept0 eq_refl d Hin). split; [right|]; assumption.
Qed.

Lemma append_to_In (key : string) (member : pyval) (grouped : groups)
      (k : string) (members : list pyval) (m : pyval) :
  In (k, members) (append_to key member grouped) -> In m members ->
  (k = key /\ m = member)
  \/ exists members0, In (k, members0) grouped /\ In m members0.
Proof.
  induction grouped as [|[k0 ms0] grouped IH]; cbn [append_to].
  - intros [H | []] Hm. inversion H; subst.
    destruct Hm as [<- | []]. left. auto.
  - destruct (String.eqb k0 key) eqn:E.
    + apply String.eqb_eq in E. subst k0.
      intros [H | H] Hm.
      * inversion H; subst. apply in_app_or in Hm.
        destruct Hm as [Hm | [<- | []]].
        -- right. exists ms0. split; [left; reflexivity|exact Hm].
        -- left. auto.
      * right. exists members. split; [right; exact H|exact Hm].
    + intros [H | H] Hm.
      * inversion H; subst. right. exists members.
        split; [left; reflexivity|exact Hm].
      * destruct (IH H Hm) as [L | (ms & Hin & Hm')]; [left; exact L|].
        right. exists ms. split; [right; exact Hin|exact Hm'].
Qed.

Lemma group_one_from (disasters : list pyval) (all_details : KMap.t)
      (disaster : pyval) (grouped grouped' : groups) :
  In disaster disasters ->
  should_filter_entry disaster PNone = Ok false ->
  grouped_from disasters grouped ->
  group_one all_details disaster grouped = Ok grouped' ->
  grouped_from disasters grouped'.
Proof.
  intros Hin Hf G. unfold group_one.
  destruct disaster as [| | | | | |d];
    try (intro H; inversion H; subst; exact G).
  destruct (details_for (Py.get "link" (PStr "") d) all_details)
    as [[details|]|]; cbn [bind];
    try discriminate; try (intro H; inversion H; subst; exact G).
  destruct (Py.truthy details); [|intro H; inversion H; subst; exact G].
  assert (Add : should_filter_entry (PDict d) details <> Ok true ->
                add_to_group d details grouped = Ok grouped' ->
                grouped_from disasters grouped').
  { intros Hn H. unfold add_to_group in H.
    destruct (group_key d details) as [key|] eqn:K; [|discriminate].
    cbn [bind] in H.
    destruct (member_of d details) as [member|] eqn:M; [|discriminate].
    cbn [bind] in H. inversion H; subst grouped'. clear H.
    intros k members m Hk Hm.
    destruct (append_to_In _ _ _ _ _ _ Hk Hm) as [[-> ->] | (ms & Hk' & Hm')].
    - exists d, details. repeat (split; [assumption|]). exact M.
    - exact (G _ _ _ Hk' Hm'). }
  destruct (should_filter_entry (PDict d) details) as [[|]|e] eqn:S.
  - intro H. inversion H; subst. exact G.
  - apply Add. discriminate.
  - apply Add. discriminate.
Qed.

Lemma group_all_from (disasters : list pyval) (all_details : KMap.t)
      (todo : list pyval) :
  (forall d, In d todo ->
             In d disasters /\ should_filter_entry d PNone = Ok false) ->
  forall grouped grouped' : groups,
    grouped_from disasters grouped ->
    group_all all_details todo grouped = Ok grouped' ->
    grouped_from disasters grouped'.
Proof.
  induction todo as [|d todo IH]; cbn [group_all]; intros K grouped grouped' G H.
  - inversion H; subst. exact G.
  - destruct (group_one all_details d grouped) as [g1|] eqn:E; [|discriminate].
    cbn [bind] in H.
    destruct (K d (or_introl eq_refl)) as [Hin Hf].
    eapply IH; [|eapply group_one_from; eassumption|exact H].
    intros d' Hd'. apply K. right. exact Hd'.
Qed.

(** X16: [group_disasters] groups nothing the filter dropped: every
    member of every group it returns is built from a dictionary of the
    input that the filter keeps without details and does not drop with
    its details, and stands under the key of that entry and those
    details. *)
Theorem group_disasters_members_kept (w : oracle) (disasters : list pyval)
        (grouped : groups) :
  group_disasters w disasters = Ok grouped ->
  grouped_from disasters grouped.
Proof.
  unfold group_disasters.
  destruct (initial_filter disasters) as [kept|] eqn:F; [|discriminate].
  cbn [bind].
  assert (E : grouped_from disasters []) by (intros k ms m []).
  destruct kept as [|d0 kept0] eqn:Ek; [intro H; inversion H; subst; exact E|].
  rewrite <- Ek in *.
  destruct (prepare_all w kept) as [prepared_entries|]; [|discriminate].
  cbn [bind].
  destruct (extract_batches _ _ _ _ _) as [all_details|]; [|discriminate].
  cbn [bind]. intro H.
  eapply group_all_from; [|exact E|exact H].
  apply initial_filter_kept. exact F.
Qed.

Lemma group_disasters_members_kept_witness :
  grouped_from [strong_quake; weak_quake]
    [("None (6.5) in Somewhere on 2024-12-31",
      [PDict [("title", PStr "M 6.5 - Somewhere");
              ("summary", PStr "");
              ("link", PStr "https://usgs.example/1");
              ("published", PStr "2024-12-31T14:00:00Z");
              ("source", PStr "feed");
              ("details", null_type_details)]])].
Proof.
  apply (@group_disasters_members_kept null_type_model
           [strong_quake; weak_quake]).
  vm_compute. reflexivity.
Defined.

(** *** The ledger, row by row *)

(** X17: with the database reachable, [cleanup_old_entries] leaves only
    rows of the table that are not older than thirty days, and a cleanup
    at a later time gives the same table whether or not an earlier
    cleanup was made before it. *)
Theorem cleanup_keeps_recent_rows (earlier later : Z) (t : Ledger.table) :
  (forall r, In r (Ledger.cleanup_old_entries true later t) ->
             In r t /\ (later - 30 * 86400 <= Ledger.timestamp r)%Z) /\
  ((earlier <= later)%Z ->
   Ledger.cleanup_old_entries true later
     (Ledger.cleanup_old_entries true earlier t)
   = Ledger.cleanup_old_entries true later t).
Proof.
  unfold Ledger.cleanup_old_entries, Ledger.cutoff. split.
  - intros r Hr. apply filter_In in Hr. destruct Hr as [Hin Hb].
    split; [exact Hin|]. apply negb_true_iff, Z.ltb_ge in Hb. exact Hb.
  - intro Le. induction t as [|r t IH]; cbn [filter]; [reflexivity|].
    destruct (Ledger.timestamp r <? earlier - 30 * 86400)%Z eqn:E1;
      cbn [negb].
    + rewrite IH.
      destruct (Ledger.timestamp r <? later - 30 * 86400)%Z eqn:E2;
        cbn [negb]; [reflexivity|].
      apply Z.ltb_lt in E1. apply Z.ltb_ge in E2. lia.
    + cbn [filter]. rewrite IH. reflexivity.
Qed.

Lemma cleanup_keeps_recent_rows_witness :
  Ledger.cleanup_old_entries true 5000000
    (Ledger.cleanup_old_entries true 4000000
       [Ledger.Row "a" 1000000; Ledger.Row "b" 3000000])
  = Ledger.cleanup_old_entries true 5000000
      [Ledger.Row "a" 1000000; Ledger.Row "b" 3000000].
Proof.
  apply (proj2 (@cleanup_keeps_recent_rows 4000000 5000000
                  [Ledger.Row "a" 1000000; Ledger.Row "b" 3000000])).
  lia.
Defined.

Lemma insert_appends (now : Z) (t : Ledger.table) (l : string) :
  exists added : Ledger.table,
    Ledger.insert_or_ignore now t l = (t ++ added)%list /\
    forall r, In r added ->
              Ledger.timestamp r = now /\ Ledger.link r = l /\
              Ledger.has_link (Ledger.link r) t = false.
Proof.
  unfold Ledger.insert_or_ignore.
  destruct (Ledger.has_link l t) eqn:E.
  - exists []. split; [rewrite app_nil_r; reflexivity|]. intros r [].
  - exists [Ledger.Row l now]. split; [reflexivity|].
    intros r [<- | []]. cbn. auto.
Qed.

(** X18: with the database reachable, [save_sent_entries] only appends:
    the rows of the table stay as they are, in place, with the timestamp
    they had, and each row added carries the time of the save and a link
    of the list that the table did not have. *)
Theorem save_only_appends (now : Z) (new_links : list string)
        (t : Ledger.table) :
  exists added : Ledger.table,
    Ledger.save_sent_entries true now new_links t = (t ++ added)%list /\
    forall r, In r added ->
              Ledger.timestamp r = now /\ In (Ledger.link r) new_links /\
              Ledger.has_link (Ledger.link r) t = false.
Proof.
  unfold Ledger.save_sent_entries. revert t.
  induction new_links as [|l new_links IH]; intro t; cbn [fold_left].
  - exists []. split; [rewrite app_nil_r; reflexivity|]. intros r [].
  - destruct (insert_appends now t l) as (a1 & E1 & H1).
    destruct (IH (Ledger.insert_or_ignore now t l)) as (a2 & E2 & H2).
    exists (a1 ++ a2)%list. split.
    + rewrite E2, E1, app_assoc. reflexivity.
    + intros r Hr. apply in_app_or in Hr. destruct Hr as [Hr | Hr].
      * destruct (H1 r Hr) as (T & L & A). split; [exact T|].
        split; [left; symmetry; exact L|exact A].
      * destruct (H2 r Hr) as (T & L & A). split; [exact T|].
        split; [right; exact L|].
        rewrite E1, LedgerFacts.has_link_app in A.
        apply orb_false_iff in A. destruct A as [A _]. exact A.
Qed.

(** *** One cycle of [main], case by case *)

Lemma existsb_links (l : string) (t : Ledger.table) :
  existsb (String.eqb l) (map Ledger.link t) = Ledger.has_link l t.
Proof.
  unfold Ledger.has_link. induction t as [|r t IH]; cbn [map existsb];
    [reflexivity|].
  rewrite IH, (String.eqb_sym l). reflexivity.
Qed.

Lemma not_sent_none (sent_entries : list string) (ds : list pyval) :
  (forall d, In d ds ->
             exists l, link_of d = Ok (PStr l) /\
                       existsb (String.eqb l) sent_entries = true) ->
  not_sent sent_entries ds = Ok [].
Proof.
  induction ds as [|d ds IH]; intro H; cbn [not_sent]; [reflexivity|].
  destruct (H d (or_introl eq_refl)) as (l & Hl & Hs).
  rewrite Hl. cbn [bind is_sent]. rewrite IH, Hs; [reflexivity|].
  intros d' Hd'. apply H. right. exact Hd'.
Qed.

(** X19: a report whose link is in the ledger is not sent again: when
    the database is reachable and every fetched report has a text link
    that the ledger holds after the cleanup, the cycle ends without a
    call of the model, without a send and without a save. *)
Theorem main_skips_sent_links (w : world) (t : Ledger.table) :
  database_up w = true ->
  (forall d, In d (fetched w) ->
             exists l, link_of d = Ok (PStr l) /\
                       Ledger.has_link l
                         (Ledger.cleanup_old_entries true (now w) t) = true) ->
  main w t = Ok (None, Ledger.cleanup_old_entries true (now w) t).
Proof.
  intros Up H. unfold main. rewrite Up.
  rewrite not_sent_none; [reflexivity|].
  intros d Hd. destruct (H d Hd) as (l & Hl & Hs).
  exists l. split; [exact Hl|].
  cbn [Ledger.load_sent_entries]. rewrite existsb_links. exact Hs.
Qed.

Lemma main_skips_sent_links_witness :
  main failed_send_cycle [Ledger.Row "https://usgs.example/1" 1735650000]
  = Ok (None, [Ledger.Row "https://usgs.example/1" 1735650000]).
Proof.
  apply (@main_skips_sent_links failed_send_cycle
           [Ledger.Row "https://usgs.example/1" 1735650000]).
  - reflexivity.
  - intros d [<- | []]. exists "https://usgs.example/1".
    split; reflexivity.
Defined.

(** X20: a cycle that makes no send saves nothing: the table it leaves
    is the one the cleanup made. *)
Theorem main_without_send_only_cleans (w : world) (t t' : Ledger.table) :
  main w t = Ok (None, t') ->
  t' = Ledger.cleanup_old_entries (database_up w) (now w) t.
Proof.
  unfold main.
  destruct (not_sent _ (fetched w)) as [new|]; [|discriminate].
  cbn [bind]. destruct new as [|d0 new]; [intro H; inversion H; reflexivity|].
  destruct (process_disasters w (d0 :: new) 3) as [[text|]|];
    cbn [bind]; try discriminate; [|intro H; inversion H; reflexivity].
  destruct (negb (String.eqb text "")); [|intro H; inversion H; reflexivity].
  destruct (Slack.send_disaster_alert_block _ _ _) as [sent|];
    [|discriminate].
  cbn [bind]. destruct (links_of (d0 :: new)); discriminate.
Qed.

Lemma main_without_send_only_cleans_witness :
  [Ledger.Row "https://usgs.example/1" 1735650000]
  = Ledger.cleanup_old_entries (database_up failed_send_cycle)
      (now failed_send_cycle)
      [Ledger.Row "https://usgs.example/1" 1735650000].
Proof.
  apply (@main_without_send_only_cleans failed_send_cycle).
  vm_compute. reflexivity.
Defined.

(** X21: with the database out of reach the ledger has no say: the
    cycle sends what it would send with an empty ledger, every fetched
    report counting as new, and leaves the table as it found it. *)
Theorem main_database_down (w : world) (t : Ledger.table) :
  database_up w = false ->
  main w t
  = match main w [] with
    | Ok (sent, _) => Ok (sent, t)
    | Raise e => Raise e
    end.
Proof.
  intro Down. unfold main. rewrite Down.
  cbn [Ledger.cleanup_old_entries Ledger.load_sent_entries
       Ledger.save_sent_entries].
  destruct (not_sent [] (fetched w)) as [new|]; [|reflexivity].
  cbn [bind]. destruct new as [|d0 new]; [reflexivity|].
  destruct (process_disasters w (d0 :: new) 3) as [[text|]|];
    cbn [bind]; try reflexivity.
  destruct (negb (String.eqb text "")); [|reflexivity].
  destruct (Slack.send_disaster_alert_block _ _ _) as [sent|];
    [|reflexivity].
  cbn [bind]. destruct (links_of (d0 :: new)); reflexivity.
Qed.

Lemma main_database_down_witness :
  main (World [strong_quake] quake_model
              (fun _ _ => inl "### Earthquake") alert open_channel
              false 1735653600)
       [Ledger.Row "https://usgs.example/1" 1735650000]
  = Ok (Some true, [Ledger.Row "https://usgs.example/1" 1735650000]).
Proof.
  rewrite (@main_database_down
             (World [strong_quake] quake_model
                    (fun _ _ => inl "### Earthquake") alert open_channel
                    false 1735653600)
             [Ledger.Row "https://usgs.example/1" 1735650000] eq_refl).
  vm_compute. reflexivity.
Defined.

(** *** The link of a report in the summary prompt *)

Lemma no_pipe_after_replace (s : string) :
  Str.contains "|" (replace_text "|" "%7c" s) = false.
Proof.
  unfold replace_text. induction s as [|c s IH]; [reflexivity|].
  cbn [replace_from String.length Nat.sub].
  destruct (prefix "|" (String c s)) eqn:P.
  - cbn. exact IH.
  - cbn [Str.contains]. fold (replace_from "|" "%7c" 0 s). rewrite IH.
    assert (Q : prefix "|" (String c (replace_from "|" "%7c" 0 s)) = false).
    { cbn [prefix] in *. destruct (ascii_dec "|" c); [|reflexivity].
      destruct s; discriminate. }
    rewrite Q. reflexivity.
Qed.

(** X22: the URL that the summary prompt writes for a report has no
    pipe character, so that the pipe of the link "<url|More Info>" is the
    one before the label; and a report without a link, or with an empty
    one or "#", gets the placeholder URL. *)
Theorem prompt_url_has_no_pipe (report : pyval) (url : string) :
  prompt_url report = Ok url ->
  Str.contains "|" url = false /\
  formatted_link report = Ok ("<" ++ url ++ "|More Info>") /\
  (forall d, report = PDict d ->
             Py.truthy (Py.get "link" (PStr "#") d) = false
             \/ Py.get "link" (PStr "#") d = PStr "#" ->
             url = "https://example.com/no-link-available").
Proof.
  intro H. split; [|split].
  - unfold prompt_url in H.
    destruct (Py.get_attr report "link" (PStr "#")) as [u|]; [|discriminate].
    cbn [bind] in H.
    destruct (if negb (Py.truthy u) || is_text "#" u then _ else u);
      try discriminate.
    inversion H. apply no_pipe_after_replace.
  - unfold formatted_link. rewrite H. reflexivity.
  - intros d -> C. unfold prompt_url in H. cbn [Py.get_attr bind] in H.
    assert (T : negb (Py.truthy (Py.get "link" (PStr "#") d))
                || is_text "#" (Py.get "link" (PStr "#") d) = true).
    { destruct C as [C | C]; rewrite C; [reflexivity|].
      apply orb_true_r. }
    rewrite T in H. inversion H. vm_compute. reflexivity.
Qed.

Lemma prompt_url_has_no_pipe_witness :
  Str.contains "|" "https://example.org/a%7cb%7cc" = false.
Proof.
  apply (@prompt_url_has_no_pipe
           (PDict [("link", PStr "https://example.org/a|b%7Cc")])
           "https://example.org/a%7cb%7cc").
  reflexivity.
Defined.

(** *** Key construction and the summary call *)

(** Key construction on a record of six keys, the lookups made. *)
Lemma group_key_on_record (d : list (string * pyval))
      (disaster_type location date severity level description : pyval) :
  group_key d (PDict [("disaster_type", disaster_type);
                      ("location", location);
                      ("date", date);
                      ("severity", severity);
                      ("alert_level", level);
                      ("description", description)])
  = (key <- (if is_text "gdacs" (Py.get "source_type" PNone d)
                && Py.truthy level
             then
               match level with
               | PStr l =>
                   Ok (Py.str disaster_type ++ " (" ++ Str.capitalize l
                         ++ " Alert) in " ++ Py.str location
                         ++ " on " ++ Py.str date)
               | _ => Raise AttributeError
               end
             else if Py.truthy severity
             then Ok (Py.str disaster_type ++ " (" ++ Py.str severity
                        ++ ") in " ++ Py.str location ++ " on "
                        ++ Py.str date)
             else Ok (Py.str disaster_type ++ " in " ++ Py.str location
                        ++ " on " ++ Py.str date));;
     if is_text "noaa_spc" (Py.get "source_type" PNone d) then
       title <- Py.lower (Py.get "title" (PStr "") d);;
       if Str.contains "spc md" title then
         match Re.search md_re title with
         | Some md_match =>
             Ok ("Severe Weather Discussion (MD " ++ Re.group "1" md_match
                   ++ ")")
         | None => Ok key
         end
       else Ok key
     else Ok key).
Proof. reflexivity. Qed.

(** X23: on a record of the shape the extractor stores, key
    construction returns a key, provided that for a GDACS entry the alert
    level, when it is truthy, is a text, and that for an SPC entry the
    title, when there is one, is a text. *)
Theorem group_key_returns (d : list (string * pyval))
        (disaster_type location date severity level description : pyval) :
  (is_text "gdacs" (Py.get "source_type" PNone d) = true ->
   Py.truthy level = true -> is_str level = true) ->
  (is_text "noaa_spc" (Py.get "source_type" PNone d) = true ->
   is_str (Py.get "title" (PStr "") d) = true) ->
  exists key : string,
    group_key d (PDict [("disaster_type", disaster_type);
                        ("location", location);
                        ("date", date);
                        ("severity", severity);
                        ("alert_level", level);
                        ("description", description)])
    = Ok key.
Proof.
  intros G S. rewrite group_key_on_record.
  match goal with
  | |- exists key, bind ?m _ = _ =>
      assert (K : exists key0 : string, m = Ok key0)
  end.
  { destruct (is_text "gdacs" (Py.get "source_type" PNone d)); cbn [andb].
    - destruct (Py.truthy level) eqn:T.
      + specialize (G eq_refl eq_refl).
        destruct level; try discriminate. eexists. reflexivity.
      + destruct (Py.truthy severity); eexists; reflexivity.
    - destruct (Py.truthy severity); eexists; reflexivity. }
  destruct K as [key0 ->]. cbn [bind].
  destruct (is_text "noaa_spc" (Py.get "source_type" PNone d)).
  - specialize (S eq_refl).
    destruct (Py.get "title" (PStr "") d); try discriminate.
    cbn [Py.lower bind].
    destruct (Str.contains "spc md" (Str.lower s)); [|eexists; reflexivity].
    destruct (Re.search md_re (Str.lower s)); eexists; reflexivity.
  - eexists. reflexivity.
Qed.

Lemma group_key_returns_witness :
  exists key : string,
    group_key (items_of green_quake) null_level_details = Ok key.
Proof.
  apply (@group_key_returns (items_of green_quake) (PStr "Earthquake")
           (PStr "Chile") (PStr "2024-12-31") (PStr "5.1") PNone (PStr ""));
    discriminate.
Defined.

Lemma summary_attempts_some (w : world) (grouped : groups) (summary : string) :
  forall remaining attempt : nat,
    summary_attempts w grouped remaining attempt = Ok (Some summary) ->
    exists k : nat,
      (attempt <= k < attempt + remaining)%nat /\
      summarize w grouped k = inl summary /\
      forall j, (attempt <= j < k)%nat ->
                exists e, summarize w grouped j = inr e.
Proof.
  induction remaining as [|remaining IH]; intros attempt;
    cbn [summary_attempts]; [discriminate|].
  destruct (summarize w grouped attempt) as [s|e] eqn:E.
  - intro H. inversion H; subst s. exists attempt.
    split; [lia|]. split; [exact E|]. intros j Hj. lia.
  - destruct (Slack.send_disaster_alert_block _ _ _); cbn [bind];
      [|discriminate].
    destruct remaining as [|remaining'].
    + destruct (Slack.send_disaster_alert_block _ _ _); discriminate.
    + intro H. destruct (IH _ H) as (k & Hk & Hs & Hj).
      exists k. split; [lia|]. split; [exact Hs|].
      intros j Hj'. destruct (Nat.eq_dec j attempt) as [-> | Hne].
      * exists e. exact E.
      * apply Hj. lia.
Qed.

(** X24: a summary that [process_disasters] returns is the answer of
    the first summary call that succeeded, among the [max_retries] it
    may make, for groups that are not empty; it returns none when the
    filter leaves nothing to group. *)
Theorem process_disasters_summary (w : world) (disasters : list pyval)
        (max_retries : nat) (summary : string) :
  process_disasters w disasters max_retries = Ok (Some summary) ->
  exists (grouped : groups) (k : nat),
    group_disasters (model w) disasters = Ok grouped /\
    grouped <> [] /\
    (1 <= k <= max_retries)%nat /\
    summarize w grouped k = inl summary /\
    forall j, (1 <= j < k)%nat -> exists e, summarize w grouped j = inr e.
Proof.
  unfold process_disasters.
  destruct (group_disasters (model w) disasters) as [grouped|];
    [|discriminate].
  cbn [bind]. destruct grouped as [|g grouped]; [discriminate|].
  intro H. destruct (summary_attempts_some _ _ _ _ H) as (k & Hk & Hs & Hj).
  exists (g :: grouped), k. split; [reflexivity|]. split; [discriminate|].
  split; [lia|]. split; assumption.
Qed.

Lemma process_disasters_summary_witness :
  exists (grouped : groups) (k : nat),
    group_disasters (model failed_send_cycle) [strong_quake] = Ok grouped /\
    summarize failed_send_cycle grouped k
    = inl "### Earthquake (6.5) in Somewhere on 2024-12-31".
Proof.
  destruct (@process_disasters_summary failed_send_cycle [strong_quake] 3
              "### Earthquake (6.5) in Somewhere on 2024-12-31")
    as (grouped & k & G & _ & _ & S & _).
  - vm_compute. reflexivity.
  - exists grouped, k. split; assumption.
Defined.

(** *** The links of a cycle *)

(** A dictionary the filter returns from holds a text as its link, or
    no link at all. *)
Lemma filter_reads_link (items : list (string * pyval)) (details : pyval)
      (b : bool) :
  should_filter_entry (PDict items) details = Ok b ->
  exists l : string, Py.get "link" (PStr "") items = PStr l.
Proof.
  unfold should_filter_entry.
  destruct (field_lower (PDict items) "source_type"); [|discriminate].
  destruct (field_lower (PDict items) "title"); [|discriminate].
  destruct (field_lower (PDict items) "summary"); [|discriminate].
  cbn [bind]. unfold field_lower at 1.
  destruct (Py.get "link" (PStr "") items) as [| | | |l| |];
    cbn [Py.lower bind]; try discriminate.
  intros _. exists l. reflexivity.
Qed.

Lemma not_sent_In (sent_entries : list string) (ds new : list pyval) :
  not_sent sent_entries ds = Ok new ->
  forall d, In d new -> In d ds /\ exists v, link_of d = Ok v.
Proof.
  revert new. induction ds as [|d0 ds IH]; cbn [not_sent]; intros new H d Hin.
  - inversion H; subst. contradiction.
  - destruct (link_of d0) as [v|] eqn:E; [|discriminate]. cbn [bind] in H.
    destruct (is_sent sent_entries v) as [sent|]; [|discriminate].
    cbn [bind] in H.
    destruct (not_sent sent_entries ds) as [rest|]; [|discriminate].
    cbn [bind] in H. inversion H; subst new. clear H.
    destruct sent.
    + destruct (IH rest eq_refl d Hin) as [A B]. split; [right|]; assumption.
    + destruct Hin as [<- | Hin].
      * split; [left; reflexivity|exists v; exact E].
      * destruct (IH rest eq_refl d Hin) as [A B].
        split; [right|]; assumption.
Qed.

Lemma links_of_texts (ds : list pyval) :
  (forall d, In d ds -> exists l : string, link_of d = Ok (PStr l)) ->
  exists ls : list string, links_of ds = Ok ls.
Proof.
  induction ds as [|d ds IH]; intro H; cbn [links_of].
  - exists []. reflexivity.
  - destruct (H d (or_introl eq_refl)) as [l Hl]. rewrite Hl. cbn [bind].
    destruct IH as [ls Hls]; [intros d' Hd'; apply H; right; exact Hd'|].
    rewrite Hls. cbn [bind]. exists (l :: ls). reflexivity.
Qed.

(** When [main] comes to collect the links, [process_disasters] has
    returned for the new reports, so each of them went through the filter
    and holds a text as its link: collecting the links cannot fail. *)
Lemma links_of_after_filter (w : world) (sent_entries : list string)
      (ds new : list pyval) (max_retries : nat) (summary : option string) :
  not_sent sent_entries ds = Ok new ->
  process_disasters w new max_retries = Ok summary ->
  exists ls : list string, links_of new = Ok ls.
Proof.
  intros Hn Hp. apply links_of_texts. intros d Hin.
  destruct (not_sent_In _ _ Hn d Hin) as [_ [v Hv]].
  assert (F : exists b, should_filter_entry d PNone = Ok b).
  { destruct (should_filter_entry d PNone) as [b|e] eqn:E;
      [exists b; reflexivity|].
    exfalso. unfold process_disasters, group_disasters in Hp.
    rewrite (initial_filter_raises new d Hin E) in Hp. discriminate. }
  destruct F as [b Hb].
  unfold link_of in Hv. destruct d as [| | | | | |items]; try discriminate.
  destruct (filter_reads_link _ _ Hb) as [l Hl].
  unfold Py.get in Hl. unfold link_of.
  destruct (Py.lookup "link" items) as [v'|]; [|discriminate].
  exists l. rewrite Hl. reflexivity.
Qed.

(** A report whose link is a number counts as new, the number being no
    member of the set of texts, and the cycle ends in the filter, which
    calls [lower] on the link; a link that cannot be hashed ends the
    cycle at once. *)
Lemma main_link_no_text :
  not_sent ["https://usgs.example/1"] [numbered_link_report]
  = Ok [numbered_link_report] /\
  main numbered_link_cycle [] = Raise AttributeError /\
  not_sent [] [PDict [("link", PList [])]] = Raise TypeError /\
  not_sent [] [PDict [("title", PStr "M 6.5 - Somewhere")]] = Raise KeyError.
Proof.
  split; [vm_compute; reflexivity|].
  split; [vm_compute; reflexivity|].
  split; vm_compute; reflexivity.
Qed.
